(** * go-irodsclient: session layer and bulk transfer engine

    A shallow embedding of [irods/session] (the [IRODSSession] connection
    manager) and of [irods/fs/data_object_bulk.go] (serial and parallel
    upload and download of data objects), with the properties that the
    specification states about them and further properties that the code
    itself shows.

    Conventions of the embedding:
    - Go [int] and [int64] are [Z] values in the signed 64-bit range; the
      arithmetic of the source is written with [int_add] and [int_sub],
      which wrap around as Go does.
    - A [*connection.IRODSConnection] is its pointer identity, a number;
      [nil] is [0].
    - A Go [map] is a [gmap]; the order in which [range] visits a map is
      chosen by the runtime and is a parameter of the functions that range.
    - Whatever lives outside the repository files at hand (the connection
      pool, the wire protocol, the journal file) is an interface: a type
      class over an abstract state, one method per primitive the source
      calls.
    - A [for] loop without a bound takes fuel; [None] is "still running". *)

From Stdlib Require Import ZArith List Bool Lia.
From stdpp Require Import base option list gmap strings.

Local Open Scope Z_scope.

(** ** Machine integers *)

Module Int64.

Definition min_int : Z := - 2 ^ 63.
Definition max_int : Z := 2 ^ 63 - 1.

(** Two's complement wrap-around into the signed 64-bit range. *)
Definition wrap (z : Z) : Z := (z + 2 ^ 63) mod 2 ^ 64 - 2 ^ 63.

Definition in_range (z : Z) : Prop := min_int <= z <= max_int.

Definition int_add (a b : Z) : Z := wrap (a + b).
Definition int_sub (a b : Z) : Z := wrap (a - b).

(** Go's [/] and [%] truncate toward zero. *)
Definition int_div (a b : Z) : Z := wrap (Z.quot a b).
Definition int_rem (a b : Z) : Z := Z.rem a b.

End Int64.

Export Int64.

(** ** Errors *)

Inductive error : Type :=
| ErrConnectionPoolFull
| EOF
| IRODSError (code : Z)
| FileNotFoundError (path : string)
| Errorf (msg : string)
| Wrapf (msg : string) (cause : error).

(** [types.GetIRODSErrorCode]: the code of the innermost iRODS error. *)
Fixpoint GetIRODSErrorCode (e : error) : Z :=
  match e with
  | IRODSError code => code
  | Wrapf _ cause => GetIRODSErrorCode cause
  | _ => 0
  end.

Definition error_eqb_full (e : error) : bool :=
  match e with ErrConnectionPoolFull => true | _ => false end.

Definition is_EOF (e : error) : bool :=
  match e with EOF => true | _ => false end.

(** ** Connections, accounts, configuration *)

Definition nil_conn : N := 0%N.

Record IRODSAccount := {
  Host : string;
  Port : Z;
  ClientZone : string;
  ProxyUser : string;
  ClientUser : string;
  DefaultResource : string
}.

Record IRODSSessionConfig := {
  ApplicationName : string;
  ConnectionInitNumber : Z;
  ConnectionMaxIdle : Z;
  ConnectionMax : Z;
  ConnectionLifespan : Z;
  ConnectionIdleTimeout : Z;
  OperationTimeout : Z;
  StartNewTransaction : bool;
  ConnectionMaxNumber : Z
}.

Record ConnectionPoolConfig := {
  pc_Account : IRODSAccount;
  pc_ApplicationName : string;
  InitialCap : Z;
  MaxIdle : Z;
  MaxCap : Z;
  Lifespan : Z;
  IdleTimeout : Z;
  pc_OperationTimeout : Z
}.

Record IRODSMetrics := {
  connectionPoolFailures : Z
}.

Definition IncreaseCounterForConnectionPoolFailures (m : IRODSMetrics) (n : Z) : IRODSMetrics :=
  {| connectionPoolFailures := int_add (connectionPoolFailures m) n |}.

(** ** The connection pool, as the session sees it

    [P] is the state of the pool together with the connections it has
    created and the server behind them.  The methods are the primitives
    [IRODSSession] calls on [*ConnectionPool] and on a connection. *)

Class ConnectionPool (P : Type) := {
  NewConnectionPool : ConnectionPoolConfig -> error + P;
  AvailableConnections : P -> Z;
  OpenConnections : P -> Z;
  (* [Get] answers with the connection and whether it is newly created *)
  Get : P -> P * (error + N * bool);
  GetNew : P -> P * (error + N);
  Return : P -> N -> P * option error;
  Discard : P -> N -> P;
  Release : P -> P;
  (* connection primitives *)
  PoorMansRollback : P -> N -> P * option error;
  IsConnected : P -> N -> bool;
  IsSocketFailed : P -> N -> bool;
  SupportParallelUpload : P -> N -> bool
}.

(** ** Session *)

Module Session.
Section Session.

Context {P : Type} `{PoolOps : ConnectionPool P}.

(** The order in which [range] visits the entries of the share map. *)
Variable range_order : gmap N Z -> list (N * Z).

(** The order in which [range] visits a set of connections. *)
Variable range_conns : gset N -> list N.

Record IRODSSession := {
  account : IRODSAccount;
  config : IRODSSessionConfig;
  connectionPool : P;
  sharedConnections : gmap N Z;
  startNewTransaction : bool;
  poormansRollbackFail : bool;
  metrics : IRODSMetrics
}.

Definition set_pool (p : P) (s : IRODSSession) : IRODSSession :=
  {| account := account s; config := config s; connectionPool := p;
     sharedConnections := sharedConnections s;
     startNewTransaction := startNewTransaction s;
     poormansRollbackFail := poormansRollbackFail s; metrics := metrics s |}.

Definition set_shared (m : gmap N Z) (s : IRODSSession) : IRODSSession :=
  {| account := account s; config := config s; connectionPool := connectionPool s;
     sharedConnections := m;
     startNewTransaction := startNewTransaction s;
     poormansRollbackFail := poormansRollbackFail s; metrics := metrics s |}.

Definition set_transaction (snt prf : bool) (s : IRODSSession) : IRODSSession :=
  {| account := account s; config := config s; connectionPool := connectionPool s;
     sharedConnections := sharedConnections s;
     startNewTransaction := snt;
     poormansRollbackFail := prf; metrics := metrics s |}.

Definition set_metrics (m : IRODSMetrics) (s : IRODSSession) : IRODSSession :=
  {| account := account s; config := config s; connectionPool := connectionPool s;
     sharedConnections := sharedConnections s;
     startNewTransaction := startNewTransaction s;
     poormansRollbackFail := poormansRollbackFail s; metrics := m |}.

Definition poolConfig_of (acct : IRODSAccount) (cfg : IRODSSessionConfig) : ConnectionPoolConfig :=
  {| pc_Account := acct;
     pc_ApplicationName := ApplicationName cfg;
     InitialCap := ConnectionInitNumber cfg;
     MaxIdle := ConnectionMaxIdle cfg;
     MaxCap := ConnectionMax cfg;
     Lifespan := ConnectionLifespan cfg;
     IdleTimeout := ConnectionIdleTimeout cfg;
     pc_OperationTimeout := OperationTimeout cfg |}.

(** [NewIRODSSession]. *)
Definition NewIRODSSession (acct : IRODSAccount) (cfg : IRODSSessionConfig)
  : error + IRODSSession :=
  match NewConnectionPool (poolConfig_of acct cfg) with
  | inl err => inl err
  | inr pool =>
    let sess :=
      {| account := acct; config := cfg; connectionPool := pool;
         sharedConnections := ∅;
         startNewTransaction := StartNewTransaction cfg;
         poormansRollbackFail := false;
         metrics := {| connectionPoolFailures := 0 |} |} in
    (* when the user is anonymous, we cannot use transaction *)
    let sess :=
      if String.eqb (ClientUser (account sess)) "anonymous"
      then set_transaction false true sess
      else sess in
    (* test if it can create a new transaction *)
    if startNewTransaction sess then
      match Get pool with
      | (pool1, inl err) => let _ := Release pool1 in inl err
      | (pool1, inr (conn, _)) =>
        match PoorMansRollback pool1 conn with
        | (pool2, Some _) =>
          inr (set_transaction (startNewTransaction sess) true
                 (set_pool (Discard pool2 conn) sess))
        | (pool2, None) =>
          inr (set_pool (fst (Return pool2 conn)) sess)
        end
      end
    else inr sess
  end.

(** [getConnectionFromPool]. *)
Definition getConnectionFromPool (sess : IRODSSession) : IRODSSession * (error + N) :=
  match Get (connectionPool sess) with
  | (pool1, inl err) => (set_pool pool1 sess, inl err)
  | (pool1, inr (conn, isNewConn)) =>
    let sess := set_pool pool1 sess in
    if startNewTransaction sess && negb isNewConn then
      if poormansRollbackFail sess then
        (* always use new connection *)
        let pool2 := Discard pool1 conn in
        match GetNew pool2 with
        | (pool3, inl err) => (set_pool pool3 sess, inl err)
        | (pool3, inr conn') => (set_pool pool3 sess, inr conn')
        end
      else
        match PoorMansRollback pool1 conn with
        | (pool2, Some _) =>
          let pool3 := Discard pool2 conn in
          let sess := set_transaction (startNewTransaction sess) true
                        (set_pool pool3 sess) in
          match GetNew pool3 with
          | (pool4, inl err) => (set_pool pool4 sess, inl err)
          | (pool4, inr conn') => (set_pool pool4 sess, inr conn')
          end
        | (pool2, None) => (set_pool pool2 sess, inr conn)
        end
    else (sess, inr conn)
  end.

(** "put to share": count one more holder of [conn]. *)
Definition put_to_share (conn : N) (m : gmap N Z) : gmap N Z :=
  match m !! conn with
  | Some shares => <[conn := int_add shares 1]> m
  | None => <[conn := 1]> m
  end.

(** The scan of [AcquireConnection] for the least shared connection; it
    stops as soon as a share of one is seen. *)
Fixpoint min_share_scan (l : list (N * Z)) (minShare : Z) (minShareConn : N) : Z * N :=
  match l with
  | [] => (minShare, minShareConn)
  | (sharedConn, shareCount) :: rest =>
    let '(minShare', minShareConn') :=
      if (minShare =? 0) || (shareCount <? minShare)
      then (shareCount, sharedConn)
      else (minShare, minShareConn) in
    if minShare' =? 1 then (minShare', minShareConn')
    else min_share_scan rest minShare' minShareConn'
  end.

(** The first half of [AcquireConnection]: what the pool gives, if anything. *)
Definition try_pool (sess : IRODSSession) : IRODSSession * option N :=
  if 0 <? AvailableConnections (connectionPool sess) then
    match getConnectionFromPool sess with
    | (sess1, inl _) => (sess1, None)
    | (sess1, inr conn) => (sess1, Some conn)
    end
  else (sess, None).

(** [AcquireConnection]. *)
Definition AcquireConnection (sess : IRODSSession) : IRODSSession * (error + N) :=
  match try_pool sess with
  | (sess1, Some conn) =>
    (set_shared (put_to_share conn (sharedConnections sess1)) sess1, inr conn)
  | (sess1, None) =>
    (* find a connection from shared connection list that has minimum share count *)
    let '(minShare, minShareConn) :=
      min_share_scan (range_order (sharedConnections sess1)) 0 nil_conn in
    if (minShareConn =? nil_conn)%N then
      (set_metrics (IncreaseCounterForConnectionPoolFailures (metrics sess1) 1) sess1,
       inl (Errorf "failed to get a shared connection"))
    else
      (set_shared (<[minShareConn := int_add minShare 1]> (sharedConnections sess1)) sess1,
       inr minShareConn)
  end.

(** The first loop of [AcquireConnectionsMulti]: at most [n] draws from the pool. *)
Fixpoint acquire_from_pool (n : nat) (sess : IRODSSession) (connections : gset N)
  : IRODSSession * gset N :=
  match n with
  | O => (sess, connections)
  | S n' =>
    if 0 <? AvailableConnections (connectionPool sess) then
      match getConnectionFromPool sess with
      | (sess1, inl _) => (sess1, connections)
      | (sess1, inr conn) =>
        acquire_from_pool n'
          (set_shared (put_to_share conn (sharedConnections sess1)) sess1)
          ({[conn]} ∪ connections)
      end
    else (sess, connections)
  end.

(** One pass of the inner [range] over the share map. *)
Fixpoint share_round (l : list (N * Z)) (m : gmap N Z) (connections : gset N)
    (connectionsInNeed : Z) : gmap N Z * gset N * Z :=
  match l with
  | [] => (m, connections, connectionsInNeed)
  | (sharedConn, shareCount) :: rest =>
    let shareCount := int_add shareCount 1 in
    let connections := {[sharedConn]} ∪ connections in
    let m := <[sharedConn := shareCount]> m in
    let connectionsInNeed := int_sub connectionsInNeed 1 in
    if connectionsInNeed <=? 0 then (m, connections, connectionsInNeed)
    else share_round rest m connections connectionsInNeed
  end.

(** The outer loop [for connectionsInNeed > 0]. *)
Fixpoint share_loop (fuel : nat) (m : gmap N Z) (connections : gset N)
    (connectionsInNeed : Z) : option (gmap N Z * gset N) :=
  if 0 <? connectionsInNeed then
    match fuel with
    | O => None
    | S fuel' =>
      let '(m', connections', need') :=
        share_round (range_order m) m connections connectionsInNeed in
      share_loop fuel' m' connections' need'
    end
  else Some (m, connections).

(** [AcquireConnectionsMulti]. *)
Definition AcquireConnectionsMulti (fuel : nat) (sess : IRODSSession) (number : Z)
  : option (IRODSSession * (error + list N)) :=
  let '(sess1, connections) := acquire_from_pool (Z.to_nat number) sess ∅ in
  let connectionsInNeed := int_sub number (Z.of_nat (size connections)) in
  match share_loop fuel (sharedConnections sess1) connections connectionsInNeed with
  | None => None
  | Some (m, connections') =>
    Some (set_shared m sess1, inr (range_conns connections'))
  end.

(** [ReturnConnection]. *)
Definition ReturnConnection (sess : IRODSSession) (conn : N) : IRODSSession * option error :=
  match sharedConnections sess !! conn with
  | Some share =>
    let share := int_sub share 1 in
    if share <=? 0 then
      (* no share *)
      let sess := set_shared (delete conn (sharedConnections sess)) sess in
      if startNewTransaction sess && poormansRollbackFail sess then
        (* discard, since we cannot reuse the connection *)
        (set_pool (Discard (connectionPool sess) conn) sess, None)
      else
        match Return (connectionPool sess) conn with
        | (pool1, Some err) => (set_pool pool1 sess, Some err)
        | (pool1, None) => (set_pool pool1 sess, None)
        end
    else (set_shared (<[conn := share]> (sharedConnections sess)) sess, None)
  | None => (sess, None)
  end.

(** [DiscardConnection]. *)
Definition DiscardConnection (sess : IRODSSession) (conn : N) : IRODSSession * option error :=
  match sharedConnections sess !! conn with
  | Some share =>
    let share := int_sub share 1 in
    if share <=? 0 then
      let sess := set_shared (delete conn (sharedConnections sess)) sess in
      (set_pool (Discard (connectionPool sess) conn) sess, None)
    else (set_shared (<[conn := share]> (sharedConnections sess)) sess, None)
  | None => (sess, None)
  end.

(** [Release]. *)
Definition ReleaseSession (sess : IRODSSession) : IRODSSession :=
  set_pool (Release (connectionPool sess)) (set_shared ∅ sess).

(** The invariant of the share map: keys are real connections, every
    count is at least one. *)
Definition share_inv (m : gmap N Z) : Prop :=
  forall c n, m !! c = Some n -> c <> nil_conn /\ 1 <= n.

End Session.
End Session.

Arguments Session.IRODSSession : clear implicits.

(** ** The local file system

    [os.Stat], [os.Create], [os.OpenFile] and the [*os.File] methods the
    transfer engine calls.  A disk is the content of its files and, for
    each kind of operation, the paths on which it fails. *)

Inductive LocalOp := OpStat | OpOpen | OpRead | OpSeek | OpWrite.

Record Disk := {
  files : gmap string (list Byte.byte);
  fault : LocalOp -> string -> option error
}.

Definition set_files (fs : gmap string (list Byte.byte)) (d : Disk) : Disk :=
  {| files := fs; fault := fault d |}.

(** An open [*os.File]: its path and its read position. *)
Record File := { fname : string; fpos : Z }.

Definition O_RDONLY : Z := 0.
Definition O_WRONLY : Z := 1.
Definition O_RDWR : Z := 2.
Definition O_CREATE : Z := 64.
Definition O_TRUNC : Z := 512.

Definition has_flag (flag bit : Z) : bool := negb (Z.land flag bit =? 0).

Definition content_of (d : Disk) (name : string) : list Byte.byte :=
  default [] (files d !! name).

Definition os_Stat (d : Disk) (name : string) : error + Z :=
  match fault d OpStat name with
  | Some e => inl e
  | None =>
    match files d !! name with
    | None => inl (Errorf "no such file or directory")
    | Some content => inr (Z.of_nat (length content))
    end
  end.

Definition os_OpenFile (d : Disk) (name : string) (flag : Z) : Disk * (error + File) :=
  match fault d OpOpen name with
  | Some e => (d, inl e)
  | None =>
    match files d !! name with
    | None =>
      if has_flag flag O_CREATE
      then (set_files (<[name := []]> (files d)) d, inr {| fname := name; fpos := 0 |})
      else (d, inl (Errorf "no such file or directory"))
    | Some _ =>
      if has_flag flag O_TRUNC
      then (set_files (<[name := []]> (files d)) d, inr {| fname := name; fpos := 0 |})
      else (d, inr {| fname := name; fpos := 0 |})
    end
  end.

(** [os.Create(name)] is [OpenFile(name, O_RDWR|O_CREATE|O_TRUNC, 0666)]. *)
Definition os_Create (d : Disk) (name : string) : Disk * (error + File) :=
  os_OpenFile d name (Z.lor O_RDWR (Z.lor O_CREATE O_TRUNC)).

Definition slice (content : list Byte.byte) (off len : Z) : list Byte.byte :=
  take (Z.to_nat len) (drop (Z.to_nat off) content).

(** [f.Read(b)] with [len(b) = len]: the next bytes, [io.EOF] at the end. *)
Definition File_Read (d : Disk) (f : File) (len : Z) : File * (list Byte.byte * option error) :=
  match fault d OpRead (fname f) with
  | Some e => (f, ([], Some e))
  | None =>
    let data := slice (content_of d (fname f)) (fpos f) len in
    if (0 <? len) && (Z.of_nat (length data) =? 0) then (f, ([], Some EOF))
    else ({| fname := fname f; fpos := fpos f + Z.of_nat (length data) |}, (data, None))
  end.

(** [f.ReadAt(b, off)]: fills [b] or reports why it could not; a short
    read at the end of the file comes with [io.EOF]. *)
Definition File_ReadAt (d : Disk) (f : File) (len off : Z) : list Byte.byte * option error :=
  match fault d OpRead (fname f) with
  | Some e => ([], Some e)
  | None =>
    if off <? 0 then ([], Some (Errorf "negative offset"))
    else
      let data := slice (content_of d (fname f)) off len in
      (data, if Z.of_nat (length data) <? len then Some EOF else None)
  end.

Definition File_Seek (d : Disk) (f : File) (off : Z) : File * (error + Z) :=
  match fault d OpSeek (fname f) with
  | Some e => (f, inl e)
  | None =>
    if off <? 0 then (f, inl (Errorf "invalid argument"))
    else ({| fname := fname f; fpos := off |}, inr off)
  end.

Definition write_at (content data : list Byte.byte) (off : nat) : list Byte.byte :=
  take off content ++ replicate (off - length content) Byte.x00
    ++ data ++ drop (off + length data) content.

Definition File_WriteAt (d : Disk) (f : File) (data : list Byte.byte) (off : Z) : Disk * option error :=
  match fault d OpWrite (fname f) with
  | Some e => (d, Some e)
  | None =>
    if off <? 0 then (d, Some (Errorf "negative offset"))
    else
      (set_files (<[fname f := write_at (content_of d (fname f)) data (Z.to_nat off)]> (files d)) d,
       None)
  end.

(** ** Data objects, as the transfer engine sees them

    The primitives of [irods/fs] that the bulk transfer functions call on a
    connection; [P] is the state behind the connections, as for the pool.
    A read or a write answers, besides its result, with the [processed]
    values it reported to its tracker callback while it ran. *)

Record IRODSFileHandle := {
  FileDescriptor : Z;
  Path : string;
  OpenMode : string
}.

Inductive Request :=
| CloseDataObjectReplicaRequest (desc : Z).

Class DataObjectOps (P : Type) := {
  CreateDataObject :
    P -> N -> string -> string -> string -> bool -> gmap string string ->
    P * (error + IRODSFileHandle);
  OpenDataObject :
    P -> N -> string -> string -> string -> gmap string string ->
    P * (error + IRODSFileHandle);
  OpenDataObjectForPutParallel :
    P -> N -> string -> string -> string -> Z -> Z -> gmap string string ->
    P * (error + IRODSFileHandle);
  OpenDataObjectWithReplicaToken :
    P -> N -> string -> string -> string -> string -> string -> Z -> Z ->
    gmap string string -> P * (error + IRODSFileHandle);
  GetReplicaAccessInfo : P -> N -> IRODSFileHandle -> P * (error + string * string);
  SeekDataObject : P -> N -> IRODSFileHandle -> Z -> P * (error + Z);
  ReadDataObjectWithTrackerCallBack :
    P -> N -> IRODSFileHandle -> Z -> P * (list Byte.byte * list Z * option error);
  WriteDataObjectWithTrackerCallBack :
    P -> N -> IRODSFileHandle -> list Byte.byte -> P * (list Z * option error);
  CloseDataObject : P -> N -> IRODSFileHandle -> P * option error;
  ReplicateDataObject : P -> N -> string -> string -> bool -> bool -> P * option error;
  RequestAndCheck : P -> N -> Request -> P * option error
}.

(** ** The transfer status file (resume journal) *)

Record DataObjectTransferStatusEntry := {
  StartOffset : Z;
  Length : Z;
  CompletedLength : Z
}.

Record DataObjectTransferStatus := {
  st_Path : string;
  st_Size : Z;
  Threads : Z;
  StatusMap : gmap Z DataObjectTransferStatusEntry
}.

(** [J] is the state of the status file of one download; the methods are
    those of [DataObjectTransferStatusLocal]. *)
Class TransferStatusOps (J : Type) := {
  GetOrNewDataObjectTransferStatusLocal :
    J -> string -> Z -> Z -> J * (error + DataObjectTransferStatus);
  GetStatus : J -> option DataObjectTransferStatus;
  CreateStatusFile : J -> J * option error;
  WriteHeader : J -> J * option error;
  WriteStatus : J -> DataObjectTransferStatusEntry -> J * option error;
  CloseStatusFile : J -> J * option error;
  DeleteStatusFile : J -> J * option error
}.

(** The calls made on the status file, in order. *)
Inductive JournalCall :=
| CallCreateStatusFile
| CallWriteHeader
| CallWriteStatus (entry : DataObjectTransferStatusEntry)
| CallCloseStatusFile
| CallDeleteStatusFile.

(** A goroutine either returns or panics. *)
Inductive outcome (A : Type) : Type :=
| Ret (a : A)
| Panic (msg : string).
Arguments Ret {A} a.
Arguments Panic {A} msg.

(** iRODS error codes used by [CloseDataObjectReplica] ([irods/common]). *)
Definition CAT_NO_ROWS_FOUND : Z := -808000.
Definition CAT_UNKNOWN_COLLECTION : Z := -813000.
Definition CAT_UNKNOWN_FILE : Z := -817000.

(** ** The bulk transfer engine *)

Module Transfer.
Import Session.
Section Transfer.

Context {P : Type} `{PoolOps : ConnectionPool P} `{DataOps : DataObjectOps P}.
Context {J : Type} `{StatusOps : TransferStatusOps J}.

Variable range_order : gmap N Z -> list (N * Z).
Variable range_conns : gset N -> list N.

(** [common.ReadWriteBufferSize]. *)
Variable ReadWriteBufferSize : Z.

(** [util.GetNumTasksForParallelTransfer]. *)
Variable GetNumTasksForParallelTransfer : Z -> Z.

(** Session methods used by the upload whose code is not at hand. *)
Variable AcquireUnmanagedConnection : IRODSSession P -> IRODSSession P * (error + N).
Variable SessionSupportParallelUpload : IRODSSession P -> bool.

(** Everything a transfer reads and writes: the session, the local disk,
    the status file, and the variables its goroutines share.  [wlog]
    records, for the task that starts at the first component, the offset
    and the length of each chunk it wrote; [progress] records the calls of
    the caller's tracker callback. *)
Record World := {
  session : IRODSSession P;
  disk : Disk;
  journal : J;
  journal_log : list JournalCall;
  totalBytes : Z;
  taskProgress : list Z;
  errChan : list error;
  errCap : Z;
  progress : list (Z * Z);
  wlog : list (Z * Z * Z)
}.

Definition set_session (x : IRODSSession P) (w : World) : World :=
  {| session := x; disk := disk w; journal := journal w;
     journal_log := journal_log w; totalBytes := totalBytes w;
     taskProgress := taskProgress w; errChan := errChan w; errCap := errCap w;
     progress := progress w; wlog := wlog w |}.
Definition set_disk (x : Disk) (w : World) : World :=
  {| session := session w; disk := x; journal := journal w;
     journal_log := journal_log w; totalBytes := totalBytes w;
     taskProgress := taskProgress w; errChan := errChan w; errCap := errCap w;
     progress := progress w; wlog := wlog w |}.
Definition set_journal (x : J) (w : World) : World :=
  {| session := session w; disk := disk w; journal := x;
     journal_log := journal_log w; totalBytes := totalBytes w;
     taskProgress := taskProgress w; errChan := errChan w; errCap := errCap w;
     progress := progress w; wlog := wlog w |}.
Definition set_journal_log (x : list JournalCall) (w : World) : World :=
  {| session := session w; disk := disk w; journal := journal w; journal_log := x;
     totalBytes := totalBytes w; taskProgress := taskProgress w;
     errChan := errChan w; errCap := errCap w; progress := progress w;
     wlog := wlog w |}.
Definition set_totalBytes (x : Z) (w : World) : World :=
  {| session := session w; disk := disk w; journal := journal w;
     journal_log := journal_log w; totalBytes := x; taskProgress := taskProgress w;
     errChan := errChan w; errCap := errCap w; progress := progress w;
     wlog := wlog w |}.
Definition set_taskProgress (x : list Z) (w : World) : World :=
  {| session := session w; disk := disk w; journal := journal w;
     journal_log := journal_log w; totalBytes := totalBytes w; taskProgress := x;
     errChan := errChan w; errCap := errCap w; progress := progress w;
     wlog := wlog w |}.
Definition set_errChan (x : list error) (w : World) : World :=
  {| session := session w; disk := disk w; journal := journal w;
     journal_log := journal_log w; totalBytes := totalBytes w;
     taskProgress := taskProgress w; errChan := x; errCap := errCap w;
     progress := progress w; wlog := wlog w |}.
Definition set_errCap (x : Z) (w : World) : World :=
  {| session := session w; disk := disk w; journal := journal w;
     journal_log := journal_log w; totalBytes := totalBytes w;
     taskProgress := taskProgress w; errChan := errChan w; errCap := x;
     progress := progress w; wlog := wlog w |}.
Definition set_progress (x : list (Z * Z)) (w : World) : World :=
  {| session := session w; disk := disk w; journal := journal w;
     journal_log := journal_log w; totalBytes := totalBytes w;
     taskProgress := taskProgress w; errChan := errChan w; errCap := errCap w;
     progress := x; wlog := wlog w |}.
Definition set_wlog (x : list (Z * Z * Z)) (w : World) : World :=
  {| session := session w; disk := disk w; journal := journal w;
     journal_log := journal_log w; totalBytes := totalBytes w;
     taskProgress := taskProgress w; errChan := errChan w; errCap := errCap w;
     progress := progress w; wlog := x |}.

Definition pool (w : World) : P := connectionPool (session w).
Definition set_conn_state (p : P) (w : World) : World :=
  set_session (set_pool p (session w)) w.

(** [callback(a, b)] when [callback != nil]. *)
Definition call_back (cb : bool) (a b : Z) (w : World) : World :=
  if cb then set_progress (progress w ++ [(a, b)]) w else w.

(** [errChan <- err]; a send on a full channel never returns. *)
Definition send (err : error) (w : World) : option World :=
  if Z.of_nat (length (errChan w)) <? errCap w
  then Some (set_errChan (errChan w ++ [err]) w)
  else None.

Definition default_resource (w : World) (resource : string) : string :=
  if (String.length resource =? 0)%nat
  then DefaultResource (account (session w))
  else resource.

(** [CloseDataObjectReplica]. *)
Definition CloseDataObjectReplica (p : P) (conn : N) (handle : IRODSFileHandle)
  : P * option error :=
  if (conn =? nil_conn)%N || negb (IsConnected p conn) then
    (p, Some (Errorf "connection is nil or disconnected"))
  else if negb (SupportParallelUpload p conn) then
    (p, Some (Errorf "does not support close replica in current iRODS Version"))
  else
    match RequestAndCheck p conn (CloseDataObjectReplicaRequest (FileDescriptor handle)) with
    | (p1, Some err) =>
      if (GetIRODSErrorCode err =? CAT_NO_ROWS_FOUND)
         || (GetIRODSErrorCode err =? CAT_UNKNOWN_FILE) then
        (p1, Some (Wrapf "failed to find the data object for path"
                     (FileNotFoundError (Path handle))))
      else if GetIRODSErrorCode err =? CAT_UNKNOWN_COLLECTION then
        (p1, Some (Wrapf "failed to find the collection for path"
                     (FileNotFoundError (Path handle))))
      else (p1, Some (Wrapf "failed to close data object replica" err))
    | (p1, None) => (p1, None)
    end.

(** *** Serial upload *)

Section Upload.

Variables (localPath irodsPath : string) (replicate : bool)
          (keywords : gmap string string) (callback : bool).

(** [blockWriteCallback] of [UploadDataObject]. *)
Definition blockWriteCallback (fileLength totalBytesUploaded : Z)
    (w : World) (processed : Z) : World :=
  call_back callback (int_add totalBytesUploaded processed) fileLength w.

(** The copy loop of [UploadDataObject]; the result is [writeErr]. *)
Fixpoint upload_copy (fuel : nat) (w : World) (conn : N) (handle : IRODSFileHandle)
    (f : File) (fileLength totalBytesUploaded : Z) : option (World * option error) :=
  match fuel with
  | O => None
  | S fuel' =>
    let '(f1, (data, readErr)) := File_Read (disk w) f ReadWriteBufferSize in
    let bytesRead := Z.of_nat (length data) in
    let written : World * Z * option error :=
      if 0 <? bytesRead then
        let '(p1, (reports, writeErr)) :=
          WriteDataObjectWithTrackerCallBack (pool w) conn handle data in
        let w := fold_left (blockWriteCallback fileLength totalBytesUploaded) reports
                   (set_conn_state p1 w) in
        match writeErr with
        | Some e => (w, totalBytesUploaded, Some e)
        | None =>
          let total := int_add totalBytesUploaded bytesRead in
          (call_back callback total fileLength w, total, None)
        end
      else (w, totalBytesUploaded, None) in
    match written with
    | (w1, _, Some e) => Some (w1, Some e)
    | (w1, total, None) =>
      match readErr with
      | Some e =>
        if is_EOF e then Some (w1, None)
        else Some (w1, Some (Wrapf "failed to read file" e))
      | None => upload_copy fuel' w1 conn handle f1 fileLength total
      end
    end
  end.

(** [UploadDataObject]. *)
Definition UploadDataObject (fuel : nat) (w : World) (resource : string)
  : option (outcome (World * option error)) :=
  (* use default resource when resource param is empty *)
  let resource := default_resource w resource in
  match os_Stat (disk w) localPath with
  | inl err => Some (Ret (w, Some (Wrapf "failed to stat file" err)))
  | inr fileLength =>
    match AcquireConnection range_order (session w) with
    | (s1, inl err) => Some (Ret (set_session s1 w, Some (Wrapf "failed to get connection" err)))
    | (s1, inr conn) =>
      let w := set_session s1 w in
      (* defer session.ReturnConnection(conn) *)
      let returning (r : World * option error) : World * option error :=
        (set_session (fst (ReturnConnection (session (fst r)) conn)) (fst r), snd r) in
      if (conn =? nil_conn)%N || negb (IsConnected (pool w) conn) then
        Some (Ret (returning (w, Some (Errorf "connection is nil or disconnected"))))
      else
        match os_OpenFile (disk w) localPath O_RDONLY with
        | (d1, inl err) =>
          Some (Ret (returning (set_disk d1 w, Some (Wrapf "failed to open file" err))))
        | (d1, inr f) =>
          let w := set_disk d1 w in
          (* open a new file *)
          match CreateDataObject (pool w) conn irodsPath resource "w+" true keywords with
          | (p1, inl err) =>
            Some (Ret (returning (set_conn_state p1 w,
                                  Some (Wrapf "failed to open data object" err))))
          | (p1, inr handle) =>
            let w := set_conn_state p1 w in
            let w := call_back callback 0 fileLength w in
            match upload_copy fuel w conn handle f fileLength 0 with
            | None => None
            | Some (w, writeErr) =>
              let w := set_conn_state (fst (CloseDataObject (pool w) conn handle)) w in
              match writeErr with
              | Some e => Some (Ret (returning (w, Some e)))
              | None =>
                (* replicate *)
                if replicate then
                  match ReplicateDataObject (pool w) conn irodsPath "" true false with
                  | (p2, Some replErr) => Some (Ret (returning (set_conn_state p2 w, Some replErr)))
                  | (p2, None) => Some (Ret (returning (set_conn_state p2 w, None)))
                  end
                else Some (Ret (returning (w, None)))
              end
            end
          end
        end
    end
  end.

End Upload.

(** *** Partition of an object into tasks *)

Record Task := { taskID : nat; taskOffset : Z; taskLength : Z }.

(** [lengthPerThread]: the quotient, plus one if the division leaves a rest. *)
Definition lengthPerThread (fileLength numTasks : Z) : Z :=
  let l := int_div fileLength numTasks in
  if 0 <? int_rem fileLength numTasks then int_add l 1 else l.

(** The loop [for i := 0; i < numTasks; i++] that starts the tasks: task
    [i] gets the running [offset] and the length [lengthPerThread]. *)
Fixpoint spawn (n i : nat) (offset lengthPerThread : Z) : list Task :=
  match n with
  | O => []
  | S n' =>
    {| taskID := i; taskOffset := offset; taskLength := lengthPerThread |}
      :: spawn n' (S i) (int_add offset lengthPerThread) lengthPerThread
  end.

Definition partition (fileLength numTasks : Z) : list Task :=
  spawn (Z.to_nat numTasks) 0 0 (lengthPerThread fileLength numTasks).

(** [numTasks] as the transfer functions resolve it from [taskNum]. *)
Definition resolve_tasks (taskNum fileLength : Z) : Z :=
  if taskNum <=? 0 then GetNumTasksForParallelTransfer fileLength else taskNum.

Definition chunk_len (taskRemain : Z) : Z :=
  if taskRemain <? ReadWriteBufferSize then taskRemain else ReadWriteBufferSize.

(** *** Parallel upload *)

Section ParallelUpload.

Variables (localPath irodsPath : string) (replicate : bool)
          (keywords : gmap string string) (callback : bool).

(** The copy loop of [uploadTask]; the result is [taskWriteErr].  The
    remote handle was positioned at [taskOffset] and is written in
    sequence, so the chunk read at [taskOffset+(taskLength-taskRemain)] is
    written at that offset of the data object. *)
Fixpoint uploadTask_copy (fuel : nat) (w : World) (taskConn : N)
    (taskHandle : IRODSFileHandle) (f : File)
    (fileLength taskOffset taskLength taskRemain : Z) : option (World * option error) :=
  if 0 <? taskRemain then
    match fuel with
    | O => None
    | S fuel' =>
      let bufferLen := chunk_len taskRemain in
      let at_off := int_add taskOffset (int_sub taskLength taskRemain) in
      let '(data, taskReadErr) := File_ReadAt (disk w) f bufferLen at_off in
      let bytesRead := Z.of_nat (length data) in
      let written : World * Z * option error :=
        if 0 <? bytesRead then
          let '(p1, (_, taskWriteErr)) :=
            WriteDataObjectWithTrackerCallBack (pool w) taskConn taskHandle data in
          let w := set_conn_state p1 w in
          match taskWriteErr with
          | Some e => (w, taskRemain, Some e)
          | None =>
            let w := set_wlog (wlog w ++ [(taskOffset, at_off, bytesRead)]) w in
            let w := set_totalBytes (int_add (totalBytes w) bytesRead) w in
            let w := call_back callback (totalBytes w) fileLength w in
            (w, int_sub taskRemain bytesRead, None)
          end
        else (w, taskRemain, None) in
      match written with
      | (w1, _, Some e) => Some (w1, Some e)
      | (w1, taskRemain1, None) =>
        match taskReadErr with
        | Some e =>
          if is_EOF e then Some (w1, None)
          else Some (w1, Some (Wrapf "failed to read file" e))
        | None =>
          uploadTask_copy fuel' w1 taskConn taskHandle f
            fileLength taskOffset taskLength taskRemain1
        end
      end
    end
  else Some (w, None).

(** [uploadTask], the body of one upload goroutine. *)
Definition uploadTask (fuel : nat) (w : World)
    (resource replicaToken resourceHierarchy : string) (numTasks fileLength : Z)
    (taskOffset taskLength : Z) : option World :=
  match AcquireUnmanagedConnection (session w) with
  | (s1, inl taskErr) => send (Wrapf "failed to get connection" taskErr) (set_session s1 w)
  | (s1, inr taskConn) =>
    let w := set_session s1 w in
    (* defer session.DiscardConnection(taskConn) *)
    let discarding (r : option World) : option World :=
      match r with
      | None => None
      | Some w => Some (set_session (fst (DiscardConnection (session w) taskConn)) w)
      end in
    if (taskConn =? nil_conn)%N || negb (IsConnected (pool w) taskConn) then
      discarding (send (Errorf "connection is nil or disconnected") w)
    else
      match OpenDataObjectWithReplicaToken (pool w) taskConn irodsPath resource "w"
              replicaToken resourceHierarchy numTasks fileLength keywords with
      | (p1, inl taskErr) => discarding (send taskErr (set_conn_state p1 w))
      | (p1, inr taskHandle) =>
        let w := set_conn_state p1 w in
        (* defer CloseDataObjectReplica(taskConn, taskHandle) *)
        let closing (r : option World) : option World :=
          match r with
          | None => None
          | Some w =>
            match CloseDataObjectReplica (pool w) taskConn taskHandle with
            | (p2, Some errClose) => send errClose (set_conn_state p2 w)
            | (p2, None) => Some (set_conn_state p2 w)
            end
          end in
        discarding (closing
          match os_OpenFile (disk w) localPath O_RDONLY with
          | (d1, inl taskErr) => send (Wrapf "failed to open file" taskErr) (set_disk d1 w)
          | (d1, inr f) =>
            let w := set_disk d1 w in
            match SeekDataObject (pool w) taskConn taskHandle taskOffset with
            | (p2, inl taskErr) => send taskErr (set_conn_state p2 w)
            | (p2, inr taskNewOffset) =>
              let w := set_conn_state p2 w in
              if negb (taskNewOffset =? taskOffset) then
                send (Errorf "failed to seek to target offset") w
              else
                match uploadTask_copy fuel w taskConn taskHandle f
                        fileLength taskOffset taskLength taskLength with
                | None => None
                | Some (w, Some taskWriteErr) => send taskWriteErr w
                | Some (w, None) => Some w
                end
            end
          end)
      end
  end.

(** The goroutines, run one after the other in the order they are started. *)
Fixpoint run_upload_tasks (fuel : nat) (w : World)
    (resource replicaToken resourceHierarchy : string) (numTasks fileLength : Z)
    (tasks : list Task) : option World :=
  match tasks with
  | [] => Some w
  | t :: rest =>
    match uploadTask fuel w resource replicaToken resourceHierarchy numTasks fileLength
            (taskOffset t) (taskLength t) with
    | None => None
    | Some w1 =>
      run_upload_tasks fuel w1 resource replicaToken resourceHierarchy
        numTasks fileLength rest
    end
  end.

(** [UploadDataObjectParallel]. *)
Definition UploadDataObjectParallel (fuel : nat) (w : World) (resource : string)
    (taskNum : Z) : option (outcome (World * option error)) :=
  if negb (SessionSupportParallelUpload (session w)) then
    (* serial upload *)
    UploadDataObject localPath irodsPath replicate keywords callback fuel w resource
  else
    (* use default resource when resource param is empty *)
    let resource := default_resource w resource in
    match os_Stat (disk w) localPath with
    | inl err => Some (Ret (w, Some (Wrapf "failed to stat file" err)))
    | inr fileLength =>
      if fileLength =? 0 then
        (* empty file *)
        UploadDataObject localPath irodsPath replicate keywords callback fuel w resource
      else
        let numTasks := resolve_tasks taskNum fileLength in
        if numTasks =? 1 then
          (* serial upload *)
          UploadDataObject localPath irodsPath replicate keywords callback fuel w resource
        else
          match AcquireUnmanagedConnection (session w) with
          | (s1, inl err) =>
            Some (Ret (set_session s1 w, Some (Wrapf "failed to get connection" err)))
          | (s1, inr conn) =>
            let w := set_session s1 w in
            (* defer session.DiscardConnection(conn) *)
            let discarding (r : World * option error) : World * option error :=
              (set_session (fst (DiscardConnection (session (fst r)) conn)) (fst r), snd r) in
            if (conn =? nil_conn)%N || negb (IsConnected (pool w) conn) then
              Some (Ret (discarding (w, Some (Errorf "connection is nil or disconnected"))))
            else
              match OpenDataObjectForPutParallel (pool w) conn irodsPath resource "w+"
                      numTasks fileLength keywords with
              | (p1, inl err) => Some (Ret (discarding (set_conn_state p1 w, Some err)))
              | (p1, inr handle) =>
                let w := set_conn_state p1 w in
                match GetReplicaAccessInfo (pool w) conn handle with
                | (p2, inl err) =>
                  let w := set_conn_state p2 w in
                  let w := set_conn_state (fst (CloseDataObject (pool w) conn handle)) w in
                  Some (Ret (discarding (w, Some err)))
                | (p2, inr (replicaToken, resourceHierarchy)) =>
                  let w := set_conn_state p2 w in
                  (* errChan := make(chan error, numTasks) *)
                  if numTasks <? 0 then Some (Panic "makechan: size out of range")
                  else
                    let w := set_errCap numTasks (set_errChan [] w) in
                    let w := set_totalBytes 0 w in
                    let w := call_back callback 0 fileLength w in
                    (* lengthPerThread := fileLength / int64(numTasks) *)
                    if numTasks =? 0 then Some (Panic "integer divide by zero")
                    else
                      match run_upload_tasks fuel w resource replicaToken
                              resourceHierarchy numTasks fileLength
                              (partition fileLength numTasks) with
                      | None => None
                      | Some w =>
                        match errChan w with
                        | e :: rest =>
                          let w := set_conn_state (fst (CloseDataObject (pool w) conn handle)) w in
                          Some (Ret (discarding (set_errChan rest w, Some e)))
                        | [] =>
                          match CloseDataObject (pool w) conn handle with
                          | (p3, Some err) => Some (Ret (discarding (set_conn_state p3 w, Some err)))
                          | (p3, None) =>
                            let w := set_conn_state p3 w in
                            (* replicate *)
                            if replicate then
                              match ReplicateDataObject (pool w) conn irodsPath "" true false with
                              | (p4, Some err) =>
                                Some (Ret (discarding (set_conn_state p4 w, Some err)))
                              | (p4, None) => Some (Ret (discarding (set_conn_state p4 w, None)))
                              end
                            else Some (Ret (discarding (w, None)))
                          end
                        end
                      end
                end
              end
          end
    end.

End ParallelUpload.

(** *** Parallel download

    [DownloadDataObjectParallel] and [DownloadDataObjectParallelResumable]
    run the same goroutine but for the status file: [resumable] selects the
    lines that only the resumable one has. *)

Section ParallelDownload.

Variables (irodsPath resource localPath : string) (fileLength : Z)
          (keywords : gmap string string) (callback : bool).
Variable resumable : bool.

(** The variables of [downloadTask] that its closures update. *)
Record Locals := {
  taskConn : N;
  lastOffset : Z;
  taskRemain : Z;
  lf : File
}.

Definition set_taskConn (c : N) (l : Locals) : Locals :=
  {| taskConn := c; lastOffset := lastOffset l; taskRemain := taskRemain l; lf := lf l |}.
Definition set_lf (f : File) (l : Locals) : Locals :=
  {| taskConn := taskConn l; lastOffset := lastOffset l; taskRemain := taskRemain l; lf := f |}.
Definition advance (bytesRead : Z) (l : Locals) : Locals :=
  {| taskConn := taskConn l;
     lastOffset := int_add (lastOffset l) bytesRead;
     taskRemain := int_sub (taskRemain l) bytesRead;
     lf := lf l |}.

(** [blockReadCallback]. *)
Definition blockReadCallback (t : Task) (w : World) (processed : Z) : World :=
  if 0 <? processed then
    let delta := int_sub processed (nth (taskID t) (taskProgress w) 0) in
    let w := set_taskProgress (<[taskID t := processed]> (taskProgress w)) w in
    call_back callback (int_add (totalBytes w) delta) fileLength w
  else w.

(** "write status": the entry appended after a chunk, errors ignored. *)
Definition write_status (t : Task) (taskRemain bytesRead : Z) (w : World) : World :=
  let transferStatusEntry :=
    {| StartOffset := taskOffset t;
       Length := taskLength t;
       CompletedLength := int_add (int_sub (taskLength t) taskRemain) bytesRead |} in
  set_journal_log (journal_log w ++ [CallWriteStatus transferStatusEntry])
    (set_journal (fst (WriteStatus (journal w) transferStatusEntry)) w).

(** One turn of the copy loop of [trial].  The third component is [None]
    when the loop goes on and [Some r] when [trial] returns [r]. *)
Definition trial_chunk (t : Task) (w : World) (loc : Locals) (taskTrialConn : N)
    (taskTrialHandle : IRODSFileHandle) : World * Locals * option (option error) :=
  let bufferLen := chunk_len (taskRemain loc) in
  let w := set_taskProgress (<[taskID t := 0]> (taskProgress w)) w in
  let '(p1, (data, reports, readErr)) :=
    ReadDataObjectWithTrackerCallBack (pool w) taskTrialConn taskTrialHandle bufferLen in
  let w := fold_left (blockReadCallback t) reports (set_conn_state p1 w) in
  let bytesRead := Z.of_nat (length data) in
  let written : World * Locals * option error :=
    if 0 <? bytesRead then
      let at_off := int_add (taskOffset t) (int_sub (taskLength t) (taskRemain loc)) in
      match File_WriteAt (disk w) (lf loc) data at_off with
      | (d1, Some taskWriteErr) =>
        (set_disk d1 w, loc, Some (Wrapf "failed to write to file" taskWriteErr))
      | (d1, None) =>
        let w := set_disk d1 w in
        let w := set_wlog (wlog w ++ [(taskOffset t, at_off, bytesRead)]) w in
        let w := set_totalBytes (int_add (totalBytes w) bytesRead) w in
        (* write status *)
        let w := if resumable then write_status t (taskRemain loc) bytesRead w else w in
        let w := call_back callback (totalBytes w) fileLength w in
        (w, advance bytesRead loc, None)
      end
    else (w, loc, None) in
  match written with
  | (w1, loc1, Some e) => (w1, loc1, Some (Some e))
  | (w1, loc1, None) =>
    match readErr with
    | Some e =>
      if is_EOF e then (w1, loc1, Some None)
      else (w1, loc1, Some (Some (Wrapf "failed to read from data object" e)))
    | None =>
      if (0 <? length (errChan w1))%nat then
        (* other tasks failed *)
        (w1, loc1, Some (Some (Errorf "stop running as other tasks failed")))
      else (w1, loc1, None)
    end
  end.

(** The copy loop [for taskRemain > 0] of [trial]. *)
Fixpoint trial_copy (fuel : nat) (t : Task) (w : World) (loc : Locals)
    (taskTrialConn : N) (taskTrialHandle : IRODSFileHandle)
  : option (World * Locals * option error) :=
  if 0 <? taskRemain loc then
    match fuel with
    | O => None
    | S fuel' =>
      match trial_chunk t w loc taskTrialConn taskTrialHandle with
      | (w1, loc1, Some r) => Some (w1, loc1, r)
      | (w1, loc1, None) => trial_copy fuel' t w1 loc1 taskTrialConn taskTrialHandle
      end
    end
  else Some (w, loc, None).

(** "seek to task offset" of [trial]. *)
Definition trial_seek (w : World) (loc : Locals) (taskTrialConn : N)
    (taskTrialHandle : IRODSFileHandle) : World * Locals * option error :=
  if 0 <? lastOffset loc then
    match SeekDataObject (pool w) taskTrialConn taskTrialHandle (lastOffset loc) with
    | (p1, inl seekErr) =>
      (set_conn_state p1 w, loc, Some (Wrapf "failed to seek data object" seekErr))
    | (p1, inr newOffset) =>
      let w := set_conn_state p1 w in
      match File_Seek (disk w) (lf loc) (lastOffset loc) with
      | (f1, inl localSeekErr) =>
        (w, set_lf f1 loc, Some (Wrapf "failed to seek file" localSeekErr))
      | (f1, inr taskNewOffset) =>
        if negb (newOffset =? taskNewOffset) then
          (w, set_lf f1 loc,
           Some (Errorf "failed to seek file and data object to target offset"))
        else (w, set_lf f1 loc, None)
      end
    end
  else (w, loc, None).

(** [trial]: one attempt to download what remains of the task on the
    connection [taskTrialConn] (the worker always passes its [taskConn]). *)
Definition trial (fuel : nat) (t : Task) (w : World) (loc : Locals) (taskTrialConn : N)
  : option (World * Locals * option error) :=
  match OpenDataObject (pool w) taskTrialConn irodsPath resource "r" keywords with
  | (p1, inl openErr) => Some (set_conn_state p1 w, loc, Some openErr)
  | (p1, inr taskTrialHandle) =>
    let w := set_conn_state p1 w in
    let body :=
      match trial_seek w loc taskTrialConn taskTrialHandle with
      | (w1, loc1, Some e) => Some (w1, loc1, Some e)
      | (w1, loc1, None) => trial_copy fuel t w1 loc1 taskTrialConn taskTrialHandle
      end in
    match body with
    | None => None
    | Some (w2, loc2, r) =>
      (* deferred: close the handle unless the socket failed *)
      let w3 :=
        if negb (IsSocketFailed (pool w2) taskTrialConn) && IsConnected (pool w2) taskTrialConn
        then set_conn_state (fst (CloseDataObject (pool w2) taskTrialConn taskTrialHandle)) w2
        else w2 in
      Some (w3, loc2, r)
    end
  end.

(** What [downloadTask] does when it returns: the deferred
    [session.ReturnConnection(taskConn)], on the connection it holds then. *)
Definition task_exit (c : N) (w : World) : World :=
  set_session (fst (ReturnConnection (session w) c)) w.

Definition exit_with (c : N) (r : option World) : option World :=
  match r with
  | None => None
  | Some w => Some (task_exit c w)
  end.

(** The loop [for { trialErr := trial(taskConn) ... }] of [downloadTask]. *)
Fixpoint downloadTask_retry (fuel : nat) (t : Task) (w : World) (loc : Locals)
  : option World :=
  match fuel with
  | O => None
  | S fuel' =>
    match trial fuel' t w loc (taskConn loc) with
    | None => None
    | Some (w1, loc1, None) =>
      (* done downloading *)
      Some (task_exit (taskConn loc1) w1)
    | Some (w1, loc1, Some trialErr) =>
      if IsSocketFailed (pool w1) (taskConn loc1) then
        (* retry: return old connection *)
        let w2 := set_session (fst (ReturnConnection (session w1) (taskConn loc1))) w1 in
        match AcquireConnection range_order (session w2) with
        | (s3, inl connErr) =>
          exit_with nil_conn
            (send (Wrapf "failed to get connection" connErr) (set_session s3 w2))
        | (s3, inr c) =>
          let w3 := set_session s3 w2 in
          if (c =? nil_conn)%N || negb (IsConnected (pool w3) c) then
            exit_with c (send (Errorf "connection is nil or disconnected") w3)
          else downloadTask_retry fuel' t w3 (set_taskConn c loc1)
        end
      else
        (* other errors *)
        exit_with (taskConn loc1) (send trialErr w1)
    end
  end.

(** Where the task starts: at its offset, or where the status file says
    the previous run of the task stopped. *)
Definition start_offset (t : Task) (w : World) : Z :=
  if resumable then
    match GetStatus (journal w) with
    | Some transferStatus =>
      match StatusMap transferStatus !! taskOffset t with
      | Some transferStatusEntry =>
        int_add (StartOffset transferStatusEntry) (CompletedLength transferStatusEntry)
      | None => taskOffset t
      end
    | None => taskOffset t
    end
  else taskOffset t.

(** [downloadTask], the body of one download goroutine. *)
Definition downloadTask (fuel : nat) (connections : list N) (t : Task) (w : World)
  : option (outcome World) :=
  let w := set_taskProgress (<[taskID t := 0]> (taskProgress w)) w in
  match connections !! taskID t with
  | None => Some (Panic "index out of range")
  | Some taskConn =>
    let returned (r : option World) : option (outcome World) :=
      match exit_with taskConn r with
      | None => None
      | Some w => Some (Ret w)
      end in
    if (taskConn =? nil_conn)%N || negb (IsConnected (pool w) taskConn) then
      returned (send (Errorf "connection is nil or disconnected") w)
    else
      match os_OpenFile (disk w) localPath O_WRONLY with
      | (d1, inl openErr) =>
        returned (send (Wrapf "failed to open file" openErr) (set_disk d1 w))
      | (d1, inr f) =>
        let w := set_disk d1 w in
        let lastOffset := start_offset t w in
        let taskRemain :=
          if resumable then int_sub (taskLength t) (int_sub lastOffset (taskOffset t))
          else taskLength t in
        let w :=
          if resumable && (0 <? int_sub lastOffset (taskOffset t)) then
            (* increase counter *)
            let w := set_totalBytes
                       (int_add (totalBytes w) (int_sub lastOffset (taskOffset t))) w in
            call_back callback (totalBytes w) fileLength w
          else w in
        match downloadTask_retry fuel t w
                {| taskConn := taskConn; lastOffset := lastOffset;
                   taskRemain := taskRemain; lf := f |} with
        | None => None
        | Some w => Some (Ret w)
        end
      end
  end.

(** The goroutines, run one after the other in the order they are started. *)
Fixpoint run_download_tasks (fuel : nat) (connections : list N) (tasks : list Task)
    (w : World) : option (outcome World) :=
  match tasks with
  | [] => Some (Ret w)
  | t :: rest =>
    match downloadTask fuel connections t w with
    | None => None
    | Some (Panic msg) => Some (Panic msg)
    | Some (Ret w1) => run_download_tasks fuel connections rest w1
    end
  end.

End ParallelDownload.

(** *** The download functions *)

Section Download.

Variables (irodsPath localPath : string)
          (keywords : gmap string string) (callback : bool).

(** The number of tasks of a download: [taskNum], or the number derived
    from the length, and at most [ConnectionMaxNumber]. *)
Definition download_tasks (w : World) (taskNum fileLength : Z) : Z :=
  let numTasks := resolve_tasks taskNum fileLength in
  if ConnectionMaxNumber (config (session w)) <? numTasks
  then ConnectionMaxNumber (config (session w))
  else numTasks.

(** "create an empty file" when [fileLength == 0]. *)
Definition download_empty (w : World) : World * option error :=
  match os_Create (disk w) localPath with
  | (d1, inl err) => (set_disk d1 w, Some (Wrapf "failed to create file" err))
  | (d1, inr _) => (set_disk d1 w, None)
  end.

(** The variables the goroutines share, as the function initialises them. *)
Definition init_shared (numTasks fileLength : Z) (w : World) : World :=
  let w := set_errCap numTasks (set_errChan [] w) in
  let w := set_totalBytes 0 w in
  let w := call_back callback 0 fileLength w in
  set_taskProgress (replicate (Z.to_nat numTasks) 0) w.

(** [DownloadDataObjectParallel] up to the point where it asks for the
    connections of its tasks: [inl r] when it returns [r] before that,
    [inr numTasks] when it goes on. *)
Definition download_setup (w : World) (fileLength taskNum : Z)
  : outcome (World * (option error + Z)) :=
  if fileLength =? 0 then
    (* empty file *)
    let '(w1, r) := download_empty w in Ret (w1, inl r)
  else
    let numTasks := download_tasks w taskNum fileLength in
    (* create an empty file *)
    match os_Create (disk w) localPath with
    | (d1, inl err) => Ret (set_disk d1 w, inl (Some (Wrapf "failed to create file" err)))
    | (d1, inr _) =>
      let w := set_disk d1 w in
      (* errChan := make(chan error, numTasks) *)
      if numTasks <? 0 then Panic "makechan: size out of range"
      else Ret (init_shared numTasks fileLength w, inr numTasks)
    end.

(** The part of both download functions from [AcquireConnectionsMulti] to
    [taskWaitGroup.Wait()]: [inl err] when the connections cannot be had. *)
Definition download_run (resumable : bool) (fuel : nat) (w : World) (resource : string)
    (fileLength numTasks : Z) : option (outcome (World * option error)) :=
  (* get connections *)
  match AcquireConnectionsMulti range_order range_conns fuel (session w) numTasks with
  | None => None
  | Some (s1, inl err) =>
    Some (Ret (set_session s1 w, Some (Wrapf "failed to get connection" err)))
  | Some (s1, inr connections) =>
    let w := set_session s1 w in
    (* lengthPerThread := fileLength / int64(numTasks) *)
    if numTasks =? 0 then Some (Panic "integer divide by zero")
    else
      match run_download_tasks irodsPath resource localPath fileLength keywords callback
              resumable fuel connections (partition fileLength numTasks) w with
      | None => None
      | Some (Panic msg) => Some (Panic msg)
      | Some (Ret w1) => Some (Ret (w1, None))
      end
  end.

(** [DownloadDataObjectParallel]. *)
Definition DownloadDataObjectParallel (fuel : nat) (w : World) (resource : string)
    (fileLength taskNum : Z) : option (outcome (World * option error)) :=
  (* use default resource when resource param is empty *)
  let resource := default_resource w resource in
  match download_setup w fileLength taskNum with
  | Panic msg => Some (Panic msg)
  | Ret (w1, inl r) => Some (Ret (w1, r))
  | Ret (w1, inr numTasks) =>
    match download_run false fuel w1 resource fileLength numTasks with
    | None => None
    | Some (Panic msg) => Some (Panic msg)
    | Some (Ret (w2, Some err)) => Some (Ret (w2, Some err))
    | Some (Ret (w2, None)) =>
      match errChan w2 with
      | e :: rest => Some (Ret (set_errChan rest w2, Some e))
      | [] => Some (Ret (w2, None))
      end
    end
  end.

Definition journal_call (c : JournalCall) (j : J * option error) (w : World)
  : World * option error :=
  (set_journal_log (journal_log w ++ [c]) (set_journal (fst j) w), snd j).

(** [DownloadDataObjectParallelResumable] up to the point where it asks
    for the connections of its tasks. *)
Definition resumable_setup (w : World) (fileLength taskNum : Z)
  : outcome (World * (option error + Z)) :=
  if fileLength =? 0 then
    (* empty file *)
    let '(w1, r) := download_empty w in Ret (w1, inl r)
  else
    let numTasks := download_tasks w taskNum fileLength in
    (* create transfer status *)
    match GetOrNewDataObjectTransferStatusLocal (journal w) localPath fileLength numTasks with
    | (j1, inl err) =>
      Ret (set_journal j1 w, inl (Some (Wrapf "failed to read transfer status file" err)))
    | (j1, inr status) =>
      let w := set_journal j1 w in
      (* if previous transfer used different number of threads, use old value *)
      let numTasks := Threads status in
      match journal_call CallCreateStatusFile (CreateStatusFile (journal w)) w with
      | (w, Some err) => Ret (w, inl (Some (Wrapf "failed to create transfer status file" err)))
      | (w, None) =>
        match journal_call CallWriteHeader (WriteHeader (journal w)) w with
        | (w, Some err) =>
          let '(w, _) := journal_call CallCloseStatusFile (CloseStatusFile (journal w)) w in
          Ret (w, inl (Some (Wrapf "failed to write transfer status file header" err)))
        | (w, None) =>
          (* create an empty file *)
          match os_OpenFile (disk w) localPath (Z.lor O_RDWR O_CREATE) with
          | (d1, inl err) =>
            Ret (set_disk d1 w, inl (Some (Wrapf "failed to create file" err)))
          | (d1, inr _) =>
            let w := set_disk d1 w in
            (* errChan := make(chan error, numTasks) *)
            if numTasks <? 0 then Panic "makechan: size out of range"
            else Ret (init_shared numTasks fileLength w, inr numTasks)
          end
        end
      end
    end.

(** The end of [DownloadDataObjectParallelResumable], after
    [taskWaitGroup.Wait()]. *)
Definition resumable_finish (w : World) : World * option error :=
  match errChan w with
  | e :: rest =>
    let '(w, _) := journal_call CallCloseStatusFile (CloseStatusFile (journal w)) w in
    (set_errChan rest w, Some e)
  | [] =>
    match journal_call CallCloseStatusFile (CloseStatusFile (journal w)) w with
    | (w, Some err) => (w, Some (Wrapf "failed to close status file" err))
    | (w, None) =>
      match journal_call CallDeleteStatusFile (DeleteStatusFile (journal w)) w with
      | (w, Some err) => (w, Some (Wrapf "failed to delete status file" err))
      | (w, None) => (w, None)
      end
    end
  end.

(** [DownloadDataObjectParallelResumable]. *)
Definition DownloadDataObjectParallelResumable (fuel : nat) (w : World) (resource : string)
    (fileLength taskNum : Z) : option (outcome (World * option error)) :=
  (* use default resource when resource param is empty *)
  let resource := default_resource w resource in
  match resumable_setup w fileLength taskNum with
  | Panic msg => Some (Panic msg)
  | Ret (w1, inl r) => Some (Ret (w1, r))
  | Ret (w1, inr numTasks) =>
    match download_run true fuel w1 resource fileLength numTasks with
    | None => None
    | Some (Panic msg) => Some (Panic msg)
    | Some (Ret (w2, Some err)) => Some (Ret (w2, Some err))
    | Some (Ret (w2, None)) => Some (Ret (resumable_finish w2))
    end
  end.

(** [DownloadDataObject] and [DownloadDataObjectResumable]. *)
Definition DownloadDataObject (fuel : nat) (w : World) (resource : string) (fileLength : Z) :=
  DownloadDataObjectParallel fuel w resource fileLength 1.

Definition DownloadDataObjectResumable (fuel : nat) (w : World) (resource : string)
    (fileLength : Z) :=
  DownloadDataObjectParallelResumable fuel w resource fileLength 1.

End Download.

(** *** Vocabulary of the properties *)

(** [w'] comes from [w] by calls on the status file none of which is a
    deletion. *)
Definition log_grows (w w' : World) : Prop :=
  exists l, journal_log w' = journal_log w ++ l /\ CallDeleteStatusFile ∉ l.


(** The chunks of [l], all written by the task that starts at [tag], lie
    one after the other from offset [a] to offset [b]. *)
Fixpoint tiles (tag a b : Z) (l : list (Z * Z * Z)) : Prop :=
  match l with
  | [] => a = b
  | (tg, off, len) :: rest =>
    tg = tag /\ off = a /\ 0 < len /\ a + len <= b /\ tiles tag (a + len) b rest
  end.

(** The bytes that the chunks of [l] cover. *)
Definition covered (l : list (Z * Z * Z)) (x : Z) : Prop :=
  exists tg off len, (tg, off, len) ∈ l /\ off <= x < off + len.


End Transfer.
End Transfer.

Arguments Transfer.World : clear implicits.

(** ** Transfers from and to a buffer *)

Module Buffers.
Import Session Transfer.
Section Buffers.

Context {P : Type} `{PoolOps : ConnectionPool P} `{DataOps : DataObjectOps P}.
Context {J : Type}.

Variable range_order : gmap N Z -> list (N * Z).

(** [common.ReadWriteBufferSize]. *)
Variable ReadWriteBufferSize : Z.

Variables (irodsPath : string) (replicate : bool)
          (keywords : gmap string string) (callback : bool).

(** The deferred [session.ReturnConnection(conn)]. *)
Definition returning {A : Type} (conn : N) (r : World P J * A) : World P J * A :=
  (set_session (ReturnConnection (session r.1) conn).1 r.1, r.2).

(** [UploadDataObjectFromBuffer]; [buffer] is [buffer.Bytes()]. *)
Definition UploadDataObjectFromBuffer (w : World P J) (buffer : list Byte.byte)
    (resource : string) : World P J * option error :=
  (* use default resource when resource param is empty *)
  let resource := default_resource w resource in
  let fileLength := Z.of_nat (length buffer) in
  match AcquireConnection range_order (session w) with
  | (s1, inl err) => (set_session s1 w, Some (Wrapf "failed to get connection" err))
  | (s1, inr conn) =>
    let w := set_session s1 w in
    if (conn =? nil_conn)%N || negb (IsConnected (pool w) conn) then
      returning conn (w, Some (Errorf "connection is nil or disconnected"))
    else
      (* open a new file *)
      match CreateDataObject (pool w) conn irodsPath resource "w+" true keywords with
      | (p1, inl err) =>
        returning conn (set_conn_state p1 w, Some (Wrapf "failed to open data object" err))
      | (p1, inr handle) =>
        let w := set_conn_state p1 w in
        let w := call_back callback 0 fileLength w in
        (* copy *)
        let '(p2, (_, writeErr)) :=
          WriteDataObjectWithTrackerCallBack (pool w) conn handle buffer in
        let w := set_conn_state p2 w in
        let w := call_back callback fileLength fileLength w in
        let w := set_conn_state (CloseDataObject (pool w) conn handle).1 w in
        match writeErr with
        | Some e => returning conn (w, Some e)
        | None =>
          (* replicate *)
          if replicate then
            match ReplicateDataObject (pool w) conn irodsPath "" true false with
            | (p3, Some replErr) => returning conn (set_conn_state p3 w, Some replErr)
            | (p3, None) => returning conn (set_conn_state p3 w, None)
            end
          else returning conn (w, None)
        end
      end
  end.

(** [blockReadCallback] of [DownloadDataObjectToBuffer]; it is nil when
    [callback] is. *)
Definition bufferReadCallback (dataObjectLength totalBytesDownloaded : Z)
    (w : World P J) (processed : Z) : World P J :=
  call_back callback (int_add totalBytesDownloaded processed) dataObjectLength w.

(** The copy loop of [DownloadDataObjectToBuffer].  [buffer.Write] appends
    and never returns an error, so [writeErr] stays nil; the result is the
    buffer and the error of the read that ended the loop, if it was not
    EOF. *)
Fixpoint download_copy (fuel : nat) (w : World P J) (conn : N) (handle : IRODSFileHandle)
    (buffer : list Byte.byte) (dataObjectLength totalBytesDownloaded : Z)
  : option (World P J * list Byte.byte * option error) :=
  match fuel with
  | O => None
  | S fuel' =>
    let '(p1, (data, reports, readErr)) :=
      ReadDataObjectWithTrackerCallBack (pool w) conn handle ReadWriteBufferSize in
    let w := fold_left (bufferReadCallback dataObjectLength totalBytesDownloaded) reports
               (set_conn_state p1 w) in
    let bytesRead := Z.of_nat (length data) in
    let '(w, buffer, total) :=
      if 0 <? bytesRead then
        let total := int_add totalBytesDownloaded bytesRead in
        (call_back callback total dataObjectLength w, buffer ++ data, total)
      else (w, buffer, totalBytesDownloaded) in
    match readErr with
    | Some e =>
      if is_EOF e then Some (w, buffer, None)
      else Some (w, buffer, Some (Wrapf "failed to read data object" e))
    | None => download_copy fuel' w conn handle buffer dataObjectLength total
    end
  end.

(** [DownloadDataObjectToBuffer]; the second component of the result is
    the content of [buffer] when the function returns. *)
Definition DownloadDataObjectToBuffer (fuel : nat) (w : World P J) (resource : string)
    (buffer : list Byte.byte) (dataObjectLength : Z)
  : option (World P J * list Byte.byte * option error) :=
  (* use default resource when resource param is empty *)
  let resource := default_resource w resource in
  match AcquireConnection range_order (session w) with
  | (s1, inl err) =>
    Some (set_session s1 w, buffer, Some (Wrapf "failed to get connection" err))
  | (s1, inr conn) =>
    let w := set_session s1 w in
    let returned (r : World P J * list Byte.byte * option error) :=
      (set_session (ReturnConnection (session r.1.1) conn).1 r.1.1, r.1.2, r.2) in
    if (conn =? nil_conn)%N || negb (IsConnected (pool w) conn) then
      Some (returned (w, buffer, Some (Errorf "connection is nil or disconnected")))
    else
      match OpenDataObject (pool w) conn irodsPath resource "r" keywords with
      | (p1, inl err) =>
        Some (returned (set_conn_state p1 w, buffer,
                        Some (Wrapf "failed to open data object" err)))
      | (p1, inr handle) =>
        let w := set_conn_state p1 w in
        let w := call_back callback 0 dataObjectLength w in
        match download_copy fuel w conn handle buffer dataObjectLength 0 with
        | None => None
        | Some (w, buffer, r) =>
          (* deferred: CloseDataObject(conn, handle) *)
          let w := set_conn_state (CloseDataObject (pool w) conn handle).1 w in
          Some (returned (w, buffer, r))
        end
      end
  end.

End Buffers.
End Buffers.

(** ** A reference server, pool and status file

    Modelled from the spec: the connection pool of section 4.2, the
    connection and data-object primitives of section 4.1 and the resume
    journal of section 4.5, whose code is not among the files at hand.
    The pool hands out an idle connection if there is one and creates a
    fresh one while fewer than [max_cap] are outstanding; [return] keeps a
    connection idle unless it is socket-failed or [max_idle] is reached;
    there is no clock, so no connection expires.  The server stores data
    objects as byte strings and keeps a position for each open descriptor;
    [reads_before_failure = Some k] makes the read after the next [k] ones
    fail the socket of the connection that issues it. *)

Module Ref.

Record server := {
  idle : list N;
  outstanding : list N;
  max_cap : Z;
  max_idle : Z;
  next_conn : N;
  socket_failed : list N;
  rollback_works : bool;
  parallel_upload : bool;
  objects : gmap string (list Byte.byte);
  descriptors : gmap Z (string * Z);
  next_desc : Z;
  reads_before_failure : option nat
}.

Definition with_lists (i o : list N) (nx : N) (p : server) : server :=
  {| idle := i; outstanding := o; max_cap := max_cap p; max_idle := max_idle p;
     next_conn := nx; socket_failed := socket_failed p;
     rollback_works := rollback_works p; parallel_upload := parallel_upload p;
     objects := objects p; descriptors := descriptors p; next_desc := next_desc p;
     reads_before_failure := reads_before_failure p |}.

Definition with_store (os : gmap string (list Byte.byte)) (ds : gmap Z (string * Z))
    (nd : Z) (p : server) : server :=
  {| idle := idle p; outstanding := outstanding p; max_cap := max_cap p;
     max_idle := max_idle p; next_conn := next_conn p; socket_failed := socket_failed p;
     rollback_works := rollback_works p; parallel_upload := parallel_upload p;
     objects := os; descriptors := ds; next_desc := nd;
     reads_before_failure := reads_before_failure p |}.

Definition with_failure (sf : list N) (k : option nat) (p : server) : server :=
  {| idle := idle p; outstanding := outstanding p; max_cap := max_cap p;
     max_idle := max_idle p; next_conn := next_conn p; socket_failed := sf;
     rollback_works := rollback_works p; parallel_upload := parallel_upload p;
     objects := objects p; descriptors := descriptors p; next_desc := next_desc p;
     reads_before_failure := k |}.

Definition remove (c : N) (l : list N) : list N :=
  List.filter (fun x => negb (x =? c)%N) l.

Definition mem (c : N) (l : list N) : bool := existsb (fun x => (x =? c)%N) l.

Definition get_new (p : server) : server * (error + N) :=
  if Z.of_nat (length (outstanding p)) <? max_cap p then
    (with_lists (idle p) (next_conn p :: outstanding p) (N.succ (next_conn p)) p,
     inr (next_conn p))
  else (p, inl ErrConnectionPoolFull).

Definition get (p : server) : server * (error + N * bool) :=
  match idle p with
  | c :: rest => (with_lists rest (c :: outstanding p) (next_conn p) p, inr (c, false))
  | [] =>
    match get_new p with
    | (p', inl e) => (p', inl e)
    | (p', inr c) => (p', inr (c, true))
    end
  end.

Definition discard (p : server) (c : N) : server :=
  with_lists (idle p) (remove c (outstanding p)) (next_conn p) p.

Definition give_back (p : server) (c : N) : server * option error :=
  if mem c (socket_failed p) || (max_idle p <=? Z.of_nat (length (idle p))) then
    (discard p c, None)
  else
    (with_lists (idle p ++ [c]) (remove c (outstanding p)) (next_conn p) p, None).

Definition available_connections (p : server) : Z :=
  max_cap p - Z.of_nat (length (outstanding p)).

Definition open_connections (p : server) : Z :=
  Z.of_nat (length (idle p)) + Z.of_nat (length (outstanding p)).

Definition release (p : server) : server := with_lists [] [] (next_conn p) p.

Definition create (cfg : ConnectionPoolConfig) : error + server :=
  inr {| idle := []; outstanding := []; max_cap := MaxCap cfg; max_idle := MaxIdle cfg;
         next_conn := 1%N; socket_failed := []; rollback_works := true;
         parallel_upload := true; objects := ∅; descriptors := ∅; next_desc := 3;
         reads_before_failure := None |}.

Definition socket_error : error := Errorf "socket failure".

Definition connected (p : server) (c : N) : bool :=
  (mem c (idle p) || mem c (outstanding p)) && negb (mem c (socket_failed p)).

#[export] Instance ref_pool : ConnectionPool server := {
  NewConnectionPool := create;
  AvailableConnections := available_connections;
  OpenConnections := open_connections;
  Get := get;
  GetNew := get_new;
  Return := give_back;
  Discard := discard;
  Release := release;
  PoorMansRollback := fun p _ =>
    (p, if rollback_works p then None else Some (IRODSError (-1)));
  IsConnected := connected;
  IsSocketFailed := fun p c => mem c (socket_failed p);
  SupportParallelUpload := fun p _ => parallel_upload p
}.

(** Open [path] with a fresh descriptor at position [0]; [fresh] creates
    or truncates the object, otherwise it has to exist. *)
Definition open (fresh : bool) (p : server) (c : N) (path mode : string)
  : server * (error + IRODSFileHandle) :=
  if mem c (socket_failed p) then (p, inl socket_error)
  else
    let h := {| FileDescriptor := next_desc p; Path := path; OpenMode := mode |} in
    match objects p !! path with
    | None =>
      if fresh then
        (with_store (<[path := []]> (objects p))
           (<[next_desc p := (path, 0)]> (descriptors p)) (next_desc p + 1) p, inr h)
      else (p, inl (IRODSError CAT_NO_ROWS_FOUND))
    | Some _ =>
      (with_store (if fresh then <[path := []]> (objects p) else objects p)
         (<[next_desc p := (path, 0)]> (descriptors p)) (next_desc p + 1) p, inr h)
    end.

Definition seek (p : server) (c : N) (h : IRODSFileHandle) (off : Z) : server * (error + Z) :=
  if mem c (socket_failed p) then (p, inl socket_error)
  else if off <? 0 then (p, inl (IRODSError (-1)))
  else
    match descriptors p !! FileDescriptor h with
    | None => (p, inl (IRODSError (-1)))
    | Some (path, _) =>
      (with_store (objects p) (<[FileDescriptor h := (path, off)]> (descriptors p))
         (next_desc p) p, inr off)
    end.

Definition read (p : server) (c : N) (h : IRODSFileHandle) (len : Z)
  : server * (list Byte.byte * list Z * option error) :=
  if mem c (socket_failed p) then (p, ([], [], Some socket_error))
  else
    match reads_before_failure p with
    | Some O => (with_failure (c :: socket_failed p) None p, ([], [], Some socket_error))
    | k =>
      let p := with_failure (socket_failed p) (pred <$> k) p in
      match descriptors p !! FileDescriptor h with
      | None => (p, ([], [], Some (IRODSError (-1))))
      | Some (path, pos) =>
        let data := slice (default [] (objects p !! path)) pos len in
        (with_store (objects p)
           (<[FileDescriptor h := (path, pos + Z.of_nat (length data))]> (descriptors p))
           (next_desc p) p,
         (data, [], if Z.of_nat (length data) <? len then Some EOF else None))
      end
    end.

Definition write (p : server) (c : N) (h : IRODSFileHandle) (data : list Byte.byte)
  : server * (list Z * option error) :=
  if mem c (socket_failed p) then (p, ([], Some socket_error))
  else
    match descriptors p !! FileDescriptor h with
    | None => (p, ([], Some (IRODSError (-1))))
    | Some (path, pos) =>
      (with_store
         (<[path := write_at (default [] (objects p !! path)) data (Z.to_nat pos)]> (objects p))
         (<[FileDescriptor h := (path, pos + Z.of_nat (length data))]> (descriptors p))
         (next_desc p) p,
       ([], None))
    end.

Definition close (p : server) (c : N) (h : IRODSFileHandle) : server * option error :=
  if mem c (socket_failed p) then (p, Some socket_error)
  else (with_store (objects p) (delete (FileDescriptor h) (descriptors p)) (next_desc p) p,
        None).

#[export] Instance ref_data_objects : DataObjectOps server := {
  CreateDataObject := fun p c path _ mode _ _ => open true p c path mode;
  OpenDataObject := fun p c path _ mode _ => open false p c path mode;
  OpenDataObjectForPutParallel := fun p c path _ mode _ _ _ => open true p c path mode;
  OpenDataObjectWithReplicaToken := fun p c path _ mode _ _ _ _ _ => open false p c path mode;
  GetReplicaAccessInfo := fun p c _ =>
    if mem c (socket_failed p) then (p, inl socket_error)
    else (p, inr ("token", "hierarchy"));
  SeekDataObject := seek;
  ReadDataObjectWithTrackerCallBack := read;
  WriteDataObjectWithTrackerCallBack := write;
  CloseDataObject := close;
  ReplicateDataObject := fun p _ _ _ _ _ => (p, None);
  RequestAndCheck := fun p c req =>
    match req with
    | CloseDataObjectReplicaRequest desc =>
      close p c {| FileDescriptor := desc; Path := ""; OpenMode := "" |}
    end
}.

(** A server of capacity [cap] with the idle connections [idl], having
    lent out [out], and storing [objs]. *)
Definition make (cap : Z) (idl out : list N) (objs : gmap string (list Byte.byte)) : server :=
  {| idle := idl; outstanding := out; max_cap := cap; max_idle := cap;
     next_conn := 100%N; socket_failed := []; rollback_works := true;
     parallel_upload := true; objects := objs; descriptors := ∅; next_desc := 3;
     reads_before_failure := None |}.

(** The status file: what is stored on disk (the task count of the header
    and the entries appended so far), and whether the file is open. *)
Record status_file := {
  stored : option (Z * list DataObjectTransferStatusEntry);
  loaded : option DataObjectTransferStatus;
  is_open : bool
}.

Definition last_entries (l : list DataObjectTransferStatusEntry)
  : gmap Z DataObjectTransferStatusEntry :=
  fold_left (fun m e => <[StartOffset e := e]> m) l ∅.

Definition get_or_new (j : status_file) (path : string) (size threads : Z)
  : status_file * (error + DataObjectTransferStatus) :=
  let st :=
    match stored j with
    | Some (thr, entries) =>
      {| st_Path := path; st_Size := size; Threads := thr;
         StatusMap := last_entries entries |}
    | None =>
      {| st_Path := path; st_Size := size; Threads := threads; StatusMap := ∅ |}
    end in
  ({| stored := stored j; loaded := Some st; is_open := is_open j |}, inr st).

Definition write_header (j : status_file) : status_file * option error :=
  match loaded j with
  | None => (j, Some (Errorf "no status"))
  | Some st =>
    ({| stored := Some (Threads st, default [] (snd <$> stored j));
        loaded := loaded j; is_open := is_open j |}, None)
  end.

Definition write_entry (j : status_file) (e : DataObjectTransferStatusEntry)
  : status_file * option error :=
  match stored j with
  | Some (thr, entries) =>
    if is_open j then
      ({| stored := Some (thr, entries ++ [e]); loaded := loaded j; is_open := true |}, None)
    else (j, Some (Errorf "file already closed"))
  | None => (j, Some (Errorf "no status file"))
  end.

#[export] Instance ref_status : TransferStatusOps status_file := {
  GetOrNewDataObjectTransferStatusLocal := get_or_new;
  GetStatus := loaded;
  CreateStatusFile := fun j =>
    ({| stored := stored j; loaded := loaded j; is_open := true |}, None);
  WriteHeader := write_header;
  WriteStatus := write_entry;
  CloseStatusFile := fun j =>
    ({| stored := stored j; loaded := loaded j; is_open := false |}, None);
  DeleteStatusFile := fun j =>
    ({| stored := None; loaded := loaded j; is_open := is_open j |}, None)
}.

(** [AcquireUnmanagedConnection] and [SupportParallelUpload] of the
    session: a new connection that is not shared, and the server's flag. *)
Definition acquire_unmanaged (s : Session.IRODSSession server)
  : Session.IRODSSession server * (error + N) :=
  let '(p, r) := get_new (Session.connectionPool s) in (Session.set_pool p s, r).

Definition session_parallel (s : Session.IRODSSession server) : bool :=
  parallel_upload (Session.connectionPool s).

Definition range_order (m : gmap N Z) : list (N * Z) := map_to_list m.
Definition range_conns (s : gset N) : list N := elements s.

Definition no_fault : LocalOp -> string -> option error := fun _ _ => None.

Definition session_of (p : server) (shared : gmap N Z) (snt prf : bool)
  : Session.IRODSSession server :=
  {| Session.account :=
       {| Host := "data.example.org"; Port := 1247; ClientZone := "zone";
          ProxyUser := "rods"; ClientUser := "rods"; DefaultResource := "demoResc" |};
     Session.config :=
       {| ApplicationName := "app"; ConnectionInitNumber := 0; ConnectionMaxIdle := 10;
          ConnectionMax := max_cap p; ConnectionLifespan := 3600;
          ConnectionIdleTimeout := 300; OperationTimeout := 300;
          StartNewTransaction := snt; ConnectionMaxNumber := 10 |};
     Session.connectionPool := p;
     Session.sharedConnections := shared;
     Session.startNewTransaction := snt;
     Session.poormansRollbackFail := prf;
     Session.metrics := {| connectionPoolFailures := 0 |} |}.

Definition world_of (p : server) (fs : gmap string (list Byte.byte)) (j : status_file)
  : Transfer.World server status_file :=
  {| Transfer.session := session_of p ∅ false false;
     Transfer.disk := {| files := fs; fault := no_fault |};
     Transfer.journal := j;
     Transfer.journal_log := [];
     Transfer.totalBytes := 0;
     Transfer.taskProgress := [];
     Transfer.errChan := [];
     Transfer.errCap := 0;
     Transfer.progress := [];
     Transfer.wlog := [] |}.

Definition no_status : status_file := {| stored := None; loaded := None; is_open := false |}.


End Ref.

(** ** Scenarios on the reference server *)

Module Scenario.
Import Session Transfer Ref.

Definition object5 : list Byte.byte := [Byte.x01; Byte.x02; Byte.x03; Byte.x04; Byte.x05].
Definition object3 : list Byte.byte := [Byte.x01; Byte.x02; Byte.x03].

(** A pool of three connections, all lent out. *)
Definition busy_pool : server := make 3 [] [7; 8; 9]%N ∅.

(** Sessions on that pool: the three connections shared by two, one and
    three callers; no connection shared; the same with transactions that
    cannot be reset. *)
Definition shares : gmap N Z := {[7%N := 2; 8%N := 1; 9%N := 3]}.
Definition shared_session : IRODSSession server := session_of busy_pool shares false false.
Definition unshared_session : IRODSSession server := session_of busy_pool ∅ false false.
Definition stale_session : IRODSSession server := session_of busy_pool shares true true.

Definition anonymous : IRODSAccount :=
  {| Host := "data.example.org"; Port := 1247; ClientZone := "zone";
     ProxyUser := "rods"; ClientUser := "anonymous"; DefaultResource := "demoResc" |}.

Definition transactional : IRODSSessionConfig :=
  {| ApplicationName := "app"; ConnectionInitNumber := 0; ConnectionMaxIdle := 10;
     ConnectionMax := 10; ConnectionLifespan := 3600; ConnectionIdleTimeout := 300;
     OperationTimeout := 300; StartNewTransaction := true; ConnectionMaxNumber := 10 |}.

(** A server that stores a data object of five bytes. *)
Definition store5 : server := make 4 [] [] {["/zone/obj" := object5]}.

(** The same with one connection lent out and shared once, whose socket
    fails at the second read. *)
Definition flaky : server :=
  with_failure [] (Some 1%nat) (make 4 [] [7%N] {["/zone/obj" := object5]}).

Definition on_server (p : server) (shared : gmap N Z) (fs : gmap string (list Byte.byte))
    (j : status_file) : World server status_file :=
  set_errCap 4 (set_session (session_of p shared false false) (world_of p fs j)).

Definition flaky_world : World server status_file :=
  on_server flaky {[7%N := 1]} {["local" := []]} no_status.


(** A server whose object has three bytes, downloaded as if it had five. *)
Definition short_world : World server status_file :=
  on_server (make 4 [] [7%N] {["/zone/obj" := object3]}) {[7%N := 1]}
    {["local" := []]} no_status.

Definition whole_task : Task := {| taskID := 0; taskOffset := 0; taskLength := 5 |}.

Definition fresh (c : N) : Locals :=
  {| taskConn := c; lastOffset := 0; taskRemain := 5;
     lf := {| fname := "local"; fpos := 0 |} |}.

(** A local file left by an interrupted download, and its status file: two
    tasks, the first of which had completed its three bytes. *)
Definition interrupted : status_file :=
  {| stored := Some (2, [{| StartOffset := 0; Length := 3; CompletedLength := 3 |}]);
     loaded := None; is_open := false |}.

Definition resumed_world : World server status_file :=
  on_server store5 ∅ {["local" := object3]} interrupted.


(** A local file of five bytes to upload, an empty one, and a server
    without parallel upload. *)
Definition upload_world : World server status_file :=
  on_server (make 4 [] [] ∅) ∅ {["local" := object5]} no_status.

Definition empty_upload_world : World server status_file :=
  on_server (make 4 [] [] ∅) ∅ {["local" := []]} no_status.

Definition serial_server : server :=
  {| idle := []; outstanding := []; max_cap := 4; max_idle := 4; next_conn := 100%N;
     socket_failed := []; rollback_works := true; parallel_upload := false;
     objects := ∅; descriptors := ∅; next_desc := 3; reads_before_failure := None |}.

Definition serial_world : World server status_file :=
  on_server serial_server ∅ {["local" := object5]} no_status.

(** The schedule of [util.GetNumTasksForParallelTransfer] in the
    scenarios: one task for less than a kilobyte, four otherwise. *)
Definition tasks_for (size : Z) : Z := if size <? 1024 then 1 else 4.






End Scenario.

(** ** Vocabulary of the session properties *)

Module SessionSpec.
Import Session.

(** Every share count is a positive Go [int]. *)
Definition positive_shares (m : gmap N Z) : Prop :=
  forall c n, m !! c = Some n -> 1 <= n <= max_int.

(** No share count is the largest [int]. *)
Definition bounded_shares (m : gmap N Z) : Prop :=
  forall c n, m !! c = Some n -> n < max_int.

(** The share map after one holder of [conn] has let go: the count goes
    down by one, and the key goes when the count was one. *)
Definition released (conn : N) (m : gmap N Z) : gmap N Z :=
  match m !! conn with
  | Some n => if n <=? 1 then delete conn m else <[conn := n - 1]> m
  | None => m
  end.

(** The share map after one more holder of [conn]. *)
Definition held (conn : N) (m : gmap N Z) : gmap N Z :=
  <[conn := match m !! conn with Some n => n + 1 | None => 1 end]> m.

(** From [s] to [s'] the account, the configuration and
    [startNewTransaction] stay as they are; [poormansRollbackFail], once
    set, stays set, and does not change at all without transactions. *)
Definition flags_kept {P : Type} (s s' : IRODSSession P) : Prop :=
  account s' = account s
  /\ config s' = config s
  /\ startNewTransaction s' = startNewTransaction s
  /\ (poormansRollbackFail s = true -> poormansRollbackFail s' = true)
  /\ (startNewTransaction s = false -> poormansRollbackFail s' = poormansRollbackFail s).

End SessionSpec.

(** ** Vocabulary of the further transfer properties *)

Module TransferSpec.
Import Session Transfer.

(** The share map of the session of a world. *)
Definition shared {P J : Type} (w : World P J) : gmap N Z :=
  sharedConnections (session w).

(** The call on the status file that follows the chunk [(tg, off, len)] of
    the task [t]: an entry whose completed length is the number of bytes of
    the task written so far. *)
Definition entry_of (t : Task) (chunk : Z * Z * Z) : JournalCall :=
  let '(tg, off, len) := chunk in
  CallWriteStatus
    {| StartOffset := taskOffset t;
       Length := taskLength t;
       CompletedLength := off + len - tg |}.

(** A read never delivers more bytes than the buffer it is given holds. *)
Definition fills_buffer (P : Type) `{DataObjectOps P} : Prop :=
  forall p c h len p' data reports err,
    ReadDataObjectWithTrackerCallBack p c h len = (p', (data, reports, err)) ->
    Z.of_nat (length data) <= Z.max 0 len.

(** What a download worker of the task [t] did between the worlds [w] and
    [w']: it wrote chunks that lie one after the other from offset [a] to
    offset [b] of the local file, it left the local disk alone if it wrote
    no chunk, and, when the download is resumable, it appended to the
    status file the entry of each chunk, in order, and nothing else. *)
Definition task_trace {P J : Type} (resumable : bool) (t : Task) (a b : Z)
    (w w' : World P J) : Prop :=
  exists l,
    wlog w' = wlog w ++ l
    /\ tiles (taskOffset t) a b l
    /\ journal_log w' = journal_log w ++ (if resumable then map (entry_of t) l else [])
    /\ (l = [] -> disk w' = disk w).

(** [w'] comes from [w] by at most [k] sends on the error channel. *)
Definition sent {P J : Type} (k : nat) (w w' : World P J) : Prop :=
  exists l, errChan w' = errChan w ++ l /\ (length l <= k)%nat.

End TransferSpec.

(** ** Further scenarios on the reference server *)

Module Cases.
Import Session Transfer Ref Scenario.

(** A session that starts new transactions, on a pool with one idle
    connection that was used before. *)
Definition reusing_session : IRODSSession server :=
  session_of (make 3 [5%N] [] ∅) ∅ true false.

(** A local file to upload on a session that already shares a connection. *)
Definition sharing_upload : World server status_file :=
  on_server (make 4 [] [7%N] ∅) {[7%N := 1]} {["local" := object5]} no_status.

(** A pool that can give a single connection, for a download in two
    tasks. *)
Definition single_pool : World server status_file :=
  init_shared true 2 5
    (on_server (make 1 [] [] {["/zone/obj" := object5]}) ∅ {["local" := []]} no_status).

(** The status file of a download in one task of five bytes, loaded and
    open, that records [done] bytes as completed; and the world in which
    the worker of that task resumes. *)
Definition recorded (done : Z) : status_file :=
  let entry := {| StartOffset := 0; Length := 5; CompletedLength := done |} in
  {| stored := Some (1, [entry]);
     loaded := Some {| st_Path := "local"; st_Size := 5; Threads := 1;
                       StatusMap := {[0 := entry]} |};
     is_open := true |}.

Definition resuming (done : Z) : World server status_file :=
  on_server (make 4 [] [7%N] {["/zone/obj" := object5]}) {[7%N := 1]}
    {["local" := take (Z.to_nat done) object5]} (recorded done).

(** A session whose configuration allows no connection to a download. *)
Definition no_connection_world : World server status_file :=
  let s := session_of store5 ∅ false false in
  set_session
    {| account := account s;
       config :=
         {| ApplicationName := "app"; ConnectionInitNumber := 0; ConnectionMaxIdle := 10;
            ConnectionMax := 4; ConnectionLifespan := 3600; ConnectionIdleTimeout := 300;
            OperationTimeout := 300; StartNewTransaction := false;
            ConnectionMaxNumber := 0 |};
       connectionPool := connectionPool s;
       sharedConnections := sharedConnections s;
       startNewTransaction := startNewTransaction s;
       poormansRollbackFail := poormansRollbackFail s;
       metrics := metrics s |}
    (on_server store5 ∅ {["local" := object3]} no_status).

End Cases.

(** * Properties of the machine integers *)

Module Int64Facts.

Lemma wrap_small z : in_range z -> wrap z = z.
Proof.
  unfold in_range, min_int, max_int, wrap. intros Hz.
  rewrite Z.mod_small; lia.
Qed.

Lemma wrap_range z : in_range (wrap z).
Proof.
  unfold in_range, min_int, max_int, wrap.
  pose proof (Z.mod_pos_bound (z + 2 ^ 63) (2 ^ 64)). lia.
Qed.

Lemma int_add_small a b : in_range (a + b) -> int_add a b = a + b.
Proof. apply wrap_small. Qed.

Lemma int_sub_small a b : in_range (a - b) -> int_sub a b = a - b.
Proof. apply wrap_small. Qed.

End Int64Facts.

Export Int64Facts.

(** * Properties of the session *)

Module SessionFacts.
Import Session.
Section SessionFacts.

Context {P : Type} `{PoolOps : ConnectionPool P}.
Variable range_order : gmap N Z -> list (N * Z).
Variable range_conns : gset N -> list N.
Hypothesis range_order_perm : forall m, range_order m ≡ₚ map_to_list m.

Abbreviation IRODSSession := (IRODSSession P).
Abbreviation AcquireConnection := (AcquireConnection range_order).
Abbreviation AcquireConnectionsMulti := (AcquireConnectionsMulti range_order range_conns).

Lemma getConnectionFromPool_shared (sess : IRODSSession) :
  sharedConnections (fst (getConnectionFromPool sess)) = sharedConnections sess.
Proof.
  unfold getConnectionFromPool.
  destruct (Get (connectionPool sess)) as [pool1 [err | [conn isNew]]]; simpl; [done|].
  destruct (startNewTransaction sess && negb isNew); simpl; [|done].
  destruct (poormansRollbackFail sess).
  - destruct (GetNew _) as [pool3 [err | conn']]; done.
  - destruct (PoorMansRollback pool1 conn) as [pool2 [err|]]; [|done].
    destruct (GetNew _) as [pool4 [err' | conn']]; done.
Qed.

Lemma try_pool_shared (sess sess1 : IRODSSession) r :
  try_pool sess = (sess1, r) -> sharedConnections sess1 = sharedConnections sess.
Proof.
  unfold try_pool. destruct (0 <? _).
  - pose proof (getConnectionFromPool_shared sess) as Hs.
    destruct (getConnectionFromPool sess) as [s [e | c]]; simpl in Hs;
      intros [= <- <-]; exact Hs.
  - by intros [= <- <-].
Qed.

(** What the scan returns on a list of entries whose counts are all
    positive: either nothing was seen, or an entry of the list whose count
    is least. *)
Lemma min_share_scan_spec (l : list (N * Z)) (ms : Z) (mc : N) :
  (forall c n, (c, n) ∈ l -> 1 <= n) ->
  (ms = 0 \/ 2 <= ms) ->
  let '(s, c) := min_share_scan l ms mc in
  (s = ms /\ c = mc /\ (ms = 0 -> l = []) /\ (forall c' n', (c', n') ∈ l -> ms <= n'))
  \/ ((c, s) ∈ l /\ (forall c' n', (c', n') ∈ l -> s <= n') /\ (ms <> 0 -> s < ms)).
Proof.
  revert ms mc. induction l as [| [sc cnt] rest IH]; intros ms mc Hpos Hms; simpl.
  - left. split; [done|]. split; [done|]. split; [done|].
    intros c' n' Hin. by apply elem_of_nil in Hin.
  - assert (Hcnt : 1 <= cnt) by (apply (Hpos sc); left).
    assert (Hrest : forall c n, (c, n) ∈ rest -> 1 <= n)
      by (intros c n Hin; apply (Hpos c); by right).
    destruct ((ms =? 0) || (cnt <? ms)) eqn:Hpick.
    + destruct (cnt =? 1) eqn:Hone.
      * apply Z.eqb_eq in Hone. subst cnt. right. repeat split.
        -- left.
        -- intros c' n' Hin. apply (Hpos c'). done.
        -- intros Hne. apply orb_true_iff in Hpick as [Hp | Hp]; lia.
      * apply Z.eqb_neq in Hone.
        specialize (IH cnt sc Hrest ltac:(lia)).
        destruct (min_share_scan rest cnt sc) as [s c].
        apply orb_true_iff in Hpick.
        destruct IH as [(-> & -> & _ & Hle) | (Hin & Hle & Hlt)].
        -- right. repeat split; [left | | lia].
           intros c' n' [[= -> ->] | Hin']%elem_of_cons; [lia | eauto].
        -- right. repeat split; [by right | | ].
           ++ intros c' n' [[= -> ->] | Hin']%elem_of_cons; [lia | eauto].
           ++ intros Hne. specialize (Hlt ltac:(lia)). lia.
    + apply orb_false_iff in Hpick as [Hz Hlt].
      apply Z.eqb_neq in Hz. apply Z.ltb_ge in Hlt.
      destruct (ms =? 1) eqn:Hone; [lia|].
      specialize (IH ms mc Hrest ltac:(lia)).
      destruct (min_share_scan rest ms mc) as [s c].
      destruct IH as [(-> & -> & _ & Hle) | (Hin & Hle & Hlt')].
      * left. repeat split; [done | ].
        intros c' n' [[= -> ->] | Hin']%elem_of_cons; [lia | eauto].
      * right. repeat split; [by right | | done].
        specialize (Hlt' Hz).
        intros c' n' [[= -> ->] | Hin']%elem_of_cons; [lia | eauto].
Qed.

Lemma range_order_lookup (m : gmap N Z) c n :
  (c, n) ∈ range_order m <-> m !! c = Some n.
Proof. rewrite (range_order_perm m). apply elem_of_map_to_list. Qed.

Lemma range_order_empty : range_order ∅ = [].
Proof.
  apply Permutation_nil_r. rewrite (range_order_perm ∅).
  by rewrite map_to_list_empty.
Qed.

Lemma range_order_nil_inv (m : gmap N Z) : range_order m = [] -> m = ∅.
Proof.
  intros Hnil. apply map_to_list_empty_iff. apply Permutation_nil_r.
  by rewrite <- (range_order_perm m), Hnil.
Qed.

(** C6. When the pool gives no connection, [AcquireConnection] hands out a
    connection of the share map whose share count is least, and stores
    that count plus one for it; on an empty share map it fails and adds
    one to the pool-failure counter.  (The scan stops at the first count
    of one; the result is least all the same.) *)
Theorem AcquireConnection_shares_least_loaded (sess sess1 : IRODSSession) :
  share_inv (sharedConnections sess) ->
  try_pool sess = (sess1, None) ->
  (sharedConnections sess1 = ∅ ->
     AcquireConnection sess =
       (set_metrics (IncreaseCounterForConnectionPoolFailures (metrics sess1) 1) sess1,
        inl (Errorf "failed to get a shared connection")))
  /\ (sharedConnections sess1 <> ∅ ->
     exists c n,
       sharedConnections sess1 !! c = Some n
       /\ (forall c' n', sharedConnections sess1 !! c' = Some n' -> n <= n')
       /\ AcquireConnection sess =
            (set_shared (<[c := int_add n 1]> (sharedConnections sess1)) sess1, inr c)).
Proof.
  intros Hinv Htry.
  pose proof (try_pool_shared _ _ _ Htry) as Hsame.
  unfold Session.AcquireConnection. rewrite Htry.
  assert (Hpos : forall c n, (c, n) ∈ range_order (sharedConnections sess1) -> 1 <= n).
  { intros c n Hin%range_order_lookup. rewrite Hsame in Hin.
    by destruct (Hinv c n Hin). }
  pose proof (min_share_scan_spec _ 0 nil_conn Hpos (or_introl eq_refl)) as Hscan.
  destruct (min_share_scan _ 0 nil_conn) as [s c].
  destruct Hscan as [(-> & -> & Hnil & _) | (Hin & Hle & _)].
  - specialize (Hnil eq_refl). apply range_order_nil_inv in Hnil.
    split; [done | by intros []].
  - apply range_order_lookup in Hin as Hlk.
    assert (c <> nil_conn) as Hc by (rewrite Hsame in Hlk; by destruct (Hinv c s Hlk)).
    apply N.eqb_neq in Hc. rewrite Hc.
    split.
    + intros Hempty. rewrite Hempty in Hlk. by rewrite lookup_empty in Hlk.
    + intros _. exists c, s. split; [done|]. split; [|done].
      intros c' n' Hlk'. apply (Hle c'). by apply range_order_lookup.
Qed.

(** C7. [ReturnConnection] on a connection that is not in the share map
    changes nothing and returns nil; on a connection with share [s] it
    stores [s - 1] while that is positive; otherwise it removes the key
    and discards the connection exactly when both [startNewTransaction]
    and [poormansRollbackFail] are set, else hands it to the pool's
    [Return]. *)
Theorem ReturnConnection_accounting (sess : IRODSSession) (conn : N) :
  (sharedConnections sess !! conn = None ->
     ReturnConnection sess conn = (sess, None))
  /\ (forall s, sharedConnections sess !! conn = Some s -> 0 < int_sub s 1 ->
     ReturnConnection sess conn =
       (set_shared (<[conn := int_sub s 1]> (sharedConnections sess)) sess, None))
  /\ (forall s, sharedConnections sess !! conn = Some s -> int_sub s 1 <= 0 ->
     let sess' := set_shared (delete conn (sharedConnections sess)) sess in
     sharedConnections (fst (ReturnConnection sess conn)) !! conn = None
     /\ (startNewTransaction sess && poormansRollbackFail sess = true ->
          ReturnConnection sess conn =
            (set_pool (Discard (connectionPool sess) conn) sess', None))
     /\ (startNewTransaction sess && poormansRollbackFail sess = false ->
          ReturnConnection sess conn =
            (set_pool (fst (Return (connectionPool sess) conn)) sess',
             snd (Return (connectionPool sess) conn)))).
Proof.
  unfold Session.ReturnConnection. split; [|split].
  - by intros ->.
  - intros s -> Hpos. apply Z.leb_gt in Hpos. by rewrite Hpos.
  - intros s -> Hzero. apply Z.leb_le in Hzero. rewrite Hzero. simpl.
    destruct (startNewTransaction sess && poormansRollbackFail sess) eqn:Hflags.
    + simpl. split; [apply lookup_delete_eq | by split].
    + destruct (Return (connectionPool sess) conn) as [pool1 [err|]]; simpl;
        (split; [apply lookup_delete_eq | by split]).
Qed.

(** C8. For an account whose client user is "anonymous", a session that
    [NewIRODSSession] creates has [startNewTransaction = false] and
    [poormansRollbackFail = true], whatever the configuration asks for; the
    creation fails only if the pool cannot be created. *)
Theorem NewIRODSSession_anonymous (acct : IRODSAccount) (cfg : IRODSSessionConfig) :
  ClientUser acct = "anonymous" ->
  match NewConnectionPool (poolConfig_of acct cfg) with
  | inl err => NewIRODSSession acct cfg = inl err
  | inr _ =>
    exists sess : IRODSSession,
      NewIRODSSession acct cfg = inr sess
      /\ startNewTransaction sess = false
      /\ poormansRollbackFail sess = true
  end.
Proof.
  intros Hanon. unfold Session.NewIRODSSession.
  destruct (NewConnectionPool (poolConfig_of acct cfg)) as [err | pool]; [done|].
  simpl. rewrite Hanon. simpl. eexists. split; [reflexivity|]. by split.
Qed.

(** The sharing loop of [AcquireConnectionsMulti] makes no progress on an
    empty share map. *)
Lemma share_loop_empty_spins (fuel : nat) (connections : gset N) (need : Z) :
  0 < need -> share_loop range_order fuel ∅ connections need = None.
Proof.
  intros Hneed. apply Z.ltb_lt in Hneed.
  induction fuel as [| fuel IH]; simpl; rewrite Hneed; [done|].
  rewrite range_order_empty. simpl. exact IH.
Qed.

Lemma acquire_from_pool_unavailable (n : nat) (sess : IRODSSession) (cs : gset N) :
  AvailableConnections (connectionPool sess) <= 0 ->
  acquire_from_pool n sess cs = (sess, cs).
Proof.
  intros Hav. apply Z.ltb_ge in Hav. destruct n; simpl; [done|]. by rewrite Hav.
Qed.

Lemma AcquireConnectionsMulti_spins (fuel : nat) (sess : IRODSSession) (number : Z) :
  AvailableConnections (connectionPool sess) <= 0 ->
  sharedConnections sess = ∅ ->
  1 <= number <= max_int ->
  AcquireConnectionsMulti fuel sess number = None.
Proof.
  intros Hav Hempty Hnum. unfold Session.AcquireConnectionsMulti.
  rewrite acquire_from_pool_unavailable by done.
  rewrite size_empty, Hempty. simpl.
  rewrite int_sub_small by (unfold in_range, min_int, max_int in *; lia).
  rewrite share_loop_empty_spins by lia. done.
Qed.

End SessionFacts.
End SessionFacts.

(** * Properties of the transfer engine *)

Module TransferFacts.
Import Session Transfer.
Section TransferFacts.

Context {P : Type} `{PoolOps : ConnectionPool P} `{DataOps : DataObjectOps P}.
Context {J : Type} `{StatusOps : TransferStatusOps J}.

Variable range_order : gmap N Z -> list (N * Z).
Variable range_conns : gset N -> list N.
Variable ReadWriteBufferSize : Z.
Variable GetNumTasksForParallelTransfer : Z -> Z.
Variable AcquireUnmanagedConnection : IRODSSession P -> IRODSSession P * (error + N).
Variable SessionSupportParallelUpload : IRODSSession P -> bool.

Abbreviation World := (World P J).
Abbreviation UploadDataObject :=
  (UploadDataObject (J := J) range_order ReadWriteBufferSize).
Abbreviation UploadDataObjectParallel :=
  (UploadDataObjectParallel (J := J) range_order ReadWriteBufferSize
     GetNumTasksForParallelTransfer AcquireUnmanagedConnection
     SessionSupportParallelUpload).
Abbreviation resolve_tasks := (resolve_tasks GetNumTasksForParallelTransfer).
Abbreviation download_setup := (download_setup (P := P) (J := J) GetNumTasksForParallelTransfer).
Abbreviation resumable_setup := (resumable_setup (P := P) GetNumTasksForParallelTransfer).

Lemma default_resource_idem (w : World) (resource : string) :
  default_resource w (default_resource w resource) = default_resource w resource.
Proof.
  unfold default_resource.
  destruct (String.length resource =? 0)%nat eqn:Hlen; [|by rewrite Hlen].
  by case_match.
Qed.

Lemma UploadDataObject_default_resource localPath irodsPath replicate keywords callback
    fuel (w : World) resource :
  UploadDataObject localPath irodsPath replicate keywords callback fuel w
    (default_resource w resource)
  = UploadDataObject localPath irodsPath replicate keywords callback fuel w resource.
Proof. unfold Transfer.UploadDataObject. by rewrite default_resource_idem. Qed.

(** C10. [UploadDataObjectParallel] is [UploadDataObject], with the same
    result and the same final state, when the server does not support
    parallel upload, when the local file is empty, and when the number of
    tasks, given or derived from the file size, comes out as one. *)
Theorem UploadDataObjectParallel_serial_fallback localPath irodsPath replicate keywords
    callback fuel (w : World) resource taskNum :
  SessionSupportParallelUpload (session w) = false
  \/ os_Stat (disk w) localPath = inr 0
  \/ (exists fileLength, os_Stat (disk w) localPath = inr fileLength
                         /\ resolve_tasks taskNum fileLength = 1) ->
  UploadDataObjectParallel localPath irodsPath replicate keywords callback fuel w
    resource taskNum
  = UploadDataObject localPath irodsPath replicate keywords callback fuel w resource.
Proof.
  intros Hcase. unfold Transfer.UploadDataObjectParallel.
  destruct (SessionSupportParallelUpload (session w)) eqn:Hsup; simpl; [|done].
  destruct Hcase as [Hno | [Hempty | (fileLength & Hstat & Hone)]]; [done | |].
  - rewrite Hempty. simpl. apply UploadDataObject_default_resource.
  - rewrite Hstat.
    destruct (fileLength =? 0); [apply UploadDataObject_default_resource|].
    rewrite Hone. simpl. apply UploadDataObject_default_resource.
Qed.

Lemma os_OpenFile_trunc (d d1 : Disk) name flag f :
  has_flag flag O_CREATE = true -> has_flag flag O_TRUNC = true ->
  os_OpenFile d name flag = (d1, inr f) ->
  files d1 !! name = Some [].
Proof.
  unfold os_OpenFile. intros Hc Ht.
  destruct (fault d OpOpen name); [done|].
  rewrite Hc, Ht.
  destruct (files d !! name); intros [= <- _]; simpl; apply lookup_insert_eq.
Qed.

Lemma os_OpenFile_keep (d d1 : Disk) name flag f :
  has_flag flag O_CREATE = true -> has_flag flag O_TRUNC = false ->
  os_OpenFile d name flag = (d1, inr f) ->
  files d1 !! name = Some (content_of d name).
Proof.
  unfold os_OpenFile, content_of. intros Hc Ht.
  destruct (fault d OpOpen name); [done|].
  rewrite Hc, Ht.
  destruct (files d !! name) eqn:Hlk; intros [= <- _]; simpl;
    [done | apply lookup_insert_eq].
Qed.

Lemma os_Create_empty (d d1 : Disk) name f :
  os_Create d name = (d1, inr f) -> files d1 !! name = Some [].
Proof. by apply os_OpenFile_trunc. Qed.

Lemma disk_init_shared callback numTasks fileLength (w : World) :
  disk (init_shared callback numTasks fileLength w) = disk w.
Proof. unfold init_shared, call_back. by destruct callback. Qed.

Lemma disk_journal_call c j (w : World) : disk (fst (journal_call c j w)) = disk w.
Proof. done. Qed.

(** C3, as the code has it.  When the download functions get as far as
    starting their tasks, the local file exists: [DownloadDataObjectParallel]
    has truncated it to length zero, while
    [DownloadDataObjectParallelResumable] has created it empty if it did
    not exist and has left the content of an existing file as it was. *)
Theorem download_precreates_local_file localPath callback (w w1 : World)
    fileLength taskNum numTasks :
  (download_setup localPath callback w fileLength taskNum = Ret (w1, inr numTasks) ->
     files (disk w1) !! localPath = Some [])
  /\ (resumable_setup localPath callback w fileLength taskNum = Ret (w1, inr numTasks) ->
     files (disk w1) !! localPath = Some (content_of (disk w) localPath)).
Proof.
  split.
  - unfold Transfer.download_setup.
    destruct (fileLength =? 0); [by destruct (download_empty _ _)|].
    destruct (os_Create (disk w) localPath) as [d1 [err | f]] eqn:Hcreate; [done|].
    destruct (_ <? 0); [done|]. intros [= <- _].
    rewrite disk_init_shared. simpl. by eapply os_Create_empty.
  - unfold Transfer.resumable_setup.
    destruct (fileLength =? 0); [by destruct (download_empty _ _)|].
    destruct (GetOrNewDataObjectTransferStatusLocal _ _ _ _) as [j1 [err | status]]; [done|].
    destruct (journal_call CallCreateStatusFile _ _) as [wa [err|]] eqn:Ha; [done|].
    destruct (journal_call CallWriteHeader _ _) as [wb [err|]] eqn:Hb;
      [by destruct (journal_call CallCloseStatusFile _ _)|].
    destruct (os_OpenFile (disk wb) localPath _) as [d1 [err | f]] eqn:Hopen; [done|].
    destruct (_ <? 0); [done|]. intros [= <- _].
    rewrite disk_init_shared. simpl.
    apply os_OpenFile_keep in Hopen; [|done..].
    rewrite Hopen. f_equal. f_equal.
    apply (f_equal fst) in Ha, Hb. simpl in Ha, Hb. by rewrite <- Hb, <- Ha.
Qed.

(** *** The status file during a resumable download *)





Section DownloadFacts.

Variables (irodsPath resource localPath : string) (fileLength : Z)
          (keywords : gmap string string) (callback : bool).
Variable resumable : bool.

Abbreviation blockReadCallback := (blockReadCallback (P := P) (J := J) fileLength callback).
Abbreviation trial_chunk :=
  (trial_chunk (P := P) (J := J) ReadWriteBufferSize fileLength callback resumable).
Abbreviation trial_copy :=
  (trial_copy (P := P) (J := J) ReadWriteBufferSize fileLength callback resumable).
Abbreviation trial :=
  (trial (P := P) (J := J) ReadWriteBufferSize irodsPath resource fileLength keywords
     callback resumable).
Abbreviation downloadTask_retry :=
  (downloadTask_retry (P := P) (J := J) range_order ReadWriteBufferSize irodsPath resource
     fileLength keywords callback resumable).
Abbreviation downloadTask :=
  (downloadTask (P := P) (J := J) range_order ReadWriteBufferSize irodsPath resource
     localPath fileLength keywords callback resumable).
Abbreviation run_download_tasks :=
  (run_download_tasks (P := P) (J := J) range_order ReadWriteBufferSize irodsPath resource
     localPath fileLength keywords callback resumable).




Lemma log_grows_write_status t remain bytesRead (w : World) :
  log_grows w (write_status t remain bytesRead w).
Proof.
  eexists [_]. split; [reflexivity|]. rewrite list_elem_of_singleton. congruence.
Qed.










End DownloadFacts.

Section ResumableFacts.

Variables (irodsPath localPath : string) (keywords : gmap string string) (callback : bool).

Abbreviation download_run :=
  (download_run (P := P) (J := J) range_order range_conns ReadWriteBufferSize
     irodsPath localPath keywords callback).
Abbreviation DownloadDataObjectParallelResumable :=
  (DownloadDataObjectParallelResumable (P := P) (J := J) range_order range_conns
     ReadWriteBufferSize GetNumTasksForParallelTransfer irodsPath localPath keywords
     callback).
Abbreviation download_tasks := (download_tasks (P := P) (J := J) GetNumTasksForParallelTransfer).







End ResumableFacts.

(** *** The download worker *)

Section WorkerFacts.

Variables (irodsPath resource : string) (fileLength : Z)
          (keywords : gmap string string) (callback : bool).
Variable resumable : bool.

Abbreviation trial_chunk :=
  (trial_chunk (P := P) (J := J) ReadWriteBufferSize fileLength callback resumable).
Abbreviation trial_copy :=
  (trial_copy (P := P) (J := J) ReadWriteBufferSize fileLength callback resumable).
Abbreviation trial :=
  (trial (P := P) (J := J) ReadWriteBufferSize irodsPath resource fileLength keywords
     callback resumable).
Abbreviation downloadTask_retry :=
  (downloadTask_retry (P := P) (J := J) range_order ReadWriteBufferSize irodsPath resource
     fileLength keywords callback resumable).
Abbreviation chunk_len := (chunk_len ReadWriteBufferSize).

(** The step of the retry loop after a trial that failed with a failed
    socket, when the session hands out a connected connection. *)
Lemma downloadTask_retry_step fuel t (w w1 : World) loc loc1 trialErr s3 c :
  trial fuel t w loc (taskConn loc) = Some (w1, loc1, Some trialErr) ->
  IsSocketFailed (pool w1) (taskConn loc1) = true ->
  AcquireConnection range_order (ReturnConnection (session w1) (taskConn loc1)).1
    = (s3, inr c) ->
  c <> nil_conn ->
  IsConnected (connectionPool s3) c = true ->
  downloadTask_retry (S fuel) t w loc
    = downloadTask_retry fuel t
        (set_session s3
           (set_session (ReturnConnection (session w1) (taskConn loc1)).1 w1))
        (set_taskConn c loc1).
Proof.
  intros Htrial Hfailed Hacq Hc Hconn.
  change (downloadTask_retry (S fuel) t w loc) with
    (match trial fuel t w loc (taskConn loc) with
     | None => None
     | Some (w1, loc1, None) => Some (task_exit (taskConn loc1) w1)
     | Some (w1, loc1, Some trialErr) =>
       if IsSocketFailed (pool w1) (taskConn loc1) then
         let w2 := set_session (ReturnConnection (session w1) (taskConn loc1)).1 w1 in
         match AcquireConnection range_order (session w2) with
         | (s3, inl connErr) =>
           exit_with nil_conn
             (send (Wrapf "failed to get connection" connErr) (set_session s3 w2))
         | (s3, inr c) =>
           let w3 := set_session s3 w2 in
           if (c =? nil_conn)%N || negb (IsConnected (pool w3) c) then
             exit_with c (send (Errorf "connection is nil or disconnected") w3)
           else downloadTask_retry fuel t w3 (set_taskConn c loc1)
         end
       else exit_with (taskConn loc1) (send trialErr w1)
     end).
  rewrite Htrial, Hfailed. cbv zeta.
  change (session (set_session (ReturnConnection (session w1) (taskConn loc1)).1 w1))
    with (ReturnConnection (session w1) (taskConn loc1)).1.
  rewrite Hacq.
  change (pool (set_session s3
                  (set_session (ReturnConnection (session w1) (taskConn loc1)).1 w1)))
    with (connectionPool s3).
  apply N.eqb_neq in Hc. rewrite Hc, Hconn. done.
Qed.


(** A worker all of whose trials end with a failed socket, and which gets
    a connection every time it asks, never returns: there is no bound on
    the number of its trials.  [I] is any set of states closed under such
    a failed trial. *)
Lemma downloadTask_retry_unbounded (I : World -> Locals -> Prop) t :
  (forall w loc fuel, I w loc ->
     trial fuel t w loc (taskConn loc) = None
     \/ exists w1 loc1 e s3 c,
          trial fuel t w loc (taskConn loc) = Some (w1, loc1, Some e)
          /\ IsSocketFailed (pool w1) (taskConn loc1) = true
          /\ AcquireConnection range_order
               (ReturnConnection (session w1) (taskConn loc1)).1 = (s3, inr c)
          /\ c <> nil_conn
          /\ IsConnected (connectionPool s3) c = true
          /\ I (set_session s3 w1) (set_taskConn c loc1)) ->
  forall fuel w loc, I w loc -> downloadTask_retry fuel t w loc = None.
Proof.
  intros Hstep fuel. induction fuel as [| fuel IH]; intros w loc HI; [done|].
  destruct (Hstep w loc fuel HI)
    as [Hnone | (w1 & loc1 & e & s3 & c & Htrial & Hfailed & Hacq & Hc & Hconn & HI')].
  - simpl. by rewrite Hnone.
  - rewrite (downloadTask_retry_step fuel t w w1 loc loc1 e s3 c Htrial Hfailed Hacq Hc
               Hconn).
    apply IH. exact HI'.
Qed.

Lemma disk_call_back cb a b (w : World) : disk (call_back cb a b w) = disk w.
Proof. by destruct cb. Qed.

Lemma errChan_call_back cb a b (w : World) : errChan (call_back cb a b w) = errChan w.
Proof. by destruct cb. Qed.

Lemma disk_reports fl cb t reports (w : World) :
  disk (fold_left (Transfer.blockReadCallback fl cb t) reports w) = disk w.
Proof.
  revert w. induction reports as [| r reports IH]; intros w; simpl; [done|].
  rewrite IH. unfold Transfer.blockReadCallback.
  case_match; [|done]. by rewrite disk_call_back.
Qed.

Lemma errChan_reports fl cb t reports (w : World) :
  errChan (fold_left (Transfer.blockReadCallback fl cb t) reports w) = errChan w.
Proof.
  revert w. induction reports as [| r reports IH]; intros w; simpl; [done|].
  rewrite IH. unfold Transfer.blockReadCallback.
  case_match; [|done]. by rewrite errChan_call_back.
Qed.

Lemma errChan_trial_chunk_EOF t (w : World) loc conn h p1 data reports :
  ReadDataObjectWithTrackerCallBack (pool w) conn h (chunk_len (taskRemain loc))
    = (p1, (data, reports, Some EOF)) ->
  (data <> [] ->
     (File_WriteAt (disk w) (lf loc) data
        (int_add (taskOffset t) (int_sub (taskLength t) (taskRemain loc)))).2 = None) ->
  exists w1,
    trial_chunk t w loc conn h
      = (w1, if 0 <? Z.of_nat (length data) then advance (Z.of_nat (length data)) loc else loc,
         Some None)
    /\ errChan w1 = errChan w.
Proof.
  intros Hread Hwrite. unfold Transfer.trial_chunk.
  change (pool (set_taskProgress (<[taskID t := 0]> (taskProgress w)) w)) with (pool w).
  rewrite Hread.
  destruct (0 <? Z.of_nat (length data)) eqn:Hlen.
  - rewrite disk_reports. simpl.
    assert (data <> []) as Hne by (intros ->; done).
    specialize (Hwrite Hne).
    destruct (File_WriteAt _ _ _ _) as [d1 [e|]]; [done|]. simpl.
    eexists. split; [reflexivity|].
    rewrite errChan_call_back. destruct resumable; simpl; by rewrite errChan_reports.
  - simpl. eexists. split; [reflexivity|]. by rewrite errChan_reports.
Qed.

(** C9. A download task that receives EOF from a remote read finishes
    without an error, whatever is left of [taskRemain]: the copy loop of
    the trial returns nil at that read (the bytes that came with the EOF,
    if any, having been written to the local file); a trial whose copy loop
    returns nil returns nil; and a worker whose trial returns nil returns
    without putting anything on [errChan]. *)
Theorem download_EOF_completes_task fuel t :
  (forall (w : World) loc conn h p1 data reports,
     0 < taskRemain loc ->
     ReadDataObjectWithTrackerCallBack (pool w) conn h (chunk_len (taskRemain loc))
       = (p1, (data, reports, Some EOF)) ->
     (data <> [] ->
        (File_WriteAt (disk w) (lf loc) data
           (int_add (taskOffset t) (int_sub (taskLength t) (taskRemain loc)))).2 = None) ->
     exists w1,
       trial_copy (S fuel) t w loc conn h
         = Some (w1,
                 if 0 <? Z.of_nat (length data)
                 then advance (Z.of_nat (length data)) loc else loc,
                 None)
       /\ errChan w1 = errChan w)
  /\ (forall (w : World) loc conn p1 h wa loca wb locb,
     OpenDataObject (pool w) conn irodsPath resource "r" keywords = (p1, inr h) ->
     trial_seek (set_conn_state p1 w) loc conn h = (wa, loca, None) ->
     trial_copy fuel t wa loca conn h = Some (wb, locb, None) ->
     exists w1,
       trial fuel t w loc conn = Some (w1, locb, None) /\ errChan w1 = errChan wb)
  /\ (forall (w : World) loc w1 loc1,
     trial fuel t w loc (taskConn loc) = Some (w1, loc1, None) ->
     downloadTask_retry (S fuel) t w loc = Some (task_exit (taskConn loc1) w1)
     /\ errChan (task_exit (taskConn loc1) w1) = errChan w1).
Proof.
  split; [|split].
  - intros w loc conn h p1 data reports Hremain Hread Hwrite.
    destruct (errChan_trial_chunk_EOF t w loc conn h p1 data reports Hread Hwrite)
      as (w1 & Hchunk & Herr).
    exists w1. split; [|done].
    simpl. apply Z.ltb_lt in Hremain. by rewrite Hremain, Hchunk.
  - intros w loc conn p1 h wa loca wb locb Hopen Hseek Hcopy.
    unfold Transfer.trial. rewrite Hopen, Hseek, Hcopy.
    eexists. split; [reflexivity|]. by case_match.
  - intros w loc w1 loc1 Htrial. simpl. by rewrite Htrial.
Qed.

End WorkerFacts.

(** *** Partition of the object *)






Lemma tiles_covered tag a b l :
  tiles tag a b l -> a <= b /\ forall x, covered l x <-> a <= x < b.
Proof.
  revert a. induction l as [| [[tg off] len] l IH]; intros a; simpl.
  - intros ->. split; [lia|]. intros x. split; [|lia].
    intros (? & ? & ? & Hin & _). by apply elem_of_nil in Hin.
  - intros (-> & -> & Hlen & Hle & Hrest).
    destruct (IH _ Hrest) as [Hab Hcov]. split; [lia|].
    intros x. split.
    + intros (tg' & off' & len' & Hin & Hx).
      apply elem_of_cons in Hin as [[= -> -> ->] | Hin]; [lia|].
      assert (covered l x) as Hc by (by exists tg', off', len').
      apply Hcov in Hc. lia.
    + intros Hx. destruct (decide (x < a + len)) as [Hlt | Hge].
      * exists tag, a, len. split; [left | lia].
      * assert (covered l x) as (tg' & off' & len' & Hin & Hx') by (apply Hcov; lia).
        exists tg', off', len'. split; [by right | done].
Qed.

Lemma tiles_app tag a b c l1 l2 :
  tiles tag a b l1 -> tiles tag b c l2 -> tiles tag a c (l1 ++ l2).
Proof.
  revert a. induction l1 as [| [[tg off] len] l1 IH]; intros a; simpl.
  - by intros ->.
  - intros (-> & -> & Hlen & Hle & Hrest) H2.
    pose proof (tiles_covered _ _ _ _ H2) as [Hbc _].
    repeat split; [done | lia | by apply IH].
Qed.

(** *** The bytes an upload task writes *)



Section UploadTiling.

Variables (callback : bool) (conn : N) (h : IRODSFileHandle) (f : File).
Variables (n off len : Z).

Abbreviation uploadTask_copy :=
  (uploadTask_copy (P := P) (J := J) ReadWriteBufferSize callback).

Hypothesis buffer_pos : 0 < ReadWriteBufferSize.
Hypothesis off_nonneg : 0 <= off.
Hypothesis no_overflow : off + len <= max_int.


End UploadTiling.

(** *** The bytes a download task writes *)




Section DownloadTiling.

Variables (irodsPath resource : string) (fileLength : Z)
          (keywords : gmap string string) (callback resumable : bool).

(** The size of the data object on the server. *)
Variable n : Z.

(** [at_pos p c h pos]: in the state [p] of the server, the descriptor
    [h], opened on the connection [c], stands at offset [pos] of the data
    object. *)
Variable at_pos : P -> N -> IRODSFileHandle -> Z -> Prop.

Hypothesis seek_moves : forall p c h pos x p' x',
  at_pos p c h pos -> SeekDataObject p c h x = (p', inr x') -> at_pos p' c h x'.

(** A read delivers bytes of the object from the position of the
    descriptor and advances it; it delivers at least one byte unless it
    reports an error, and it reports EOF only at the end of the object. *)
Hypothesis read_advances : forall p c h pos len p' data reports err,
  at_pos p c h pos -> 0 < len ->
  ReadDataObjectWithTrackerCallBack p c h len = (p', (data, reports, err)) ->
  Z.of_nat (length data) <= len
  /\ (data <> [] -> pos + Z.of_nat (length data) <= n)
  /\ at_pos p' c h (pos + Z.of_nat (length data))
  /\ (err = None -> data <> [])
  /\ (err = Some EOF -> n <= pos + Z.of_nat (length data)).

Hypothesis buffer_pos : 0 < ReadWriteBufferSize.

Abbreviation trial_chunk :=
  (trial_chunk (P := P) (J := J) ReadWriteBufferSize fileLength callback resumable).
Abbreviation trial_copy :=
  (trial_copy (P := P) (J := J) ReadWriteBufferSize fileLength callback resumable).
Abbreviation trial :=
  (trial (P := P) (J := J) ReadWriteBufferSize irodsPath resource fileLength keywords
     callback resumable).






End DownloadTiling.



End TransferFacts.
End TransferFacts.

(** * The properties on the reference server *)

Module Witnesses.
Import Session Transfer Ref Scenario.

Lemma range_order_perm (m : gmap N Z) : range_order m ≡ₚ map_to_list m.
Proof. reflexivity. Qed.

Lemma share_inv_decide (m : gmap N Z) :
  bool_decide (map_Forall (fun c n => c <> nil_conn /\ 1 <= n) m) = true -> share_inv m.
Proof. intros Hd. exact (bool_decide_eq_true_1 _ Hd). Qed.

(** On the busy pool the least shared connection is handed out; with
    nothing shared the acquisition fails and is counted. *)
Lemma AcquireConnection_shares_least_loaded_witness :
  (share_inv shares
   /\ try_pool shared_session = (shared_session, None)
   /\ exists c n,
        shares !! c = Some n
        /\ (forall c' n', shares !! c' = Some n' -> n <= n')
        /\ AcquireConnection range_order shared_session
           = (set_shared (<[c := int_add n 1]> shares) shared_session, inr c))
  /\ AcquireConnection range_order unshared_session
     = (set_metrics {| connectionPoolFailures := 1 |} unshared_session,
        inl (Errorf "failed to get a shared connection")).
Proof.
  split.
  - assert (share_inv shares) as Hinv by (apply share_inv_decide; vm_compute; reflexivity).
    split; [exact Hinv|]. split; [vm_compute; reflexivity|].
    apply (SessionFacts.AcquireConnection_shares_least_loaded (PoolOps := ref_pool) range_order range_order_perm
             shared_session shared_session Hinv ltac:(vm_compute; reflexivity)).
    vm_compute. discriminate.
  - apply (SessionFacts.AcquireConnection_shares_least_loaded (PoolOps := ref_pool) range_order range_order_perm
             unshared_session unshared_session).
    + intros c n Hlk. vm_compute in Hlk. discriminate.
    + vm_compute. reflexivity.
    + vm_compute. reflexivity.
Defined.

Example AcquireConnection_picks_8 :
  snd (AcquireConnection range_order shared_session) = inr 8%N.
Proof. vm_compute. reflexivity. Qed.

(** Returning an unknown connection, a connection shared twice, and a
    connection shared once, with and without stale transactions. *)
Lemma ReturnConnection_accounting_witness :
  ReturnConnection shared_session 5%N = (shared_session, None)
  /\ ReturnConnection shared_session 7%N
     = (set_shared (<[7%N := 1]> shares) shared_session, None)
  /\ ReturnConnection stale_session 8%N
     = (set_pool (Discard busy_pool 8%N) (set_shared (delete 8%N shares) stale_session),
        None)
  /\ ReturnConnection shared_session 8%N
     = (set_pool (fst (Return busy_pool 8%N))
          (set_shared (delete 8%N shares) shared_session),
        snd (Return busy_pool 8%N)).
Proof.
  split; [|split; [|split]].
  - apply (proj1 (SessionFacts.ReturnConnection_accounting (PoolOps := ref_pool) shared_session 5%N)).
    vm_compute. reflexivity.
  - apply (proj1 (proj2 (SessionFacts.ReturnConnection_accounting (PoolOps := ref_pool) shared_session 7%N)) 2).
    + vm_compute. reflexivity.
    + vm_compute. reflexivity.
  - apply (proj2 (proj2 (SessionFacts.ReturnConnection_accounting (PoolOps := ref_pool) stale_session 8%N)) 1).
    + vm_compute. reflexivity.
    + vm_compute. discriminate.
    + reflexivity.
  - apply (proj2 (proj2 (SessionFacts.ReturnConnection_accounting (PoolOps := ref_pool) shared_session 8%N)) 1).
    + vm_compute. reflexivity.
    + vm_compute. discriminate.
    + reflexivity.
Defined.

(** An anonymous account with a configuration that asks for transactions. *)
Lemma NewIRODSSession_anonymous_witness :
  ClientUser anonymous = "anonymous"
  /\ exists sess : IRODSSession server,
       NewIRODSSession anonymous transactional = inr sess
       /\ startNewTransaction sess = false
       /\ poormansRollbackFail sess = true.
Proof.
  split; [reflexivity|].
  exact (SessionFacts.NewIRODSSession_anonymous (PoolOps := ref_pool) anonymous transactional eq_refl).
Defined.

(** C2, where the code departs from it.  On a session whose pool has no
    connection to give and whose share map is empty, the sharing loop of
    [AcquireConnectionsMulti] never ends: no amount of fuel makes the
    function return. *)
Theorem AcquireConnectionsMulti_never_returns (fuel : nat) :
  AcquireConnectionsMulti range_order range_conns fuel unshared_session 1 = None.
Proof.
  apply (SessionFacts.AcquireConnectionsMulti_spins (PoolOps := ref_pool) range_order range_conns range_order_perm).
  - vm_compute. discriminate.
  - reflexivity.
  - vm_compute. split; discriminate.
Qed.

Abbreviation UploadDataObject :=
  (UploadDataObject (J := status_file) range_order 2).
Abbreviation UploadDataObjectParallel :=
  (UploadDataObjectParallel (J := status_file) range_order 2 tasks_for
     acquire_unmanaged session_parallel).
Abbreviation download_setup := (download_setup (P := server) (J := status_file) tasks_for).
Abbreviation resumable_setup := (resumable_setup (P := server) tasks_for).
Abbreviation download_run :=
  (download_run (J := status_file) range_order range_conns 2 "/zone/obj" "local" ∅ true).
Abbreviation DownloadDataObjectParallelResumable :=
  (DownloadDataObjectParallelResumable (J := status_file) range_order range_conns 2
     tasks_for "/zone/obj" "local" ∅ true).
Abbreviation trial :=
  (trial (J := status_file) 2 "/zone/obj" "demoResc" 5 ∅ true false).
Abbreviation downloadTask_retry :=
  (downloadTask_retry (J := status_file) range_order 2 "/zone/obj" "demoResc" 5 ∅ true
     false).

(** The four ways into the serial upload: a server without parallel
    upload, an empty file, one task asked for, one task derived. *)
Lemma UploadDataObjectParallel_serial_fallback_witness :
  UploadDataObjectParallel "local" "/zone/new" false ∅ true 10 serial_world "" 4
    = UploadDataObject "local" "/zone/new" false ∅ true 10 serial_world ""
  /\ UploadDataObjectParallel "local" "/zone/new" false ∅ true 10 empty_upload_world "" 4
    = UploadDataObject "local" "/zone/new" false ∅ true 10 empty_upload_world ""
  /\ UploadDataObjectParallel "local" "/zone/new" false ∅ true 10 upload_world "" 1
    = UploadDataObject "local" "/zone/new" false ∅ true 10 upload_world ""
  /\ UploadDataObjectParallel "local" "/zone/new" false ∅ true 10 upload_world "" 0
    = UploadDataObject "local" "/zone/new" false ∅ true 10 upload_world "".
Proof.
  split; [|split; [|split]];
    apply (TransferFacts.UploadDataObjectParallel_serial_fallback (J := status_file)).
  - left. vm_compute. reflexivity.
  - right. left. vm_compute. reflexivity.
  - right. right. exists 5. split; vm_compute; reflexivity.
  - right. right. exists 5. split; vm_compute; reflexivity.
Defined.

(** On a local file left by an interrupted download, the plain download
    starts its tasks on an empty file and the resumable one on the file as
    it was. *)
Lemma download_precreates_local_file_witness :
  (exists w1, download_setup "local" true resumed_world 5 2 = Ret (w1, inr 2)
              /\ files (disk w1) !! "local" = Some [])
  /\ (exists w1, resumable_setup "local" true resumed_world 5 2 = Ret (w1, inr 2)
                 /\ files (disk w1) !! "local" = Some object3).
Proof.
  split.
  - eexists. split; [vm_compute; reflexivity|].
    apply (proj1 (TransferFacts.download_precreates_local_file tasks_for "local" true
                    resumed_world _ 5 2 2)).
    vm_compute. reflexivity.
  - eexists. split; [vm_compute; reflexivity|].
    apply (proj2 (TransferFacts.download_precreates_local_file tasks_for "local" true
                    resumed_world _ 5 2 2)).
    vm_compute. reflexivity.
Defined.

(** C3, as stated, fails for the resumable download: it reaches the start
    of its tasks with the three bytes of the interrupted download still in
    the local file. *)
Lemma resumable_download_keeps_local_file :
  ~ (forall w1 n, resumable_setup "local" true resumed_world 5 2 = Ret (w1, inr n) ->
                  files (disk w1) !! "local" = Some []).
Proof.
  intros Hclaim.
  assert (exists w1, resumable_setup "local" true resumed_world 5 2 = Ret (w1, inr 2)
                     /\ files (disk w1) !! "local" = Some object3)
    as (w1 & Hsetup & Hfile) by (eexists; split; vm_compute; reflexivity).
  specialize (Hclaim w1 2 Hsetup). rewrite Hfile in Hclaim. discriminate.
Qed.




(** A task of five bytes on a data object that has only three: the read
    delivers the three bytes with EOF, the copy loop returns nil with two
    bytes of the task remaining, the trial returns nil, and the worker
    returns with [errChan] as it was. *)
Lemma download_EOF_completes_task_witness :
  let opened :=
    set_conn_state
      (OpenDataObject (pool short_world) 7%N "/zone/obj" "demoResc" "r" ∅).1 short_world in
  let h := {| FileDescriptor := 3; Path := "/zone/obj"; OpenMode := "r" |} in
  (exists w1,
     trial_copy (J := status_file) 4 5 true false 2 whole_task opened (fresh 7%N) 7%N h
       = Some (w1, advance 3 (fresh 7%N), None)
     /\ errChan w1 = errChan opened
     /\ 0 < taskRemain (advance 3 (fresh 7%N)))
  /\ (exists w1 loc1,
     Transfer.trial (J := status_file) 4 "/zone/obj" "demoResc" 5 ∅ true false 2
       whole_task short_world (fresh 7%N) 7%N = Some (w1, loc1, None)
     /\ Transfer.downloadTask_retry (J := status_file) range_order 4 "/zone/obj" "demoResc"
          5 ∅ true false 3 whole_task short_world (fresh 7%N)
        = Some (task_exit (taskConn loc1) w1)
     /\ errChan (task_exit (taskConn loc1) w1) = errChan short_world).
Proof.
  intros opened h.
  pose proof (TransferFacts.download_EOF_completes_task (J := status_file) range_order 4
                "/zone/obj" "demoResc" 5 ∅ true false) as Hthm.
  split.
  - destruct (proj1 (Hthm 1%nat whole_task) opened (fresh 7%N) 7%N h
                (ReadDataObjectWithTrackerCallBack (pool opened) 7%N h 4).1 object3 [])
      as (w1 & Hcopy & Herr).
    + vm_compute. reflexivity.
    + vm_compute. reflexivity.
    + intros _. vm_compute. reflexivity.
    + exists w1. split; [exact Hcopy|]. split; [exact Herr|]. vm_compute. reflexivity.
  - assert (exists p1 wa loca wb locb,
       OpenDataObject (pool short_world) 7%N "/zone/obj" "demoResc" "r" ∅ = (p1, inr h)
       /\ trial_seek (set_conn_state p1 short_world) (fresh 7%N) 7%N h = (wa, loca, None)
       /\ trial_copy (J := status_file) 4 5 true false 2 whole_task wa loca 7%N h
          = Some (wb, locb, None)
       /\ errChan wb = errChan short_world)
      as (p1 & wa & loca & wb & locb & Hopen & Hseek & Hcopy & Herr).
    { eexists _, _, _, _, _. split; [vm_compute; reflexivity|].
      split; [vm_compute; reflexivity|]. split; vm_compute; reflexivity. }
    destruct (proj1 (proj2 (Hthm 2%nat whole_task)) short_world (fresh 7%N) 7%N p1 h
                wa loca wb locb Hopen Hseek Hcopy) as (w1 & Htrial & Herr1).
    destruct (proj2 (proj2 (Hthm 2%nat whole_task)) short_world (fresh 7%N) w1 locb Htrial)
      as (Hretry & Herr2).
    exists w1, locb. split; [exact Htrial|]. split; [exact Hretry|].
    rewrite Herr2, Herr1. exact Herr.
Defined.




End Witnesses.

(** * Further properties of the session *)

Module SessionLaws.
Import Session SessionSpec.
Section SessionLaws.

Context {P : Type} `{PoolOps : ConnectionPool P}.
Variable range_order : gmap N Z -> list (N * Z).
Variable range_conns : gset N -> list N.
Hypothesis range_order_perm : forall m, range_order m ≡ₚ map_to_list m.
Hypothesis range_conns_perm : forall s, range_conns s ≡ₚ elements s.

Abbreviation IRODSSession := (IRODSSession P).
Abbreviation AcquireConnection := (AcquireConnection range_order).
Abbreviation AcquireConnectionsMulti := (AcquireConnectionsMulti range_order range_conns).

Lemma put_to_share_held (m : gmap N Z) conn :
  positive_shares m -> bounded_shares m -> put_to_share conn m = held conn m.
Proof.
  intros Hpos Hbnd. unfold put_to_share, held.
  destruct (m !! conn) as [k|] eqn:Hk; [|done].
  specialize (Hpos _ _ Hk). specialize (Hbnd _ _ Hk).
  by rewrite int_add_small by (unfold in_range, min_int, max_int in *; lia).
Qed.

Lemma positive_shares_insert (m : gmap N Z) c n :
  positive_shares m -> 1 <= n <= max_int -> positive_shares (<[c := n]> m).
Proof.
  intros Hpos Hn c' n'. rewrite lookup_insert. case_decide.
  - by intros [= <-].
  - apply Hpos.
Qed.

Lemma positive_shares_delete (m : gmap N Z) c :
  positive_shares m -> positive_shares (delete c m).
Proof.
  intros Hpos c' n'. rewrite lookup_delete. case_decide; [done|]. apply Hpos.
Qed.

Lemma positive_shares_held (m : gmap N Z) c :
  positive_shares m -> bounded_shares m -> positive_shares (held c m).
Proof.
  intros Hpos Hbnd. apply positive_shares_insert; [done|].
  destruct (m !! c) as [k|] eqn:Hk.
  - specialize (Hpos _ _ Hk). specialize (Hbnd _ _ Hk). lia.
  - unfold max_int. lia.
Qed.

Lemma positive_shares_released (m : gmap N Z) c :
  positive_shares m -> positive_shares (released c m).
Proof.
  intros Hpos. unfold released. destruct (m !! c) as [k|] eqn:Hk; [|done].
  destruct (k <=? 1) eqn:Hle.
  - by apply positive_shares_delete.
  - apply positive_shares_insert; [done|]. specialize (Hpos _ _ Hk). lia.
Qed.

Lemma released_held (m : gmap N Z) c :
  positive_shares m -> released c (held c m) = m.
Proof.
  intros Hpos. unfold released, held. rewrite lookup_insert_eq.
  destruct (m !! c) as [k|] eqn:Hk.
  - specialize (Hpos _ _ Hk).
    assert ((k + 1 <=? 1) = false) as -> by lia.
    rewrite insert_insert_eq. replace (k + 1 - 1) with k by lia.
    by apply insert_id.
  - simpl. rewrite delete_insert_eq. by apply delete_id.
Qed.

Lemma ReturnConnection_shared (sess : IRODSSession) conn :
  positive_shares (sharedConnections sess) ->
  sharedConnections (ReturnConnection sess conn).1
  = released conn (sharedConnections sess).
Proof.
  intros Hpos. unfold ReturnConnection, released.
  destruct (sharedConnections sess !! conn) as [n|] eqn:Hn; [|done].
  specialize (Hpos _ _ Hn).
  rewrite int_sub_small by (unfold in_range, min_int, max_int in *; lia).
  replace (n - 1 <=? 0) with (n <=? 1) by lia.
  destruct (n <=? 1); [|done]. simpl.
  destruct (startNewTransaction sess && poormansRollbackFail sess); [done|].
  by destruct (Return (connectionPool sess) conn) as [pool1 [err|]].
Qed.

Lemma DiscardConnection_shared (sess : IRODSSession) conn :
  positive_shares (sharedConnections sess) ->
  sharedConnections (DiscardConnection sess conn).1
  = released conn (sharedConnections sess).
Proof.
  intros Hpos. unfold DiscardConnection, released.
  destruct (sharedConnections sess !! conn) as [n|] eqn:Hn; [|done].
  specialize (Hpos _ _ Hn).
  rewrite int_sub_small by (unfold in_range, min_int, max_int in *; lia).
  replace (n - 1 <=? 0) with (n <=? 1) by lia.
  by destruct (n <=? 1).
Qed.

(** X1. [ReturnConnection] and [DiscardConnection] do the same to the
    share map, on a map whose counts are positive: the count of the
    connection goes down by one and its key is removed when the count was
    one; all counts stay positive, and the other connections keep theirs. *)
Theorem release_accounting (sess : IRODSSession) (conn : N) :
  positive_shares (sharedConnections sess) ->
  sharedConnections (ReturnConnection sess conn).1 = released conn (sharedConnections sess)
  /\ sharedConnections (DiscardConnection sess conn).1
     = released conn (sharedConnections sess)
  /\ positive_shares (released conn (sharedConnections sess))
  /\ (forall c, c <> conn ->
        released conn (sharedConnections sess) !! c = sharedConnections sess !! c).
Proof.
  intros Hpos. split; [by apply ReturnConnection_shared|].
  split; [by apply DiscardConnection_shared|].
  split; [by apply positive_shares_released|].
  intros c Hc. unfold released.
  destruct (sharedConnections sess !! conn) as [n|]; [|done].
  destruct (n <=? 1); [by rewrite lookup_delete_ne | by rewrite lookup_insert_ne].
Qed.

(** What [AcquireConnection] does to the share map when it succeeds. *)
Lemma AcquireConnection_shared (sess sess1 : IRODSSession) c :
  positive_shares (sharedConnections sess) -> bounded_shares (sharedConnections sess) ->
  AcquireConnection sess = (sess1, inr c) ->
  sharedConnections sess1 = held c (sharedConnections sess).
Proof.
  intros Hpos Hbnd. unfold Session.AcquireConnection.
  destruct (try_pool sess) as [s1 [conn|]] eqn:Htry.
  - apply SessionFacts.try_pool_shared in Htry. intros [= <- <-]. simpl.
    rewrite Htry. by apply put_to_share_held.
  - apply SessionFacts.try_pool_shared in Htry.
    assert (forall c n, (c, n) ∈ range_order (sharedConnections s1) -> 1 <= n) as Hl.
    { intros c' n' Hin. rewrite (range_order_perm _) in Hin.
      apply elem_of_map_to_list in Hin. rewrite Htry in Hin.
      by destruct (Hpos _ _ Hin). }
    pose proof (SessionFacts.min_share_scan_spec _ 0 nil_conn Hl (or_introl eq_refl))
      as Hscan.
    destruct (min_share_scan _ 0 nil_conn) as [s mc].
    destruct (mc =? nil_conn)%N eqn:Hnil; [done|]. intros [= <- <-]. simpl.
    destruct Hscan as [(_ & -> & _) | (Hin & _)]; [done|].
    rewrite (range_order_perm _) in Hin. apply elem_of_map_to_list in Hin.
    rewrite Htry in *. unfold held. rewrite Hin.
    specialize (Hpos _ _ Hin). specialize (Hbnd _ _ Hin).
    by rewrite int_add_small by (unfold in_range, min_int, max_int in *; lia).
Qed.

(** X2. Whichever way [AcquireConnection] finds the connection it hands
    out, in the pool or among the shared ones, the connection is in the
    share map afterwards with a positive count, all counts stay positive,
    and returning the connection puts the share map back as it was. *)
Theorem acquire_return_round_trip (sess sess1 : IRODSSession) (c : N) :
  positive_shares (sharedConnections sess) -> bounded_shares (sharedConnections sess) ->
  AcquireConnection sess = (sess1, inr c) ->
  (exists n, sharedConnections sess1 !! c = Some n /\ 1 <= n)
  /\ positive_shares (sharedConnections sess1)
  /\ sharedConnections (ReturnConnection sess1 c).1 = sharedConnections sess
  /\ sharedConnections (DiscardConnection sess1 c).1 = sharedConnections sess.
Proof.
  intros Hpos Hbnd Hacq.
  pose proof (AcquireConnection_shared _ _ _ Hpos Hbnd Hacq) as Hheld.
  pose proof (positive_shares_held _ c Hpos Hbnd) as Hpos1. rewrite <- Hheld in Hpos1.
  split; [|split; [exact Hpos1|]].
  - rewrite Hheld. unfold held. rewrite lookup_insert_eq. eexists. split; [done|].
    destruct (sharedConnections sess !! c) as [k|] eqn:Hk; [|lia].
    specialize (Hpos _ _ Hk). lia.
  - rewrite ReturnConnection_shared, DiscardConnection_shared by done.
    rewrite Hheld. by rewrite released_held.
Qed.

(** X3. When [AcquireConnection] fails it leaves the share map as it is,
    and, the keys of the map being real connections, the map is empty:
    the call fails only when nothing is shared. *)
Theorem AcquireConnection_failure (sess sess1 : IRODSSession) (err : error) :
  share_inv (sharedConnections sess) ->
  AcquireConnection sess = (sess1, inl err) ->
  sharedConnections sess = ∅
  /\ sharedConnections sess1 = ∅
  /\ err = Errorf "failed to get a shared connection"
  /\ exists s0, try_pool sess = (s0, None)
                /\ metrics sess1
                   = IncreaseCounterForConnectionPoolFailures (metrics s0) 1.
Proof.
  intros Hinv. unfold Session.AcquireConnection.
  destruct (try_pool sess) as [s1 [conn|]] eqn:Htry; [done|].
  pose proof (SessionFacts.try_pool_shared _ _ _ Htry) as Hsame.
  assert (forall c n, (c, n) ∈ range_order (sharedConnections s1) -> 1 <= n) as Hl.
  { intros c' n' Hin. rewrite (range_order_perm _) in Hin.
    apply elem_of_map_to_list in Hin. rewrite Hsame in Hin.
    by destruct (Hinv _ _ Hin). }
  pose proof (SessionFacts.min_share_scan_spec _ 0 nil_conn Hl (or_introl eq_refl))
    as Hscan.
  destruct (min_share_scan _ 0 nil_conn) as [s mc].
  destruct (mc =? nil_conn)%N eqn:Hnil; [|done]. intros [= <- <-]. simpl.
  apply N.eqb_eq in Hnil. subst mc.
  assert (range_order (sharedConnections s1) = []) as Hempty.
  { destruct Hscan as [(_ & _ & Hnil & _) | (Hin & _)]; [by apply Hnil|].
    rewrite (range_order_perm _) in Hin. apply elem_of_map_to_list in Hin.
    rewrite Hsame in Hin. by destruct (Hinv _ _ Hin). }
  assert (sharedConnections s1 = ∅) as Hm.
  { apply map_to_list_empty_iff. apply Permutation_nil_r.
    by rewrite <- (range_order_perm _), Hempty. }
  split; [by rewrite <- Hsame|]. split; [done|]. split; [done|]. by exists s1.
Qed.

(** *** [AcquireConnectionsMulti] *)

Lemma getConnectionFromPool_shared_eq (sess s1 : IRODSSession) r :
  getConnectionFromPool sess = (s1, r) -> sharedConnections s1 = sharedConnections sess.
Proof.
  intros Hget. pose proof (SessionFacts.getConnectionFromPool_shared sess) as Hs.
  by rewrite Hget in Hs.
Qed.

Lemma put_to_share_dom (m : gmap N Z) conn : dom (put_to_share conn m) = {[conn]} ∪ dom m.
Proof.
  unfold put_to_share. destruct (m !! conn); by rewrite dom_insert_L.
Qed.

(** The draws from the pool: at most [k] connections are added, each one
    is a key of the share map, and no key is lost. *)
Lemma acquire_from_pool_spec (k : nat) (sess s1 : IRODSSession) (cs cs1 : gset N) :
  acquire_from_pool k sess cs = (s1, cs1) ->
  (size cs1 <= size cs + k)%nat
  /\ cs ⊆ cs1
  /\ dom (sharedConnections sess) ⊆ dom (sharedConnections s1)
  /\ (forall c, c ∈ cs1 -> c ∈ cs \/ c ∈ dom (sharedConnections s1)).
Proof.
  revert sess cs. induction k as [| k IH]; intros sess cs; simpl.
  - intros [= <- <-]. split; [lia|]. split; [done|]. split; [done|]. auto.
  - destruct (0 <? AvailableConnections (connectionPool sess)).
    2:{ intros [= <- <-]. split; [lia|]. split; [done|]. split; [done|]. auto. }
    destruct (getConnectionFromPool sess) as [sa [err | conn]] eqn:Hget.
    { apply getConnectionFromPool_shared_eq in Hget. intros [= <- <-].
      split; [lia|]. split; [done|]. split; [by rewrite Hget|]. auto. }
    apply getConnectionFromPool_shared_eq in Hget.
    intros Hrec. apply IH in Hrec as (Hsize & Hsub & Hdom & Hin). simpl in Hdom.
    rewrite put_to_share_dom, Hget in Hdom.
    split.
    { pose proof (size_union_alt {[conn]} cs) as Hu.
      pose proof (subseteq_size (cs ∖ {[conn]}) cs ltac:(set_solver)) as Hd.
      rewrite size_singleton in Hu. lia. }
    split; [set_solver|]. split; [set_solver|].
    intros c Hc. destruct (Hin c Hc) as [Hc' | Hc']; [|by right].
    apply elem_of_union in Hc' as [->%elem_of_singleton | Hc']; [|by left].
    right. apply Hdom. set_solver.
Qed.

(** One pass over the share map, entered with something still needed. *)
Lemma share_round_spec (l : list (N * Z)) (m m1 : gmap N Z) (cs cs1 : gset N) need need1 :
  1 <= need <= max_int ->
  share_round l m cs need = (m1, cs1, need1) ->
  0 <= need1 <= need
  /\ (l <> [] -> need1 < need)
  /\ Z.of_nat (size cs1) + need1 <= Z.of_nat (size cs) + need
  /\ (cs <> ∅ \/ l <> [] -> cs1 <> ∅)
  /\ dom m ⊆ dom m1
  /\ (forall c, c ∈ cs1 -> c ∈ cs \/ c ∈ dom m1).
Proof.
  revert m cs need. induction l as [| [sc cnt] rest IH]; intros m cs need Hneed; simpl.
  - intros [= <- <- <-]. split; [lia|]. split; [done|]. split; [lia|].
    split; [by intros [?|?]|]. split; [done|]. auto.
  - rewrite int_sub_small by (unfold in_range, min_int, max_int in *; lia).
    assert (Z.of_nat (size ({[sc]} ∪ cs)) <= Z.of_nat (size cs) + 1) as Hsz.
    { pose proof (size_union_alt {[sc]} cs) as Hu.
      pose proof (subseteq_size (cs ∖ {[sc]}) cs ltac:(set_solver)) as Hd.
      rewrite size_singleton in Hu. lia. }
    destruct (need - 1 <=? 0) eqn:Hdone.
    + intros [= <- <- <-]. split; [lia|]. split; [lia|]. split; [lia|].
      split; [set_solver|]. split; [rewrite dom_insert_L; set_solver|].
      intros c Hc. rewrite dom_insert_L. set_solver.
    + intros Hrec. apply IH in Hrec as (Hn & _ & Hs & Hne & Hdom & Hin); [|lia].
      rewrite dom_insert_L in Hdom.
      split; [lia|]. split; [lia|]. split; [lia|].
      split; [intros _; apply Hne; left; set_solver|]. split; [set_solver|].
      intros c Hc. destruct (Hin c Hc) as [Hc' | Hc']; [|by right].
      apply elem_of_union in Hc' as [->%elem_of_singleton | Hc']; [|by left].
      right. apply Hdom. set_solver.
Qed.

Lemma share_loop_spec (fuel : nat) (m m1 : gmap N Z) (cs cs1 : gset N) need :
  need <= max_int ->
  share_loop range_order fuel m cs need = Some (m1, cs1) ->
  Z.of_nat (size cs1) <= Z.of_nat (size cs) + Z.max 0 need
  /\ (cs <> ∅ \/ 1 <= need -> cs1 <> ∅)
  /\ dom m ⊆ dom m1
  /\ (forall c, c ∈ cs1 -> c ∈ cs \/ c ∈ dom m1).
Proof.
  revert m cs need. induction fuel as [| fuel IH]; intros m cs need Hneed; simpl.
  - destruct (0 <? need) eqn:Hpos; [done|]. intros [= <- <-].
    split; [lia|]. split; [intros [?|?]; [done | lia]|]. split; [done|]. auto.
  - destruct (0 <? need) eqn:Hpos.
    2:{ intros [= <- <-]. split; [lia|].
        split; [intros [?|?]; [done | lia]|]. split; [done|]. auto. }
    destruct (share_round (range_order m) m cs need) as [[ma csa] needa] eqn:Hround.
    assert (range_order m = [] -> needa = need) as Hidle.
    { intros Hnil. rewrite Hnil in Hround. simpl in Hround. congruence. }
    apply share_round_spec in Hround as (Hn & Hlt & Hs & Hne & Hdom & Hin); [|lia].
    intros Hrec. apply IH in Hrec as (Hs' & Hne' & Hdom' & Hin'); [|lia].
    split; [lia|]. split.
    { intros _. apply Hne'.
      destruct (decide (range_order m = [])) as [Hnil | Hnil].
      - right. rewrite (Hidle Hnil). lia.
      - left. apply Hne. by right. }
    split; [set_solver|].
    intros c Hc. destruct (Hin' c Hc) as [Hc' | Hc']; [|by right].
    destruct (Hin c Hc') as [Hc'' | Hc'']; [by left | right; set_solver].
Qed.

(** X4. When [AcquireConnectionsMulti(number)] returns, for a number that
    is not negative, the error is nil and the connections are pairwise
    distinct, at most [number], each of them a key of the share map; for a
    positive number there is at least one. *)
Theorem AcquireConnectionsMulti_result (fuel : nat) (sess s1 : IRODSSession) (number : Z) r :
  0 <= number <= max_int ->
  AcquireConnectionsMulti fuel sess number = Some (s1, r) ->
  exists l,
    r = inr l
    /\ NoDup l
    /\ Z.of_nat (length l) <= number
    /\ (1 <= number -> l <> [])
    /\ (forall c, c ∈ l -> is_Some (sharedConnections s1 !! c)).
Proof.
  intros Hnum. unfold Session.AcquireConnectionsMulti.
  destruct (acquire_from_pool (Z.to_nat number) sess ∅) as [sa cs] eqn:Hpool.
  apply acquire_from_pool_spec in Hpool as (Hsize & _ & _ & Hin).
  rewrite size_empty in Hsize.
  rewrite int_sub_small by (unfold in_range, min_int, max_int in *; lia).
  destruct (share_loop range_order fuel (sharedConnections sa) cs _) as [[m cs1]|] eqn:Hloop;
    [|done].
  apply share_loop_spec in Hloop as (Hs & Hne & Hdom & Hin'); [|lia].
  intros [= <- <-]. exists (range_conns cs1). split; [done|].
  split; [rewrite (range_conns_perm cs1); apply NoDup_elements|].
  split.
  { rewrite (range_conns_perm cs1). change (length (elements cs1)) with (size cs1). lia. }
  split.
  { intros Hone Hnil. apply Hne.
    - destruct (decide (cs = ∅)) as [-> | Hcs]; [|by left].
      right. rewrite size_empty. lia.
    - apply leibniz_equiv, elements_empty_iff. apply Permutation_nil_r.
      by rewrite <- (range_conns_perm cs1), Hnil. }
  intros c Hc. rewrite (range_conns_perm cs1) in Hc. apply elem_of_elements in Hc.
  simpl. apply elem_of_dom.
  destruct (Hin' c Hc) as [Hc' | Hc']; [|done].
  destruct (Hin c Hc') as [Hc'' | Hc'']; [set_solver|]. by apply Hdom.
Qed.

Lemma share_loop_returns (fuel : nat) (m : gmap N Z) (cs : gset N) need :
  m <> ∅ -> need <= max_int -> (Z.to_nat need <= fuel)%nat ->
  is_Some (share_loop range_order fuel m cs need).
Proof.
  revert m cs need. induction fuel as [| fuel IH]; intros m cs need Hm Hneed Hfuel; simpl.
  - assert ((0 <? need) = false) as -> by lia. done.
  - destruct (0 <? need) eqn:Hpos; [|done].
    destruct (share_round (range_order m) m cs need) as [[ma csa] needa] eqn:Hround.
    apply share_round_spec in Hround as (Hn & Hlt & _ & _ & Hdom & _); [|lia].
    assert (range_order m <> []) as Hne.
    { intros Hnil. apply Hm. apply map_to_list_empty_iff. apply Permutation_nil_r.
      by rewrite <- (range_order_perm _), Hnil. }
    specialize (Hlt Hne).
    apply IH; [|lia..].
    intros ->. rewrite dom_empty_L in Hdom.
    apply Hm. apply dom_empty_iff_L. set_solver.
Qed.

(** X5. [AcquireConnectionsMulti(number)] returns, with [number] turns of
    its sharing loop at most, as soon as the share map is not empty when
    it is called. *)
Theorem AcquireConnectionsMulti_returns (sess : IRODSSession) (number : Z) :
  0 <= number <= max_int ->
  sharedConnections sess <> ∅ ->
  is_Some (AcquireConnectionsMulti (Z.to_nat number) sess number).
Proof.
  intros Hnum Hne. unfold Session.AcquireConnectionsMulti.
  destruct (acquire_from_pool (Z.to_nat number) sess ∅) as [sa cs] eqn:Hpool.
  apply acquire_from_pool_spec in Hpool as (Hsize & _ & Hdom & _).
  rewrite size_empty in Hsize.
  rewrite int_sub_small by (unfold in_range, min_int, max_int in *; lia).
  destruct (share_loop_returns (Z.to_nat number) (sharedConnections sa) cs
              (number - Z.of_nat (size cs))) as [[m cs1] ->]; [|lia|lia|done].
  intros Hempty. rewrite Hempty, dom_empty_L in Hdom.
  apply Hne. apply dom_empty_iff_L. set_solver.
Qed.

(** *** The transaction flags *)

Lemma flags_kept_refl (s : IRODSSession) : flags_kept s s.
Proof. by repeat split. Qed.

Lemma flags_kept_trans (s1 s2 s3 : IRODSSession) :
  flags_kept s1 s2 -> flags_kept s2 s3 -> flags_kept s1 s3.
Proof.
  intros (Ha & Hc & Ht & Hr & Hn) (Ha' & Hc' & Ht' & Hr' & Hn').
  split; [congruence|]. split; [congruence|]. split; [congruence|].
  split; [auto|]. intros Hoff. rewrite Hn' by congruence. auto.
Qed.

Lemma flags_kept_getConnectionFromPool (sess : IRODSSession) :
  flags_kept sess (getConnectionFromPool sess).1.
Proof.
  unfold getConnectionFromPool.
  destruct (Get (connectionPool sess)) as [pool1 [err | [conn isNew]]]; simpl;
    [by repeat split|].
  destruct (startNewTransaction sess) eqn:Hsnt; simpl; [|by repeat split].
  destruct isNew; simpl; [by repeat split|].
  destruct (poormansRollbackFail sess) eqn:Hprf.
  - destruct (GetNew _) as [pool3 [err | conn']]; simpl; by repeat split.
  - destruct (PoorMansRollback pool1 conn) as [pool2 [err|]]; simpl.
    + destruct (GetNew _) as [pool4 [err' | conn']]; unfold flags_kept; simpl;
        rewrite Hsnt; by repeat split.
    + by repeat split.
Qed.

Lemma flags_kept_try_pool (sess : IRODSSession) : flags_kept sess (try_pool sess).1.
Proof.
  unfold try_pool. destruct (0 <? _); [|apply flags_kept_refl].
  pose proof (flags_kept_getConnectionFromPool sess) as Hk.
  by destruct (getConnectionFromPool sess) as [s1 [err | conn]].
Qed.

Lemma flags_kept_AcquireConnection (sess : IRODSSession) :
  flags_kept sess (AcquireConnection sess).1.
Proof.
  unfold Session.AcquireConnection.
  pose proof (flags_kept_try_pool sess) as Hk.
  destruct (try_pool sess) as [s1 [conn|]]; simpl in *; [exact Hk|].
  destruct (min_share_scan _ 0 nil_conn) as [s mc].
  by destruct (mc =? nil_conn)%N.
Qed.

Lemma flags_kept_acquire_from_pool (k : nat) (sess : IRODSSession) cs :
  flags_kept sess (acquire_from_pool k sess cs).1.
Proof.
  revert sess cs. induction k as [| k IH]; intros sess cs; simpl;
    [apply flags_kept_refl|].
  destruct (0 <? _); [|apply flags_kept_refl].
  pose proof (flags_kept_getConnectionFromPool sess) as Hk.
  destruct (getConnectionFromPool sess) as [s1 [err | conn]]; simpl in *; [exact Hk|].
  eapply flags_kept_trans; [|apply IH]. exact Hk.
Qed.

Lemma flags_kept_ReturnConnection (sess : IRODSSession) conn :
  flags_kept sess (ReturnConnection sess conn).1.
Proof.
  unfold ReturnConnection.
  destruct (sharedConnections sess !! conn); [|apply flags_kept_refl].
  destruct (_ <=? 0); [|by repeat split]. simpl.
  destruct (startNewTransaction sess && poormansRollbackFail sess); [by repeat split|].
  destruct (Return (connectionPool sess) conn) as [pool1 [err|]]; by repeat split.
Qed.

Lemma flags_kept_DiscardConnection (sess : IRODSSession) conn :
  flags_kept sess (DiscardConnection sess conn).1.
Proof.
  unfold DiscardConnection.
  destruct (sharedConnections sess !! conn); [|apply flags_kept_refl].
  destruct (_ <=? 0); by repeat split.
Qed.

(** X6. No operation of a session changes its account, its configuration
    or [startNewTransaction]; [poormansRollbackFail] is never reset once it
    is set, and a session that does not start new transactions never
    changes it. *)
Theorem session_flags_kept (sess : IRODSSession) (conn : N) (number : Z) (fuel : nat) :
  flags_kept sess (AcquireConnection sess).1
  /\ (forall s1 r, AcquireConnectionsMulti fuel sess number = Some (s1, r) ->
        flags_kept sess s1)
  /\ flags_kept sess (ReturnConnection sess conn).1
  /\ flags_kept sess (DiscardConnection sess conn).1
  /\ flags_kept sess (ReleaseSession sess).
Proof.
  split; [apply flags_kept_AcquireConnection|].
  split; [|split; [apply flags_kept_ReturnConnection|]].
  - intros s1 r. unfold Session.AcquireConnectionsMulti.
    pose proof (flags_kept_acquire_from_pool (Z.to_nat number) sess ∅) as Hk.
    destruct (acquire_from_pool _ sess ∅) as [sa cs].
    destruct (share_loop _ _ _ _ _) as [[m cs1]|]; [|done].
    intros [= <- _]. exact Hk.
  - split; [apply flags_kept_DiscardConnection | by repeat split].
Qed.

(** X7. A session that [NewIRODSSession] creates has the account and the
    configuration it was given, shares nothing and has counted no failure;
    it starts new transactions exactly when the configuration asks for them
    and the client user is not "anonymous", and when it does not,
    [poormansRollbackFail] tells whether the client user is "anonymous". *)
Theorem NewIRODSSession_result (acct : IRODSAccount) (cfg : IRODSSessionConfig)
    (sess : IRODSSession) :
  NewIRODSSession acct cfg = inr sess ->
  account sess = acct
  /\ config sess = cfg
  /\ sharedConnections sess = ∅
  /\ connectionPoolFailures (metrics sess) = 0
  /\ startNewTransaction sess
     = StartNewTransaction cfg && negb (String.eqb (ClientUser acct) "anonymous")
  /\ (startNewTransaction sess = false ->
      poormansRollbackFail sess = String.eqb (ClientUser acct) "anonymous").
Proof.
  unfold NewIRODSSession.
  destruct (NewConnectionPool (poolConfig_of acct cfg)) as [err | pool]; [done|].
  simpl. destruct (String.eqb (ClientUser acct) "anonymous") eqn:Hanon; simpl.
  - intros [= <-]. simpl. by rewrite andb_false_r.
  - destruct (StartNewTransaction cfg) eqn:Hsnt; simpl.
    + destruct (Get pool) as [pool1 [err | [conn isNew]]]; [done|].
      destruct (PoorMansRollback pool1 conn) as [pool2 [err|]];
        intros [= <-]; simpl; done.
    + intros [= <-]. simpl. done.
Qed.

(** X8. After [Release] the session shares nothing, so that returning or
    discarding a connection handed out before is a no-op: the released
    pool is not touched again. *)
Theorem release_forgets_connections (sess : IRODSSession) (conn : N) :
  sharedConnections (ReleaseSession sess) = ∅
  /\ connectionPool (ReleaseSession sess) = Release (connectionPool sess)
  /\ ReturnConnection (ReleaseSession sess) conn = (ReleaseSession sess, None)
  /\ DiscardConnection (ReleaseSession sess) conn = (ReleaseSession sess, None).
Proof.
  unfold ReturnConnection, DiscardConnection. simpl. by rewrite lookup_empty.
Qed.

(** X20. With transactions on, [getConnectionFromPool] never hands out a
    connection that was used before as it comes from the pool: either the
    rollback on it succeeds, in a session in which no rollback has failed
    before, and it hands out that connection; or it discards the
    connection, at once or after the rollback has failed, hands out the
    connection that [GetNew] gives instead, and the session remembers that
    the rollback fails. *)
Theorem getConnectionFromPool_reused (sess s1 : IRODSSession) (conn c : N) (p1 : P) :
  startNewTransaction sess = true ->
  Get (connectionPool sess) = (p1, inr (c, false)) ->
  getConnectionFromPool sess = (s1, inr conn) ->
  (poormansRollbackFail sess = false /\ conn = c
   /\ PoorMansRollback p1 c = (connectionPool s1, None))
  \/ (poormansRollbackFail s1 = true
      /\ exists p, GetNew (Discard p c) = (connectionPool s1, inr conn)
                   /\ (p = p1 \/ exists e, PoorMansRollback p1 c = (p, Some e))).
Proof.
  intros Hsnt Hget. unfold getConnectionFromPool. rewrite Hget. simpl. rewrite Hsnt. simpl.
  destruct (poormansRollbackFail sess) eqn:Hprf.
  - destruct (GetNew (Discard p1 c)) as [p3 [err | c']] eqn:Hnew; [done|].
    intros [= <- <-]. right. split; [done|]. exists p1. split; [done | by left].
  - destruct (PoorMansRollback p1 c) as [p2 [err|]] eqn:Hroll.
    + destruct (GetNew (Discard p2 c)) as [p4 [err' | c']] eqn:Hnew; [done|].
      intros [= <- <-]. right. split; [done|]. exists p2. split; [done|].
      right. by exists err.
    + intros [= <- <-]. by left.
Qed.

End SessionLaws.
End SessionLaws.

(** * Further properties of the transfer engine *)

Module TransferLaws.
Import Session Transfer Buffers SessionSpec TransferSpec.
Section TransferLaws.

Context {P : Type} `{PoolOps : ConnectionPool P} `{DataOps : DataObjectOps P}.
Context {J : Type} `{StatusOps : TransferStatusOps J}.

Variable range_order : gmap N Z -> list (N * Z).
Variable range_conns : gset N -> list N.
Hypothesis range_order_perm : forall m, range_order m ≡ₚ map_to_list m.
Variable ReadWriteBufferSize : Z.
Variable GetNumTasksForParallelTransfer : Z -> Z.
Variable AcquireUnmanagedConnection : IRODSSession P -> IRODSSession P * (error + N).

Abbreviation World := (World P J).

Lemma fold_keeps {A B : Type} (g : World -> B) (f : World -> A -> World) (l : list A)
    (w : World) :
  (forall w x, g (f w x) = g w) -> g (fold_left f l w) = g w.
Proof.
  intros Hf. revert w. induction l as [| x l IH]; intros w; simpl; [done|].
  by rewrite IH, Hf.
Qed.

(** X9. [CloseDataObjectReplica] sends its request only on a connection
    that is there, connected and capable of parallel upload, and otherwise
    returns an error and leaves the server as it is; it returns nil exactly
    when the request succeeds; an error of the request with one of the
    three "not found" codes becomes a file-not-found error for the path of
    the handle, and any other error is passed on with its code. *)
Theorem CloseDataObjectReplica_result (p : P) (conn : N) (handle : IRODSFileHandle) :
  let usable :=
    negb ((conn =? nil_conn)%N || negb (IsConnected p conn))
    && SupportParallelUpload p conn in
  let request := RequestAndCheck p conn (CloseDataObjectReplicaRequest (FileDescriptor handle)) in
  let not_found code :=
    (code =? CAT_NO_ROWS_FOUND) || (code =? CAT_UNKNOWN_FILE)
    || (code =? CAT_UNKNOWN_COLLECTION) in
  (usable = false ->
     exists msg, CloseDataObjectReplica p conn handle = (p, Some (Errorf msg)))
  /\ (usable = true ->
     (CloseDataObjectReplica p conn handle).1 = request.1
     /\ ((CloseDataObjectReplica p conn handle).2 = None <-> request.2 = None)
     /\ forall err, request.2 = Some err ->
          exists msg cause,
            (CloseDataObjectReplica p conn handle).2 = Some (Wrapf msg cause)
            /\ cause = (if not_found (GetIRODSErrorCode err)
                        then FileNotFoundError (Path handle) else err)).
Proof.
  intros usable request not_found. subst usable request not_found.
  unfold CloseDataObjectReplica. simpl.
  destruct ((conn =? nil_conn)%N || negb (IsConnected p conn)); simpl.
  { split; [intros _; by eexists | done]. }
  destruct (SupportParallelUpload p conn); simpl.
  2:{ split; [intros _; by eexists | done]. }
  split; [done|]. intros _.
  destruct (RequestAndCheck p conn _) as [p1 [err|]]; simpl.
  - split; [by repeat case_match|].
    split; [split; [by repeat case_match | discriminate]|].
    intros ? [= <-].
    destruct (GetIRODSErrorCode err =? CAT_NO_ROWS_FOUND);
      destruct (GetIRODSErrorCode err =? CAT_UNKNOWN_FILE);
      destruct (GetIRODSErrorCode err =? CAT_UNKNOWN_COLLECTION); simpl;
      eexists _, _; split; reflexivity.
  - split; [reflexivity|]. split; [done|]. discriminate.
Qed.

(** *** The connection of a serial transfer *)

Lemma shared_call_back cb a b (w : World) : shared (call_back cb a b w) = shared w.
Proof. by destruct cb. Qed.

Lemma shared_fold {A : Type} (f : World -> A -> World) (l : list A) (w : World) :
  (forall w x, shared (f w x) = shared w) -> shared (fold_left f l w) = shared w.
Proof.
  intros Hf. revert w. induction l as [| x l IH]; intros w; simpl; [done|].
  by rewrite IH, Hf.
Qed.

Lemma upload_copy_shared callback fuel (w w' : World) conn handle f fl total r :
  upload_copy (J := J) ReadWriteBufferSize callback fuel w conn handle f fl total
    = Some (w', r) ->
  shared w' = shared w.
Proof.
  revert w w' f total.
  induction fuel as [| fuel IH]; intros w w' f total; simpl; [done|].
  destruct (File_Read (disk w) f ReadWriteBufferSize) as [f1 [data readErr]].
  destruct (0 <? Z.of_nat (length data)).
  - destruct (WriteDataObjectWithTrackerCallBack (pool w) conn handle data)
      as [p1 [reports [e|]]].
    + intros [= <- _].
      by rewrite shared_fold by (intros; apply shared_call_back).
    + assert (shared (call_back callback (int_add total (Z.of_nat (length data))) fl
                        (fold_left (blockWriteCallback callback fl total) reports
                           (set_conn_state p1 w))) = shared w) as Hs.
      { rewrite shared_call_back.
        by rewrite shared_fold by (intros; apply shared_call_back). }
      destruct readErr as [e|].
      * destruct (is_EOF e); intros [= <- _]; exact Hs.
      * intros Hrec%IH. by rewrite Hrec.
  - destruct readErr as [e|].
    + destruct (is_EOF e); by intros [= <- _].
    + apply IH.
Qed.

Lemma download_copy_shared callback fuel (w w' : World) conn handle
    buffer len total b r :
  download_copy (J := J) ReadWriteBufferSize callback fuel w conn handle buffer len total
    = Some (w', b, r) ->
  shared w' = shared w.
Proof.
  revert w w' buffer total.
  induction fuel as [| fuel IH]; intros w w' buffer total; simpl; [done|].
  destruct (ReadDataObjectWithTrackerCallBack (pool w) conn handle ReadWriteBufferSize)
    as [p1 [[data reports] readErr]].
  set (w0 := fold_left _ reports _).
  assert (shared w0 = shared w) as H0
    by (subst w0; by rewrite shared_fold by (intros; apply shared_call_back)).
  destruct (0 <? Z.of_nat (length data)).
  - destruct readErr as [e|].
    + destruct (is_EOF e); intros [= <- _ _]; by rewrite shared_call_back.
    + intros Hrec%IH. by rewrite Hrec, shared_call_back.
  - destruct readErr as [e|].
    + destruct (is_EOF e); by intros [= <- _ _].
    + intros Hrec%IH. by rewrite Hrec.
Qed.

Lemma AcquireConnection_failure_shared (sess s1 : IRODSSession P) err :
  AcquireConnection range_order sess = (s1, inl err) ->
  sharedConnections s1 = sharedConnections sess.
Proof.
  unfold AcquireConnection.
  destruct (try_pool sess) as [s0 [conn|]] eqn:Htry; [done|].
  apply SessionFacts.try_pool_shared in Htry.
  destruct (min_share_scan _ 0 nil_conn) as [s mc].
  destruct (mc =? nil_conn)%N; [|done]. by intros [= <- _].
Qed.

(** What returning the connection acquired at the start does to the share
    map, whatever the transfer did to the server in between. *)
Lemma returned_shared (w : World) (sx s1 : IRODSSession P) conn :
  positive_shares (shared w) -> bounded_shares (shared w) ->
  AcquireConnection range_order (session w) = (s1, inr conn) ->
  sharedConnections sx = sharedConnections s1 ->
  sharedConnections (ReturnConnection sx conn).1 = sharedConnections (session w).
Proof.
  intros Hpos Hbnd Hacq Hsame.
  pose proof (SessionLaws.AcquireConnection_shared range_order range_order_perm
                _ _ _ Hpos Hbnd Hacq) as Hheld.
  rewrite SessionLaws.ReturnConnection_shared.
  - rewrite Hsame, Hheld. by apply SessionLaws.released_held.
  - rewrite Hsame, Hheld. by apply SessionLaws.positive_shares_held.
Qed.

(** X10. The serial transfers give back the connection they acquire on
    every path on which they return: when every count of the share map is
    at least one and below the largest integer, the share map after
    [UploadDataObject], [UploadDataObjectFromBuffer] or
    [DownloadDataObjectToBuffer] is the one before it, whether the transfer
    succeeded or not. *)
Theorem serial_transfer_returns_connection localPath irodsPath replicate keywords callback
    (w : World) :
  positive_shares (shared w) -> bounded_shares (shared w) ->
  (forall fuel resource w' r,
     UploadDataObject range_order ReadWriteBufferSize localPath irodsPath replicate
       keywords callback fuel w resource = Some (Ret (w', r)) ->
     shared w' = shared w)
  /\ (forall buffer resource,
       shared (UploadDataObjectFromBuffer range_order irodsPath replicate keywords
                 callback w buffer resource).1 = shared w)
  /\ (forall fuel resource buffer len w' b r,
       DownloadDataObjectToBuffer range_order ReadWriteBufferSize irodsPath keywords
         callback fuel w resource buffer len = Some (w', b, r) ->
       shared w' = shared w).
Proof.
  intros Hpos Hbnd.
  split; [|split].
  - intros fuel resource w' r. unfold UploadDataObject.
    destruct (os_Stat (disk w) localPath) as [err | fileLength]; [by intros [= <- _]|].
    destruct (AcquireConnection range_order (session w)) as [s1 [err | conn]] eqn:Hacq.
    { intros [= <- _]. by apply AcquireConnection_failure_shared in Hacq. }
    pose proof (fun sx => returned_shared w sx s1 conn Hpos Hbnd Hacq) as Hback.
    cbn [fst snd session set_session disk pool].
    destruct ((conn =? nil_conn)%N || _).
    { intros [= <- _]. by apply Hback. }
    destruct (os_OpenFile (disk w) localPath O_RDONLY) as [d1 [err | f]].
    { intros [= <- _]. by apply Hback. }
    destruct (CreateDataObject _ conn irodsPath _ _ _ _) as [p1 [err | handle]].
    { intros [= <- _]. by apply Hback. }
    destruct (upload_copy _ _ fuel _ conn handle f fileLength 0)
      as [[w2 writeErr]|] eqn:Hcopy; [|done].
    apply upload_copy_shared in Hcopy. rewrite shared_call_back in Hcopy.
    destruct writeErr as [e|].
    { intros [= <- _]. by apply Hback. }
    destruct replicate.
    + destruct (ReplicateDataObject _ conn irodsPath _ _ _) as [p2 [replErr|]];
        intros [= <- _]; by apply Hback.
    + intros [= <- _]. by apply Hback.
  - intros buffer resource. unfold UploadDataObjectFromBuffer, returning.
    destruct (AcquireConnection range_order (session w)) as [s1 [err | conn]] eqn:Hacq.
    { by apply AcquireConnection_failure_shared in Hacq. }
    pose proof (fun sx => returned_shared w sx s1 conn Hpos Hbnd Hacq) as Hback.
    cbn [fst snd session set_session disk pool].
    destruct ((conn =? nil_conn)%N || _); [by apply Hback|].
    destruct (CreateDataObject _ conn irodsPath _ _ _ _) as [p1 [err | handle]];
      [by apply Hback|].
    destruct (WriteDataObjectWithTrackerCallBack _ conn handle buffer)
      as [p2 [reports writeErr]].
    destruct writeErr as [e|].
    { apply Hback. by destruct callback. }
    destruct replicate.
    + destruct (ReplicateDataObject _ conn irodsPath _ _ _) as [p3 [replErr|]];
        (apply Hback; by destruct callback).
    + apply Hback. by destruct callback.
  - intros fuel resource buffer len w' b r. unfold DownloadDataObjectToBuffer.
    destruct (AcquireConnection range_order (session w)) as [s1 [err | conn]] eqn:Hacq.
    { intros [= <- _ _]. by apply AcquireConnection_failure_shared in Hacq. }
    pose proof (fun sx => returned_shared w sx s1 conn Hpos Hbnd Hacq) as Hback.
    cbn [fst snd session set_session disk pool].
    destruct ((conn =? nil_conn)%N || _).
    { intros [= <- _ _]. by apply Hback. }
    destruct (OpenDataObject _ conn irodsPath _ _ _) as [p1 [err | handle]].
    { intros [= <- _ _]. by apply Hback. }
    destruct (download_copy _ _ fuel _ conn handle buffer len 0)
      as [[[w2 b2] r2]|] eqn:Hcopy; [|done].
    apply download_copy_shared in Hcopy. rewrite shared_call_back in Hcopy.
    intros [= <- _ _]. by apply Hback.
Qed.

(** *** The progress reports of a serial upload *)

Lemma progress_blockWriteCallback fl total reports (w : World) :
  progress (fold_left (blockWriteCallback true fl total) reports w)
  = progress w ++ map (fun p => (int_add total p, fl)) reports.
Proof.
  revert w. induction reports as [| x l IH]; intros w; simpl.
  - by rewrite app_nil_r.
  - rewrite IH. simpl. by rewrite <- app_assoc.
Qed.

Lemma File_Read_data (d : Disk) (f f1 : File) content len data e :
  fault d OpRead (fname f) = None ->
  files d !! fname f = Some content ->
  0 < len -> 0 <= fpos f ->
  File_Read d f len = (f1, (data, e)) ->
  (e = None /\ 0 < Z.of_nat (length data) /\ fname f1 = fname f
   /\ fpos f1 = fpos f + Z.of_nat (length data)
   /\ fpos f1 <= Z.of_nat (length content))
  \/ (e = Some EOF /\ data = [] /\ Z.of_nat (length content) <= fpos f).
Proof.
  intros Hfault Hfile Hlen Hpos. unfold File_Read, content_of.
  rewrite Hfault, Hfile. simpl.
  assert ((0 <? len) = true) as -> by lia. simpl.
  pose proof (eq_refl (length (slice content (fpos f) len))) as Hsz.
  unfold slice in Hsz at 2. rewrite length_take, length_drop in Hsz.
  destruct (Z.of_nat (length (slice content (fpos f) len)) =? 0) eqn:Hz.
  - apply Z.eqb_eq in Hz. intros [= <- <- <-].
    right. split; [done|]. split; [done|]. lia.
  - apply Z.eqb_neq in Hz. intros [= <- <- <-].
    left. simpl. split; [done|]. split; [lia|]. split; [done|]. lia.
Qed.

(** The copy loop of [UploadDataObject] on a readable file of [n] bytes,
    with a callback: every report carries the total [n], and if the loop
    ends without an error, either it wrote nothing and the file had no
    byte left, or its last report is [(n, n)]. *)
Lemma upload_copy_progress fuel (w w' : World) conn handle f content total :
  0 < ReadWriteBufferSize ->
  fault (disk w) OpRead (fname f) = None ->
  files (disk w) !! fname f = Some content ->
  Z.of_nat (length content) <= max_int ->
  fpos f = total -> 0 <= total <= Z.of_nat (length content) ->
  upload_copy (J := J) ReadWriteBufferSize true fuel w conn handle f
    (Z.of_nat (length content)) total = Some (w', None) ->
  exists rest,
    progress w' = progress w ++ rest
    /\ Forall (fun e => e.2 = Z.of_nat (length content)) rest
    /\ ((rest = [] /\ total = Z.of_nat (length content))
        \/ last rest = Some (Z.of_nat (length content), Z.of_nat (length content))).
Proof.
  intros Hbuf. revert w w' f total.
  induction fuel as [| fuel IH]; intros w w' f total Hfault Hfile Hmax Hpos Htot; simpl; [done|].
  destruct (File_Read (disk w) f ReadWriteBufferSize) as [f1 [data readErr]] eqn:Hread.
  apply (File_Read_data _ _ _ content) in Hread; [|done|done|done|lia].
  destruct Hread as [(-> & Hdata & Hname & Hpos1 & Hle) | (-> & -> & Hend)].
  - assert ((0 <? Z.of_nat (length data)) = true) as -> by lia.
    destruct (WriteDataObjectWithTrackerCallBack (pool w) conn handle data)
      as [p1 [reports [e|]]]; [done|].
    rewrite (Int64Facts.int_add_small total)
      by (unfold in_range, min_int, max_int in *; lia).
    match goal with
    | |- upload_copy _ _ _ ?x _ _ _ _ _ = _ -> _ => set (w1 := x)
    end.
    assert (disk w1 = disk w) as Hdisk.
    { subst w1. simpl.
      by rewrite (fold_keeps disk) by (intros; apply TransferFacts.disk_call_back). }
    assert (progress w1 = progress w
              ++ map (fun p => (int_add total p, Z.of_nat (length content))) reports
              ++ [(total + Z.of_nat (length data), Z.of_nat (length content))]) as Hprog.
    { subst w1. simpl. rewrite progress_blockWriteCallback. simpl.
      by rewrite <- app_assoc. }
    intros Hrec. apply IH in Hrec; [| by rewrite Hdisk, Hname | by rewrite Hdisk, Hname
                                    | done | lia | lia].
    destruct Hrec as (rest & Hrest & Hall & Hlast).
    eexists. split; [rewrite Hrest, Hprog, <- !app_assoc; reflexivity|].
    split.
    + apply Forall_app. split; [by apply Forall_map, Forall_true|].
      apply Forall_cons. split; [done|]. exact Hall.
    + right. destruct Hlast as [[-> Heq] | Hlast].
      * rewrite app_nil_r, last_app. simpl. by rewrite Heq.
      * rewrite !last_app. by rewrite Hlast.
  - simpl. intros [= <-]. exists []. rewrite app_nil_r.
    split; [done|]. split; [done|]. left. split; [done|].
    (* nothing was left of the file *)
    lia.
Qed.

(** X11. The progress reports of a serial upload that succeeds, when the
    local file is readable and has [n] bytes: the first report is
    [(0, n)], every report carries the total [n], and the last one is
    [(n, n)]. *)
Theorem UploadDataObject_progress localPath irodsPath replicate keywords fuel
    (w w' : World) resource content :
  0 < ReadWriteBufferSize ->
  fault (disk w) OpRead localPath = None ->
  files (disk w) !! localPath = Some content ->
  Z.of_nat (length content) <= max_int ->
  UploadDataObject range_order ReadWriteBufferSize localPath irodsPath replicate
    keywords true fuel w resource = Some (Ret (w', None)) ->
  let n := Z.of_nat (length content) in
  exists rest,
    progress w' = progress w ++ (0, n) :: rest
    /\ Forall (fun e => e.2 = n) rest
    /\ last ((0, n) :: rest) = Some (n, n).
Proof.
  intros Hbuf Hfault Hfile Hmax. unfold UploadDataObject, os_Stat, os_OpenFile.
  destruct (fault (disk w) OpStat localPath); [done|]. rewrite Hfile.
  destruct (AcquireConnection range_order (session w)) as [s1 [err | conn]]; [done|].
  cbn [fst snd session set_session disk pool].
  destruct ((conn =? nil_conn)%N || _); [done|].
  destruct (fault (disk w) OpOpen localPath); [done|]. rewrite Hfile.
  change (has_flag O_RDONLY O_TRUNC) with false. cbn iota.
  destruct (CreateDataObject _ conn irodsPath _ _ _ _) as [p1 [err | handle]]; [done|].
  destruct (upload_copy _ _ fuel _ conn handle _ _ 0) as [[w2 [e|]]|] eqn:Hcopy;
    [done| |done].
  apply (upload_copy_progress fuel _ w2 conn handle _ content 0) in Hcopy;
    [|done|done|done|done|done|lia].
  destruct Hcopy as (rest & Hprog & Hall & Hlast).
  simpl in Hprog. rewrite <- app_assoc in Hprog.
  assert (last ((0, Z.of_nat (length content)) :: rest)
          = Some (Z.of_nat (length content), Z.of_nat (length content))) as Hl.
  { destruct Hlast as [[-> <-] | Hlast]; [done|].
    destruct rest as [| x rest]; [done|]. exact Hlast. }
  intros Hres. exists rest. split; [|done].
  transitivity (progress w2); [|exact Hprog].
  destruct replicate.
  - destruct (ReplicateDataObject _ conn irodsPath _ _ _) as [p2 [replErr|]]; [done|].
    by injection Hres as <-.
  - by injection Hres as <-.
Qed.

(** *** What a download worker writes *)

Section Worker.

Variables (irodsPath resource localPath : string) (fileLength : Z)
          (keywords : gmap string string) (callback resumable : bool).
Variable t : Task.

Hypothesis reads_fill : fills_buffer P.
Hypothesis offset_nonneg : 0 <= taskOffset t.
Hypothesis no_overflow : taskOffset t + taskLength t <= max_int.

Abbreviation trial_chunk :=
  (trial_chunk (P := P) (J := J) ReadWriteBufferSize fileLength callback resumable).
Abbreviation trial_copy :=
  (trial_copy (P := P) (J := J) ReadWriteBufferSize fileLength callback resumable).
Abbreviation trial :=
  (trial (P := P) (J := J) ReadWriteBufferSize irodsPath resource fileLength keywords
     callback resumable).
Abbreviation downloadTask_retry :=
  (downloadTask_retry (P := P) (J := J) range_order ReadWriteBufferSize irodsPath resource
     fileLength keywords callback resumable).
Abbreviation downloadTask :=
  (downloadTask (P := P) (J := J) range_order ReadWriteBufferSize irodsPath resource
     localPath fileLength keywords callback resumable).
Abbreviation task_trace := (task_trace (P := P) (J := J) resumable t).

(** The offset of the local file that corresponds to [taskRemain]. *)
Abbreviation at_remain rem := (taskOffset t + (taskLength t - rem)).

Lemma task_trace_same a (w w' : World) :
  wlog w' = wlog w -> journal_log w' = journal_log w -> disk w' = disk w ->
  task_trace a a w w'.
Proof.
  intros Hw Hj Hd. exists [].
  split; [by rewrite app_nil_r|]. split; [done|].
  split; [destruct resumable; simpl; by rewrite app_nil_r | done].
Qed.

Lemma task_trace_trans a b c (w1 w2 w3 : World) :
  task_trace a b w1 w2 -> task_trace b c w2 w3 -> task_trace a c w1 w3.
Proof.
  intros (l1 & Hw1 & Ht1 & Hj1 & Hd1) (l2 & Hw2 & Ht2 & Hj2 & Hd2).
  exists (l1 ++ l2). split; [by rewrite Hw2, Hw1, app_assoc|].
  split; [by eapply TransferFacts.tiles_app|].
  split.
  - rewrite Hj2, Hj1, <- app_assoc. destruct resumable; [by rewrite map_app | done].
  - intros [-> ->]%app_eq_nil. by rewrite Hd2, Hd1.
Qed.

Lemma same_call_back cb a b (w : World) :
  wlog (call_back cb a b w) = wlog w
  /\ journal_log (call_back cb a b w) = journal_log w
  /\ disk (call_back cb a b w) = disk w.
Proof. by destruct cb. Qed.

Lemma same_blockReadCallback (w : World) processed :
  wlog (blockReadCallback fileLength callback t w processed) = wlog w
  /\ journal_log (blockReadCallback fileLength callback t w processed) = journal_log w
  /\ disk (blockReadCallback fileLength callback t w processed) = disk w.
Proof.
  unfold blockReadCallback. destruct (0 <? processed); [|done].
  destruct callback; done.
Qed.

Lemma File_WriteAt_failure (d d1 : Disk) f data off e :
  File_WriteAt d f data off = (d1, Some e) -> d1 = d.
Proof.
  unfold File_WriteAt. destruct (fault d OpWrite (fname f)); [by intros [= <- _]|].
  destruct (off <? 0); [by intros [= <- _] | done].
Qed.

(** One turn of the copy loop. *)
Lemma trial_chunk_trace (w w1 : World) loc loc1 conn h r :
  0 < taskRemain loc <= taskLength t ->
  trial_chunk t w loc conn h = (w1, loc1, r) ->
  0 <= taskRemain loc1 <= taskRemain loc
  /\ task_trace (at_remain (taskRemain loc)) (at_remain (taskRemain loc1)) w w1.
Proof.
  intros Hrem. unfold Transfer.trial_chunk.
  rewrite (Int64Facts.int_sub_small (taskLength t))
    by (unfold in_range, min_int, max_int in *; lia).
  rewrite (Int64Facts.int_add_small (taskOffset t))
    by (unfold in_range, min_int, max_int in *; lia).
  destruct (ReadDataObjectWithTrackerCallBack _ conn h _)
    as [p1 [[data reports] readErr]] eqn:Hread.
  apply reads_fill in Hread.
  assert (Z.of_nat (length data) <= taskRemain loc) as Hlen
    by (unfold chunk_len in Hread; case_match; lia).
  set (w0 := fold_left _ reports _).
  assert (wlog w0 = wlog w /\ journal_log w0 = journal_log w /\ disk w0 = disk w)
    as (Hw0 & Hj0 & Hd0).
  { subst w0. split; [|split].
    - by rewrite (fold_keeps wlog) by (intros; apply same_blockReadCallback).
    - by rewrite (fold_keeps journal_log) by (intros; apply same_blockReadCallback).
    - by rewrite (fold_keeps disk) by (intros; apply same_blockReadCallback). }
  destruct (0 <? Z.of_nat (length data)) eqn:Hgot.
  - apply Z.ltb_lt in Hgot.
    destruct (File_WriteAt (disk w0) (lf loc) data _) as [d1 [e|]] eqn:Hwrite.
    + apply File_WriteAt_failure in Hwrite. subst d1.
      intros [= <- <- _]. split; [lia|]. by apply task_trace_same.
    + set (wa := call_back callback _ fileLength _).
      assert (0 <= taskRemain (advance (Z.of_nat (length data)) loc) <= taskRemain loc
              /\ task_trace (at_remain (taskRemain loc))
                   (at_remain (taskRemain (advance (Z.of_nat (length data)) loc))) w wa)
        as Hstep.
      { simpl. rewrite (Int64Facts.int_sub_small (taskRemain loc))
          by (unfold in_range, min_int, max_int in *; lia).
        split; [lia|].
        exists [(taskOffset t, at_remain (taskRemain loc), Z.of_nat (length data))].
        subst wa. split; [|split; [|split]].
        - rewrite (proj1 (same_call_back _ _ _ _)).
          destruct resumable; simpl; by rewrite Hw0.
        - simpl. repeat split; lia.
        - rewrite (proj1 (proj2 (same_call_back _ _ _ _))).
          destruct resumable; simpl; rewrite Hj0; [|by rewrite app_nil_r].
          unfold write_status. simpl.
          rewrite (Int64Facts.int_sub_small (taskLength t))
            by (unfold in_range, min_int, max_int in *; lia).
          rewrite Int64Facts.int_add_small
            by (unfold in_range, min_int, max_int in *; lia).
          do 4 f_equal. lia.
        - done. }
      destruct readErr as [e|]; [destruct (is_EOF e)|
                                 destruct (0 <? length (errChan wa))%nat];
        intros [= <- <- _]; exact Hstep.
  - assert (0 <= taskRemain loc <= taskRemain loc
            /\ task_trace (at_remain (taskRemain loc)) (at_remain (taskRemain loc)) w w0)
      as Hstep by (split; [lia | by apply task_trace_same]).
    destruct readErr as [e|]; [destruct (is_EOF e)|
                               destruct (0 <? length (errChan w0))%nat];
      intros [= <- <- _]; exact Hstep.
Qed.

(** The copy loop, from whatever remains of the task. *)
Lemma trial_copy_trace fuel (w w1 : World) loc loc1 conn h r :
  0 <= taskRemain loc <= taskLength t ->
  trial_copy fuel t w loc conn h = Some (w1, loc1, r) ->
  0 <= taskRemain loc1 <= taskRemain loc
  /\ task_trace (at_remain (taskRemain loc)) (at_remain (taskRemain loc1)) w w1.
Proof.
  revert w loc. induction fuel as [| fuel IH]; intros w loc Hrem; simpl.
  - destruct (0 <? taskRemain loc); [done|]. intros [= <- <- _].
    split; [lia | by apply task_trace_same].
  - destruct (0 <? taskRemain loc) eqn:Hp.
    2:{ intros [= <- <- _]. split; [lia | by apply task_trace_same]. }
    apply Z.ltb_lt in Hp.
    destruct (trial_chunk t w loc conn h) as [[wa loca] ra] eqn:Hchunk.
    apply trial_chunk_trace in Hchunk as [Hra Hta]; [|lia].
    destruct ra as [ra|].
    + by intros [= <- <- _].
    + intros Hrec. apply IH in Hrec as [Hrb Htb]; [|lia].
      split; [lia|]. by eapply task_trace_trans.
Qed.

Lemma trial_seek_same (w : World) loc conn h :
  wlog (trial_seek w loc conn h).1.1 = wlog w
  /\ journal_log (trial_seek w loc conn h).1.1 = journal_log w
  /\ disk (trial_seek w loc conn h).1.1 = disk w
  /\ taskRemain (trial_seek w loc conn h).1.2 = taskRemain loc
  /\ taskConn (trial_seek w loc conn h).1.2 = taskConn loc.
Proof. unfold trial_seek. repeat case_match; simplify_eq; done. Qed.

(** One trial. *)
Lemma trial_trace fuel (w w1 : World) loc loc1 conn r :
  0 <= taskRemain loc <= taskLength t ->
  trial fuel t w loc conn = Some (w1, loc1, r) ->
  0 <= taskRemain loc1 <= taskRemain loc
  /\ task_trace (at_remain (taskRemain loc)) (at_remain (taskRemain loc1)) w w1.
Proof.
  intros Hrem. unfold Transfer.trial.
  destruct (OpenDataObject _ _ _ _ _ _) as [p1 [openErr | h]].
  { intros [= <- <- _]. split; [lia | by apply task_trace_same]. }
  pose proof (trial_seek_same (set_conn_state p1 w) loc conn h)
    as (Hw & Hj & Hd & Hr & _).
  destruct (trial_seek _ loc conn h) as [[wa loca] [e|]]; simpl in Hw, Hj, Hd, Hr.
  - intros [= <- <- _]. rewrite Hr. split; [lia|].
    apply task_trace_same; by case_match.
  - destruct (trial_copy fuel t wa loca conn h) as [[[wb locb] rb]|] eqn:Hcopy; [|done].
    apply trial_copy_trace in Hcopy as [Hrb Htb]; [|lia].
    rewrite Hr in Hrb, Htb. intros [= <- <- _]. split; [lia|].
    eapply task_trace_trans; [by apply (task_trace_same _ w wa)|].
    eapply task_trace_trans; [exact Htb|].
    apply task_trace_same; by case_match.
Qed.

Lemma send_same err (w w1 : World) :
  send err w = Some w1 ->
  wlog w1 = wlog w /\ journal_log w1 = journal_log w /\ disk w1 = disk w.
Proof. unfold send. case_match; [|done]. by intros [= <-]. Qed.

Lemma exit_with_same c (r : option World) (w w1 : World) a :
  (forall w', r = Some w' ->
     wlog w' = wlog w /\ journal_log w' = journal_log w /\ disk w' = disk w) ->
  exit_with c r = Some w1 -> task_trace a a w w1.
Proof.
  intros Hr. destruct r as [w'|]; [|done]. intros [= <-].
  destruct (Hr w' eq_refl) as (? & ? & ?). by apply task_trace_same.
Qed.

(** The retry loop: whatever the trials and the reconnections in between,
    the chunks go on from where the last one ended. *)
Lemma downloadTask_retry_trace fuel (w w1 : World) loc :
  0 <= taskRemain loc <= taskLength t ->
  downloadTask_retry fuel t w loc = Some w1 ->
  exists rem1, 0 <= rem1 <= taskRemain loc
    /\ task_trace (at_remain (taskRemain loc)) (at_remain rem1) w w1.
Proof.
  revert w loc. induction fuel as [| fuel IH]; intros w loc Hrem; simpl; [done|].
  destruct (trial fuel t w loc (taskConn loc)) as [[[wa loca] r]|] eqn:Htrial; [|done].
  apply trial_trace in Htrial as [Hra Hta]; [|done].
  assert (forall wb, task_trace (at_remain (taskRemain loca)) (at_remain (taskRemain loca))
                       wa wb ->
                     exists rem1, 0 <= rem1 <= taskRemain loc
                       /\ task_trace (at_remain (taskRemain loc)) (at_remain rem1) w wb)
    as Hend.
  { intros wb Hb. exists (taskRemain loca). split; [lia|]. by eapply task_trace_trans. }
  destruct r as [trialErr|].
  - destruct (IsSocketFailed _ _).
    + destruct (AcquireConnection _ _) as [s3 [connErr | c]].
      * intros Hexit. apply Hend.
        eapply (exit_with_same _ _ (set_session s3 _)) in Hexit; [exact Hexit|].
        by intros w' Hs%send_same.
      * case_match.
        -- intros Hexit. apply Hend.
           eapply (exit_with_same _ _ (set_session s3 _)) in Hexit; [exact Hexit|].
           by intros w' Hs%send_same.
        -- intros Hrec. apply IH in Hrec as (rem1 & Hr1 & Ht1); [|simpl; lia].
           simpl in Hr1, Ht1. exists rem1. split; [lia|].
           eapply task_trace_trans; [exact Hta|].
           eapply task_trace_trans; [|exact Ht1]. by apply task_trace_same.
    + intros Hexit. apply Hend.
      eapply exit_with_same in Hexit; [exact Hexit|].
      by intros w' Hs%send_same.
  - intros [= <-]. apply Hend. by apply task_trace_same.
Qed.

Lemma os_OpenFile_write_only (d d1 : Disk) name r :
  os_OpenFile d name O_WRONLY = (d1, r) -> d1 = d.
Proof.
  unfold os_OpenFile. destruct (fault d OpOpen name); [by intros [= <- _]|].
  change (has_flag O_WRONLY O_CREATE) with false.
  change (has_flag O_WRONLY O_TRUNC) with false.
  destruct (files d !! name); by intros [= <- _].
Qed.

(** A whole worker, from the offset at which it starts. *)
Lemma downloadTask_trace fuel connections (w w1 : World) :
  0 <= taskLength t ->
  taskOffset t <= start_offset resumable t w <= taskOffset t + taskLength t ->
  downloadTask fuel connections t w = Some (Ret w1) ->
  exists b, b <= taskOffset t + taskLength t
    /\ task_trace (start_offset resumable t w) b w w1.
Proof.
  intros Hlen Hstart. unfold Transfer.downloadTask.
  destruct (connections !! taskID t) as [c|]; [|done].
  set (w0 := set_taskProgress _ w).
  assert (forall a wb, task_trace a a w0 wb -> task_trace a a w wb) as H0.
  { intros a wb Hb. eapply task_trace_trans; [|exact Hb]. by apply task_trace_same. }
  case_match.
  - destruct (exit_with c _) as [wa|] eqn:Hexit; [|done]. intros [= <-].
    eexists. split; [apply Hstart|]. apply H0.
    eapply exit_with_same in Hexit; [exact Hexit|]. by intros w' Hs%send_same.
  - destruct (os_OpenFile _ _ _) as [d1 [openErr | f]] eqn:Hopen;
      apply os_OpenFile_write_only in Hopen; subst d1.
    + destruct (exit_with c _) as [wa|] eqn:Hexit; [|done]. intros [= <-].
      eexists. split; [apply Hstart|]. apply H0.
      eapply (exit_with_same _ _ (set_disk _ w0)) in Hexit; [exact Hexit|].
      by intros w' Hs%send_same.
    + change (start_offset resumable t (set_disk (disk w0) w0))
        with (start_offset resumable t w).
      set (start := start_offset resumable t w) in *.
      destruct (downloadTask_retry _ _ _ _) as [wa|] eqn:Hretry; [|done].
      intros [= <-].
      assert ((if resumable
               then int_sub (taskLength t) (int_sub start (taskOffset t))
               else taskLength t) = taskLength t - (start - taskOffset t)) as Hrem0.
      { destruct resumable.
        - rewrite (Int64Facts.int_sub_small start)
            by (unfold in_range, min_int, max_int in *; lia).
          by rewrite Int64Facts.int_sub_small
            by (unfold in_range, min_int, max_int in *; lia).
        - unfold start, start_offset. lia. }
      rewrite Hrem0 in Hretry.
      apply downloadTask_retry_trace in Hretry as (rem1 & Hr1 & Ht1); [|simpl; lia].
      simpl in Hr1, Ht1.
      replace (at_remain (taskLength t - (start - taskOffset t))) with start in Ht1 by lia.
      exists (at_remain rem1). split; [lia|].
      eapply task_trace_trans; [|exact Ht1].
      apply task_trace_same;
        (destruct (resumable && (0 <? _)); [by destruct callback | done]).
Qed.

End Worker.

Lemma tiles_chunks tag a b l :
  tiles tag a b l ->
  forall tg off len, (tg, off, len) ∈ l -> tg = tag /\ a <= off /\ 0 < len /\ off + len <= b.
Proof.
  revert a. induction l as [| [[tg0 off0] len0] l IH]; intros a; simpl.
  - intros _ tg off len Hin. by apply elem_of_nil in Hin.
  - intros (-> & -> & Hlen & Hle & Hrest) tg off len Hin.
    pose proof (TransferFacts.tiles_covered _ _ _ _ Hrest) as [Hab _].
    apply elem_of_cons in Hin as [[= -> -> ->] | Hin]; [lia|].
    destruct (IH _ Hrest _ _ _ Hin) as (? & ? & ? & ?). lia.
Qed.

Lemma tiles_nil tag a l : tiles tag a a l -> l = [].
Proof.
  destruct l as [| [[tg off] len] l]; [done|]. simpl.
  intros (_ & _ & Hlen & Hle & _). lia.
Qed.

Section WorkerLaws.

Variables (irodsPath resource localPath : string) (fileLength : Z)
          (keywords : gmap string string) (callback : bool).

Abbreviation downloadTask :=
  (downloadTask (P := P) (J := J) range_order ReadWriteBufferSize irodsPath resource
     localPath fileLength keywords callback).

(** X14. A download worker that returns never writes outside its range
    and never writes a byte twice, whatever the server does, as long as a
    read delivers no more bytes than it was asked for: across all its
    trials and reconnections, the chunks it writes to the local file lie
    one after the other from the offset at which it starts, the offset of
    the task or the one the status file gives, and end within the task. *)
Theorem downloadTask_writes_in_range resumable (t : Task) fuel connections (w w1 : World) :
  fills_buffer P ->
  0 <= taskOffset t -> 0 <= taskLength t -> taskOffset t + taskLength t <= max_int ->
  taskOffset t <= start_offset resumable t w <= taskOffset t + taskLength t ->
  downloadTask resumable fuel connections t w = Some (Ret w1) ->
  exists l b,
    wlog w1 = wlog w ++ l
    /\ tiles (taskOffset t) (start_offset resumable t w) b l
    /\ b <= taskOffset t + taskLength t.
Proof.
  intros Hfill Hoff Hlen Hmax Hstart Hrun.
  eapply downloadTask_trace in Hrun; [|done..].
  destruct Hrun as (b & Hb & l & Hw & Ht & _). by exists l, b.
Qed.

(** X15. A worker of a resumable download that returns has appended to
    the status file exactly one entry for each chunk it wrote, in the order
    of the chunks.  Each entry names the task by its offset and length, and
    its completed length is the number of bytes of the task that are on
    disk after the chunk: more than the worker started with, and at most
    the length of the task. *)
Theorem resumable_worker_journal (t : Task) fuel connections (w w1 : World) :
  fills_buffer P ->
  0 <= taskOffset t -> 0 <= taskLength t -> taskOffset t + taskLength t <= max_int ->
  taskOffset t <= start_offset true t w <= taskOffset t + taskLength t ->
  downloadTask true fuel connections t w = Some (Ret w1) ->
  exists l,
    wlog w1 = wlog w ++ l
    /\ journal_log w1 = journal_log w ++ map (entry_of t) l
    /\ forall c, c ∈ map (entry_of t) l ->
         exists e, c = CallWriteStatus e
           /\ StartOffset e = taskOffset t /\ Length e = taskLength t
           /\ start_offset true t w - taskOffset t < CompletedLength e <= taskLength t.
Proof.
  intros Hfill Hoff Hlen Hmax Hstart Hrun.
  eapply downloadTask_trace in Hrun; [|done..].
  destruct Hrun as (b & Hb & l & Hw & Ht & Hj & _).
  exists l. split; [done|]. split; [done|].
  intros c ([[tg off] len] & -> & Hin)%list_elem_of_fmap.
  destruct (tiles_chunks _ _ _ _ Ht _ _ _ Hin) as (-> & Ha & Hl & Hle).
  eexists. split; [reflexivity|].
  cbn [StartOffset Length CompletedLength]. split; [done|]. split; [done|]. lia.
Qed.

(** *** A task that is already complete *)

Lemma trial_idle resumable (t : Task) fuel (w w1 : World) loc loc1 conn r :
  taskRemain loc = 0 ->
  trial (P := P) (J := J) ReadWriteBufferSize irodsPath resource fileLength keywords
    callback resumable fuel t w loc conn = Some (w1, loc1, r) ->
  taskRemain loc1 = 0
  /\ wlog w1 = wlog w /\ journal_log w1 = journal_log w /\ disk w1 = disk w.
Proof.
  intros Hrem. unfold Transfer.trial.
  destruct (OpenDataObject _ _ _ _ _ _) as [p1 [openErr | h]]; [by intros [= <- <- _]|].
  pose proof (trial_seek_same (set_conn_state p1 w) loc conn h)
    as (Hw & Hj & Hd & Hr & _).
  destruct (trial_seek _ loc conn h) as [[wa loca] [e|]]; simpl in Hw, Hj, Hd, Hr.
  - intros [= <- <- _]. rewrite Hr. by case_match.
  - assert (trial_copy ReadWriteBufferSize fileLength callback resumable fuel t wa loca
              conn h = Some (wa, loca, None)) as ->
      by (destruct fuel; simpl; by rewrite Hr, Hrem).
    intros [= <- <- _]. rewrite Hr. by case_match.
Qed.

Lemma downloadTask_retry_idle resumable (t : Task) fuel (w w1 : World) loc :
  taskRemain loc = 0 ->
  downloadTask_retry (P := P) (J := J) range_order ReadWriteBufferSize irodsPath resource
    fileLength keywords callback resumable fuel t w loc = Some w1 ->
  wlog w1 = wlog w /\ journal_log w1 = journal_log w /\ disk w1 = disk w.
Proof.
  revert w loc. induction fuel as [| fuel IH]; intros w loc Hrem; simpl; [done|].
  destruct (Transfer.trial _ _ _ _ _ _ _ fuel t w loc (taskConn loc))
    as [[[wa loca] r]|] eqn:Htrial; [|done].
  apply trial_idle in Htrial as (Hra & Hw & Hj & Hd); [|done].
  rewrite <- Hw, <- Hj, <- Hd.
  assert (forall c (x : option World) (wb : World),
            (forall w', x = Some w' ->
               wlog w' = wlog wa /\ journal_log w' = journal_log wa /\ disk w' = disk wa) ->
            exit_with c x = Some wb ->
            wlog wb = wlog wa /\ journal_log wb = journal_log wa /\ disk wb = disk wa)
    as Hexit.
  { intros c [w'|] wb Hx; [|done]. intros [= <-]. by destruct (Hx w' eq_refl) as (? & ? & ?). }
  destruct r as [trialErr|].
  - destruct (IsSocketFailed _ _).
    + destruct (AcquireConnection _ _) as [s3 [connErr | c]].
      * apply Hexit. by intros w' Hs%send_same.
      * case_match.
        -- apply Hexit. by intros w' Hs%send_same.
        -- intros Hrec. by apply IH in Hrec.
    + apply Hexit. by intros w' Hs%send_same.
  - by intros [= <-].
Qed.

(** X16. A worker of a resumable download whose task the status file
    records as complete transfers nothing: when it returns it has written
    no chunk, has left the local disk as it was and has appended nothing
    to the status file. *)
Theorem complete_task_is_skipped (t : Task) fuel connections (w w1 : World) :
  0 <= taskOffset t -> 0 <= taskLength t -> taskOffset t + taskLength t <= max_int ->
  start_offset true t w = taskOffset t + taskLength t ->
  downloadTask true fuel connections t w = Some (Ret w1) ->
  wlog w1 = wlog w /\ journal_log w1 = journal_log w /\ disk w1 = disk w.
Proof.
  intros Hoff Hlen Hmax Hstart. unfold Transfer.downloadTask.
  destruct (connections !! taskID t) as [c|]; [|done].
  set (w0 := set_taskProgress _ w).
  assert (forall c (x : option World) (wb : World),
            (forall w', x = Some w' ->
               wlog w' = wlog w /\ journal_log w' = journal_log w /\ disk w' = disk w) ->
            match exit_with c x with Some w2 => Some (Ret w2) | None => None end
              = Some (Ret wb) ->
            wlog wb = wlog w /\ journal_log wb = journal_log w /\ disk wb = disk w)
    as Hexit.
  { intros c' [w'|] wb Hx; [|done]. intros [= <-]. by destruct (Hx w' eq_refl) as (? & ? & ?). }
  case_match.
  - apply Hexit. by intros w' Hs%send_same.
  - destruct (os_OpenFile _ _ _) as [d1 [openErr | f]] eqn:Hopen;
      apply os_OpenFile_write_only in Hopen; subst d1.
    + apply Hexit. by intros w' Hs%send_same.
    + change (start_offset true t (set_disk (disk w0) w0)) with (start_offset true t w).
      rewrite Hstart.
      rewrite (Int64Facts.int_sub_small (taskOffset t + taskLength t))
        by (unfold in_range, min_int, max_int in *; lia).
      rewrite Int64Facts.int_sub_small
        by (unfold in_range, min_int, max_int in *; lia).
      destruct (Transfer.downloadTask_retry _ _ _ _ _ _ _ _ _ _ _ _) as [wa|] eqn:Hretry;
        [|done].
      intros [= <-]. apply downloadTask_retry_idle in Hretry; [|simpl; lia].
      destruct Hretry as (-> & -> & ->).
      destruct (true && (0 <? _)); [by destruct callback | done].
Qed.

End WorkerLaws.

(** *** The downloads as a whole *)

Section DownloadLaws.

Variables (irodsPath localPath : string) (keywords : gmap string string) (callback : bool).

Abbreviation DownloadDataObjectParallel :=
  (DownloadDataObjectParallel (P := P) (J := J) range_order range_conns ReadWriteBufferSize
     GetNumTasksForParallelTransfer irodsPath localPath keywords callback).
Abbreviation DownloadDataObjectParallelResumable :=
  (DownloadDataObjectParallelResumable (P := P) (J := J) range_order range_conns
     ReadWriteBufferSize GetNumTasksForParallelTransfer irodsPath localPath keywords callback).
Abbreviation download_run :=
  (download_run (P := P) (J := J) range_order range_conns ReadWriteBufferSize
     irodsPath localPath keywords callback).
Abbreviation run_download_tasks resumable resource fileLength :=
  (run_download_tasks (P := P) (J := J) range_order ReadWriteBufferSize irodsPath resource
     localPath fileLength keywords callback resumable).

(** X12. The download of an object of length zero, resumable or not,
    returns at once, whatever the number of tasks asked for: it creates
    the local file, empty, and returns nil, or returns the error of the
    creation and leaves the disk as it was; it acquires no connection,
    touches no status file and reports no progress. *)
Theorem download_empty_object fuel (w : World) resource taskNum :
  exists w' r,
    DownloadDataObjectParallel fuel w resource 0 taskNum = Some (Ret (w', r))
    /\ DownloadDataObjectParallelResumable fuel w resource 0 taskNum = Some (Ret (w', r))
    /\ session w' = session w
    /\ journal w' = journal w /\ journal_log w' = journal_log w
    /\ progress w' = progress w
    /\ (r = None -> files (disk w') !! localPath = Some [])
    /\ (r <> None -> disk w' = disk w).
Proof.
  unfold Transfer.DownloadDataObjectParallel, Transfer.DownloadDataObjectParallelResumable,
    download_setup, resumable_setup, download_empty, os_Create, os_OpenFile.
  simpl.
  destruct (fault (disk w) OpOpen localPath) as [e|].
  { eexists _, _. repeat split; done. }
  change (has_flag _ O_CREATE) with true. change (has_flag _ O_TRUNC) with true.
  destruct (files (disk w) !! localPath);
    (eexists _, _; repeat split; try done; simpl; by rewrite ?lookup_insert_eq).
Qed.

Lemma downloadTask_panic resumable resource fileLength fuel connections t (w : World) msg :
  downloadTask (P := P) (J := J) range_order ReadWriteBufferSize irodsPath resource
    localPath fileLength keywords callback resumable fuel connections t w
    = Some (Panic msg) ->
  connections !! taskID t = None /\ msg = "index out of range".
Proof.
  unfold downloadTask. destruct (connections !! taskID t) as [c|]; [|by intros [= <-]].
  repeat case_match; try done.
Qed.

Lemma run_download_tasks_short resumable resource fileLength fuel connections
    (n i : nat) off len (w : World) :
  (i <= length connections < i + n)%nat ->
  let run := run_download_tasks resumable resource fileLength fuel connections
               (spawn n i off len) w in
  run = None \/ run = Some (Panic "index out of range").
Proof.
  revert i off w. induction n as [| n IH]; intros i off w Hi; [lia|]. simpl.
  destruct (downloadTask _ _ _ _ _ _ _ _ _ fuel connections _ w)
    as [[w1 | msg]|] eqn:Htask.
  - destruct (decide (i = length connections)) as [-> | Hne].
    + unfold downloadTask in Htask. simpl in Htask.
      rewrite (proj2 (lookup_ge_None connections _)) in Htask by lia. done.
    + apply IH. lia.
  - apply downloadTask_panic in Htask as [_ ->]. by right.
  - by left.
Qed.

(** X13. A download needs one connection for each of its tasks, and does
    not check that it got them: when [AcquireConnectionsMulti] delivers
    fewer connections than there are tasks, the call never returns
    normally; it panics on the index of the first task without a
    connection, unless a task before that one does not return. *)
Theorem download_short_of_connections resumable fuel (w : World) resource
    fileLength numTasks s1 connections :
  AcquireConnectionsMulti range_order range_conns fuel (session w) numTasks
    = Some (s1, inr connections) ->
  Z.of_nat (length connections) < numTasks ->
  download_run resumable fuel w resource fileLength numTasks = None
  \/ download_run resumable fuel w resource fileLength numTasks
     = Some (Panic "index out of range").
Proof.
  intros Hacq Hshort. unfold Transfer.download_run. rewrite Hacq.
  assert ((numTasks =? 0) = false) as -> by lia.
  unfold partition.
  destruct (run_download_tasks_short resumable resource fileLength fuel connections
              (Z.to_nat numTasks) 0 0 (lengthPerThread fileLength numTasks)
              (set_session s1 w) ltac:(lia)) as [-> | ->]; [by left | by right].
Qed.

End DownloadLaws.

(** *** The errors a worker reports *)

Lemma sent_same k (w w' : World) : errChan w' = errChan w -> sent k w w'.
Proof. intros He. exists []. rewrite app_nil_r. split; [done | simpl; lia]. Qed.

Lemma sent_trans j k (w1 w2 w3 : World) :
  sent j w1 w2 -> sent k w2 w3 -> sent (j + k) w1 w3.
Proof.
  intros (l1 & Hc1 & Hl1) (l2 & Hc2 & Hl2). exists (l1 ++ l2).
  rewrite Hc2, Hc1, app_assoc, length_app. split; [done | lia].
Qed.

Lemma sent_send err (w w1 : World) : send err w = Some w1 -> sent 1 w w1.
Proof. unfold send. case_match; [|done]. intros [= <-]. by exists [err]. Qed.

Lemma sent_weaken j k (w w' : World) : (j <= k)%nat -> sent j w w' -> sent k w w'.
Proof. intros Hjk (l & Hch & Hl). exists l. split; [done | lia]. Qed.

Lemma errChan_blockReadCallback fl cb t (w : World) processed :
  errChan (blockReadCallback fl cb t w processed) = errChan w.
Proof.
  unfold blockReadCallback. destruct (0 <? processed); [|done]. by destruct cb.
Qed.

Section DownloadReports.

Variables (irodsPath resource localPath : string) (fileLength : Z)
          (keywords : gmap string string) (callback resumable : bool).

Abbreviation trial_chunk :=
  (trial_chunk (P := P) (J := J) ReadWriteBufferSize fileLength callback resumable).
Abbreviation trial_copy :=
  (trial_copy (P := P) (J := J) ReadWriteBufferSize fileLength callback resumable).
Abbreviation trial :=
  (trial (P := P) (J := J) ReadWriteBufferSize irodsPath resource fileLength keywords
     callback resumable).
Abbreviation downloadTask_retry :=
  (downloadTask_retry (P := P) (J := J) range_order ReadWriteBufferSize irodsPath resource
     fileLength keywords callback resumable).
Abbreviation downloadTask :=
  (downloadTask (P := P) (J := J) range_order ReadWriteBufferSize irodsPath resource
     localPath fileLength keywords callback resumable).
Abbreviation run_download_tasks :=
  (run_download_tasks (P := P) (J := J) range_order ReadWriteBufferSize irodsPath resource
     localPath fileLength keywords callback resumable).

Lemma errChan_trial_chunk t (w : World) loc conn h :
  errChan (trial_chunk t w loc conn h).1.1 = errChan w.
Proof.
  unfold Transfer.trial_chunk, write_status, call_back.
  destruct (ReadDataObjectWithTrackerCallBack _ _ _ _) as [p1 [[data reports] readErr]].
  repeat case_match; simplify_eq; simpl;
    by rewrite (fold_keeps errChan) by (intros; apply errChan_blockReadCallback).
Qed.

Lemma errChan_trial_copy fuel t (w w1 : World) loc loc1 conn h r :
  trial_copy fuel t w loc conn h = Some (w1, loc1, r) -> errChan w1 = errChan w.
Proof.
  revert w loc. induction fuel as [| fuel IH]; intros w loc; simpl.
  - destruct (0 <? taskRemain loc); [done|]. by intros [= <- _ _].
  - destruct (0 <? taskRemain loc); [|by intros [= <- _ _]].
    pose proof (errChan_trial_chunk t w loc conn h) as Hchunk.
    destruct (trial_chunk t w loc conn h) as [[wa loca] [ra|]]; simpl in Hchunk.
    + by intros [= <- _ _].
    + intros Hrec%IH. by rewrite Hrec.
Qed.

Lemma errChan_trial_seek (w : World) loc conn h :
  errChan (trial_seek w loc conn h).1.1 = errChan w.
Proof. unfold trial_seek. repeat case_match; simplify_eq; done. Qed.

Lemma errChan_trial fuel t (w w1 : World) loc loc1 conn r :
  trial fuel t w loc conn = Some (w1, loc1, r) -> errChan w1 = errChan w.
Proof.
  unfold Transfer.trial.
  destruct (OpenDataObject _ _ _ _ _ _) as [p1 [openErr | h]]; [by intros [= <- _ _]|].
  pose proof (errChan_trial_seek (set_conn_state p1 w) loc conn h) as Hseek.
  destruct (trial_seek _ loc conn h) as [[wa loca] [e|]]; simpl in Hseek.
  - intros [= <- _ _]. by case_match.
  - destruct (trial_copy fuel t wa loca conn h) as [[[wb locb] rb]|] eqn:Hcopy; [|done].
    apply errChan_trial_copy in Hcopy. intros [= <- _ _].
    transitivity (errChan wb); [by case_match | by rewrite Hcopy].
Qed.

Lemma sent_exit_with c (r : option World) (w w1 : World) k :
  (forall w', r = Some w' -> sent k w w') ->
  exit_with c r = Some w1 -> sent k w w1.
Proof.
  intros Hr. destruct r as [w'|]; [|done]. intros [= <-].
  destruct (Hr w' eq_refl) as (l & Hch & Hl). by exists l.
Qed.

Lemma sent_downloadTask_retry fuel t (w w1 : World) loc :
  downloadTask_retry fuel t w loc = Some w1 -> sent 1 w w1.
Proof.
  revert w loc. induction fuel as [| fuel IH]; intros w loc; simpl; [done|].
  destruct (trial fuel t w loc (taskConn loc)) as [[[wa loca] r]|] eqn:Htrial; [|done].
  apply errChan_trial in Htrial.
  assert (forall wb, sent 1 wa wb -> sent 1 w wb) as Hfrom.
  { intros wb (l & Hch & Hl). exists l. by rewrite Hch, Htrial. }
  destruct r as [trialErr|].
  - destruct (IsSocketFailed _ _).
    + destruct (AcquireConnection _ _) as [s3 [connErr | c]].
      * intros Hexit. apply Hfrom.
        eapply (sent_exit_with _ _ (set_session s3 _)) in Hexit; [exact Hexit|].
        by intros w' Hs%sent_send.
      * case_match.
        -- intros Hexit. apply Hfrom.
           eapply (sent_exit_with _ _ (set_session s3 _)) in Hexit; [exact Hexit|].
           by intros w' Hs%sent_send.
        -- intros Hrec%IH. by apply Hfrom.
    + intros Hexit. apply Hfrom.
      eapply sent_exit_with in Hexit; [exact Hexit|]. by intros w' Hs%sent_send.
  - intros [= <-]. apply Hfrom. by apply sent_same.
Qed.

Lemma sent_downloadTask fuel connections t (w w1 : World) :
  downloadTask fuel connections t w = Some (Ret w1) -> sent 1 w w1.
Proof.
  unfold Transfer.downloadTask.
  destruct (connections !! taskID t) as [c|]; [|done].
  set (w0 := set_taskProgress _ w).
  case_match.
  - destruct (exit_with c _) as [wa|] eqn:Hexit; [|done]. intros [= <-].
    eapply (sent_exit_with _ _ w0) in Hexit; [exact Hexit|]. by intros w' Hs%sent_send.
  - destruct (os_OpenFile _ _ _) as [d1 [openErr | f]].
    + destruct (exit_with c _) as [wa|] eqn:Hexit; [|done]. intros [= <-].
      eapply (sent_exit_with _ _ (set_disk d1 w0)) in Hexit; [exact Hexit|].
      by intros w' Hs%sent_send.
    + destruct (downloadTask_retry _ _ _ _) as [wa|] eqn:Hretry; [|done].
      intros [= <-]. apply sent_downloadTask_retry in Hretry.
      destruct Hretry as (l & Hsent & Hl). exists l. split; [|done]. rewrite Hsent.
      destruct (resumable && (0 <? _)); [by destruct callback | done].
Qed.

Lemma sent_run_download_tasks fuel connections tasks (w w1 : World) :
  run_download_tasks fuel connections tasks w = Some (Ret w1) ->
  sent (length tasks) w w1.
Proof.
  revert w. induction tasks as [| t tasks IH]; intros w; simpl.
  - intros [= <-]. by apply sent_same.
  - destruct (downloadTask fuel connections t w) as [[wa | msg]|] eqn:Htask; [|done..].
    apply sent_downloadTask in Htask. intros Hrest%IH.
    by apply (sent_trans 1 _ _ _ _ Htask).
Qed.

End DownloadReports.

Section UploadReports.

Variables (localPath irodsPath : string) (callback : bool)
          (keywords : gmap string string).

Lemma errChan_uploadTask_copy fuel (w w1 : World) conn h f fl off len rem r :
  uploadTask_copy (P := P) (J := J) ReadWriteBufferSize callback fuel w conn h f
    fl off len rem = Some (w1, r) ->
  errChan w1 = errChan w.
Proof.
  revert w rem. induction fuel as [| fuel IH]; intros w rem; simpl.
  - destruct (0 <? rem); [done|]. by intros [= <- _].
  - destruct (0 <? rem); [|by intros [= <- _]].
    destruct (File_ReadAt _ _ _ _) as [data taskReadErr].
    destruct (0 <? Z.of_nat (length data)).
    + destruct (WriteDataObjectWithTrackerCallBack _ _ _ _) as [p1 [reports [e|]]].
      * by intros [= <- _].
      * destruct taskReadErr as [e|].
        -- destruct (is_EOF e); intros [= <- _]; by rewrite TransferFacts.errChan_call_back.
        -- intros Hrec%IH. by rewrite Hrec, TransferFacts.errChan_call_back.
    + destruct taskReadErr as [e|].
      * destruct (is_EOF e); by intros [= <- _].
      * apply IH.
Qed.

Lemma sent_uploadTask fuel (w w1 : World) resource replicaToken resourceHierarchy
    numTasks fileLength taskOffset taskLength :
  uploadTask (P := P) (J := J) ReadWriteBufferSize AcquireUnmanagedConnection
    localPath irodsPath keywords callback fuel w resource replicaToken
    resourceHierarchy numTasks fileLength taskOffset taskLength = Some w1 ->
  sent 2 w w1.
Proof.
  unfold uploadTask.
  destruct (AcquireUnmanagedConnection (session w)) as [s1 [taskErr | taskConn]].
  { intros Hs%sent_send. apply (sent_weaken 1 2 w w1); [lia | exact Hs]. }
  set (w0 := set_session s1 w).
  assert (forall (x : option World) k,
            (forall w', x = Some w' -> sent k w0 w') ->
            forall w2,
            match x with
            | Some w' => Some (set_session (DiscardConnection (session w') taskConn).1 w')
            | None => None
            end = Some w2 -> sent k w w2) as Hdiscard.
  { intros [w'|] k Hx w2; [|done]. intros [= <-].
    destruct (Hx w' eq_refl) as (l & Hch & Hl). by exists l. }
  case_match.
  { intros Hr. apply (sent_weaken 1); [lia|].
    eapply Hdiscard; [|exact Hr]. by intros w' Hs%sent_send. }
  destruct (OpenDataObjectWithReplicaToken _ _ _ _ _ _ _ _ _ _) as [p1 [taskErr | h]].
  { intros Hr. apply (sent_weaken 1); [lia|].
    eapply Hdiscard; [|exact Hr]. by intros w' Hs%sent_send. }
  intros Hr. eapply Hdiscard; [|exact Hr]. clear Hr Hdiscard.
  assert (forall (x : option World),
            (forall w', x = Some w' -> sent 1 w0 w') ->
            forall w2,
            match x with
            | Some w' =>
              match CloseDataObjectReplica (pool w') taskConn h with
              | (p2, Some errClose) => send errClose (set_conn_state p2 w')
              | (p2, None) => Some (set_conn_state p2 w')
              end
            | None => None
            end = Some w2 -> sent 2 w0 w2) as Hclose.
  { intros [w'|] Hx w2; [|done]. specialize (Hx w' eq_refl).
    destruct (CloseDataObjectReplica _ _ _) as [p2 [errClose|]].
    - intros Hs%sent_send. by apply (sent_trans 1 1 w0 w').
    - intros [= <-]. apply (sent_weaken 1); [lia|].
      destruct Hx as (l & Hch & Hl). by exists l. }
  intros w2. apply Hclose. clear Hclose. intros w'.
  destruct (os_OpenFile _ _ _) as [d1 [taskErr | f]]; [by intros Hs%sent_send|].
  destruct (SeekDataObject _ _ _ _) as [p2 [taskErr | taskNewOffset]];
    [by intros Hs%sent_send|].
  case_match; [by intros Hs%sent_send|].
  destruct (uploadTask_copy _ _ _ _ _ _ _ _ _ _ _) as [[w3 [e|]]|] eqn:Hcopy; [| |done].
  - apply errChan_uploadTask_copy in Hcopy. intros (l & Hch & Hl)%sent_send.
    exists l. split; [|done]. by rewrite Hch, Hcopy.
  - apply errChan_uploadTask_copy in Hcopy. intros [= <-]. by apply sent_same.
Qed.

End UploadReports.

(** X17. A worker reports few errors.  A download worker that returns
    has sent at most one error on the error channel, so that the workers
    of a download send no more errors than there are tasks, which is the
    capacity the channel is made with.  An upload worker that returns has
    sent at most two: its own and that of the deferred
    [CloseDataObjectReplica]. *)
Theorem worker_error_reports irodsPath resource localPath fileLength keywords callback
    fuel (w w1 : World) :
  (forall resumable connections tasks,
     run_download_tasks (P := P) (J := J) range_order ReadWriteBufferSize irodsPath
       resource localPath fileLength keywords callback resumable fuel connections tasks w
       = Some (Ret w1) ->
     exists l, errChan w1 = errChan w ++ l /\ (length l <= length tasks)%nat)
  /\ (forall replicaToken resourceHierarchy numTasks taskOffset taskLength,
       uploadTask (P := P) (J := J) ReadWriteBufferSize AcquireUnmanagedConnection
         localPath irodsPath keywords callback fuel w resource replicaToken
         resourceHierarchy numTasks fileLength taskOffset taskLength = Some w1 ->
       exists l, errChan w1 = errChan w ++ l /\ (length l <= 2)%nat).
Proof.
  split.
  - intros resumable connections tasks. apply sent_run_download_tasks.
  - intros replicaToken resourceHierarchy numTasks taskOffset taskLength.
    apply sent_uploadTask.
Qed.

(** *** Transfers from and to a buffer *)



(** *** A download that has no task *)

Lemma AcquireConnectionsMulti_zero fuel (sess : IRODSSession P) :
  AcquireConnectionsMulti range_order range_conns fuel sess 0
  = Some (set_shared (sharedConnections sess) sess, inr (range_conns ∅)).
Proof.
  unfold AcquireConnectionsMulti. change (Z.to_nat 0) with 0%nat.
  cbn [acquire_from_pool]. rewrite size_empty. by destruct fuel.
Qed.

(** X19. The download of an object that is not empty does not check the
    number of tasks it ends up with, which is the number asked for or
    derived from the length, cut down to [ConnectionMaxNumber].  When that
    number is not positive the call never succeeds: it returns the error of
    creating the local file, or it panics, on making the error channel when
    the number is negative and on dividing the length by it when it is
    zero. *)
Theorem download_without_tasks irodsPath localPath keywords callback fuel (w : World)
    resource fileLength taskNum :
  fileLength <> 0 ->
  download_tasks GetNumTasksForParallelTransfer w taskNum fileLength <= 0 ->
  let run := DownloadDataObjectParallel range_order range_conns ReadWriteBufferSize
               GetNumTasksForParallelTransfer irodsPath localPath keywords callback
               fuel w resource fileLength taskNum in
  (exists w' e, run = Some (Ret (w', Some (Wrapf "failed to create file" e))))
  \/ run = Some (Panic
             (if download_tasks GetNumTasksForParallelTransfer w taskNum fileLength <? 0
              then "makechan: size out of range" else "integer divide by zero")).
Proof.
  intros Hlen Htasks. unfold DownloadDataObjectParallel, download_setup.
  assert ((fileLength =? 0) = false) as -> by lia.
  set (numTasks := download_tasks _ w taskNum fileLength) in *.
  destruct (os_Create (disk w) localPath) as [d1 [err | f]]; [left; by eexists _, _|].
  right. destruct (numTasks <? 0) eqn:Hneg; [done|].
  assert (numTasks = 0) as Hz by lia.
  unfold download_run. rewrite Hz, AcquireConnectionsMulti_zero. done.
Qed.

End TransferLaws.
End TransferLaws.

(** * The further properties on the reference server *)

Module LawWitnesses.
Import Session Transfer Buffers SessionSpec TransferSpec Ref Scenario Cases.

Lemma range_conns_perm (s : gset N) : range_conns s ≡ₚ elements s.
Proof. reflexivity. Qed.

Lemma positive_shares_decide (m : gmap N Z) :
  bool_decide (map_Forall (fun _ n => 1 <= n <= max_int) m) = true -> positive_shares m.
Proof. intros Hd. exact (bool_decide_eq_true_1 _ Hd). Qed.

Lemma bounded_shares_decide (m : gmap N Z) :
  bool_decide (map_Forall (fun _ n => n < max_int) m) = true -> bounded_shares m.
Proof. intros Hd. exact (bool_decide_eq_true_1 _ Hd). Qed.

(** A read of the reference server fills at most the buffer it is given. *)
Lemma Ref_fills_buffer : fills_buffer server.
Proof.
  intros p c h len p' data reports err. simpl. unfold read.
  destruct (mem c (socket_failed p)); [intros [= _ <- _ _]; simpl; lia|].
  assert (forall k,
            match descriptors (with_failure (socket_failed p) k p) !! FileDescriptor h with
            | Some (path, pos) =>
              (with_store (objects (with_failure (socket_failed p) k p))
                 (<[FileDescriptor h :=
                      (path, pos + Z.of_nat (length
                         (slice (default [] (objects (with_failure (socket_failed p) k p)
                                               !! path)) pos len)))]>
                    (descriptors (with_failure (socket_failed p) k p)))
                 (next_desc (with_failure (socket_failed p) k p))
                 (with_failure (socket_failed p) k p),
               (slice (default [] (objects (with_failure (socket_failed p) k p) !! path))
                  pos len, [],
                if Z.of_nat (length
                     (slice (default [] (objects (with_failure (socket_failed p) k p)
                                           !! path)) pos len)) <? len
                then Some EOF else None))
            | None => (with_failure (socket_failed p) k p, ([], [], Some (IRODSError (-1))))
            end = (p', (data, reports, err)) ->
            Z.of_nat (length data) <= Z.max 0 len) as Hread.
  { intros k. destruct (descriptors _ !! FileDescriptor h) as [[path pos]|].
    - intros [= _ <- _ _]. unfold slice. rewrite length_take. lia.
    - intros [= _ <- _ _]. simpl. lia. }
  destruct (reads_before_failure p) as [[| k]|].
  - intros [= _ <- _ _]. simpl. lia.
  - apply Hread.
  - apply Hread.
Qed.

(** Returning connection 7, shared twice, on the busy pool. *)
Lemma release_accounting_witness :
  positive_shares shares
  /\ sharedConnections (ReturnConnection shared_session 7%N).1 = released 7%N shares
  /\ released 7%N shares !! 7%N = Some 1
  /\ released 7%N shares !! 8%N = shares !! 8%N.
Proof.
  assert (positive_shares shares) as Hpos
    by (apply positive_shares_decide; vm_compute; reflexivity).
  destruct (SessionLaws.release_accounting (PoolOps := ref_pool) shared_session 7%N Hpos)
    as (Hret & _ & _ & Hother).
  split; [exact Hpos|]. split; [exact Hret|]. split; [vm_compute; reflexivity|].
  apply Hother. discriminate.
Defined.

(** The busy pool shares its least loaded connection, 8; returning it
    puts the share map back. *)
Lemma acquire_return_round_trip_witness :
  positive_shares shares /\ bounded_shares shares
  /\ exists s1,
       AcquireConnection range_order shared_session = (s1, inr 8%N)
       /\ sharedConnections (ReturnConnection s1 8%N).1 = shares.
Proof.
  assert (positive_shares shares) as Hpos
    by (apply positive_shares_decide; vm_compute; reflexivity).
  assert (bounded_shares shares) as Hbnd
    by (apply bounded_shares_decide; vm_compute; reflexivity).
  assert (exists s1, AcquireConnection range_order shared_session = (s1, inr 8%N))
    as (s1 & Hacq) by (eexists; vm_compute; reflexivity).
  split; [exact Hpos|]. split; [exact Hbnd|]. exists s1. split; [exact Hacq|].
  exact (proj1 (proj2 (proj2
    (SessionLaws.acquire_return_round_trip (PoolOps := ref_pool) range_order
       Witnesses.range_order_perm shared_session s1 8%N Hpos Hbnd Hacq)))).
Defined.

(** With all connections lent out and nothing shared, the acquisition
    fails. *)
Lemma AcquireConnection_failure_witness :
  share_inv (sharedConnections unshared_session)
  /\ exists s1 err,
       AcquireConnection range_order unshared_session = (s1, inl err)
       /\ sharedConnections s1 = ∅
       /\ err = Errorf "failed to get a shared connection".
Proof.
  assert (share_inv (sharedConnections unshared_session)) as Hinv
    by (apply Witnesses.share_inv_decide; vm_compute; reflexivity).
  assert (exists s1 err, AcquireConnection range_order unshared_session = (s1, inl err))
    as (s1 & err & Hacq) by (eexists _, _; vm_compute; reflexivity).
  destruct (SessionLaws.AcquireConnection_failure (PoolOps := ref_pool) range_order
              Witnesses.range_order_perm unshared_session s1 err Hinv Hacq)
    as (_ & Hs1 & Herr & _).
  split; [exact Hinv|]. exists s1, err. split; [exact Hacq|]. split; [exact Hs1 | exact Herr].
Defined.

(** Two connections asked of the busy pool, which shares three. *)
Lemma AcquireConnectionsMulti_result_witness :
  0 <= 2 <= max_int
  /\ exists s1 l,
       AcquireConnectionsMulti range_order range_conns 2 shared_session 2 = Some (s1, inr l)
       /\ NoDup l /\ Z.of_nat (length l) <= 2 /\ l <> [].
Proof.
  assert (0 <= 2 <= max_int) as Hnum by (unfold max_int; lia).
  assert (exists s1 r,
            AcquireConnectionsMulti range_order range_conns 2 shared_session 2 = Some (s1, r))
    as (s1 & r & Hacq) by (eexists _, _; vm_compute; reflexivity).
  destruct (SessionLaws.AcquireConnectionsMulti_result (PoolOps := ref_pool) range_order
              range_conns Witnesses.range_order_perm range_conns_perm 2 shared_session s1 2 r
              Hnum Hacq)
    as (l & Hr & Hnd & Hlen & Hne & _).
  split; [exact Hnum|]. exists s1, l. split; [rewrite <- Hr; exact Hacq|].
  split; [exact Hnd|]. split; [exact Hlen|]. apply Hne. lia.
Defined.

Lemma AcquireConnectionsMulti_returns_witness :
  0 <= 2 <= max_int /\ sharedConnections shared_session <> ∅
  /\ is_Some (AcquireConnectionsMulti range_order range_conns (Z.to_nat 2) shared_session 2).
Proof.
  assert (0 <= 2 <= max_int) as Hnum by (unfold max_int; lia).
  assert (sharedConnections shared_session <> ∅) as Hne.
  { intros Heq. apply (f_equal (fun m : gmap N Z => m !! 7%N)) in Heq.
    vm_compute in Heq. discriminate Heq. }
  split; [exact Hnum|]. split; [exact Hne|].
  exact (SessionLaws.AcquireConnectionsMulti_returns (PoolOps := ref_pool) range_order
           range_conns Witnesses.range_order_perm range_conns_perm shared_session 2 Hnum Hne).
Defined.

(** A session for an ordinary user whose configuration asks for
    transactions. *)
Lemma NewIRODSSession_result_witness :
  exists sess : IRODSSession server,
    NewIRODSSession (account shared_session) transactional = inr sess
    /\ sharedConnections sess = ∅
    /\ startNewTransaction sess = true.
Proof.
  assert (exists sess : IRODSSession server,
            NewIRODSSession (account shared_session) transactional = inr sess)
    as (sess & Hnew) by (eexists; vm_compute; reflexivity).
  destruct (SessionLaws.NewIRODSSession_result (PoolOps := ref_pool) _ _ sess Hnew)
    as (_ & _ & Hshared & _ & Hsnt & _).
  exists sess. split; [exact Hnew|]. split; [exact Hshared|]. rewrite Hsnt.
  vm_compute. reflexivity.
Defined.

(** The idle connection 5 is rolled back and handed out. *)
Lemma getConnectionFromPool_reused_witness :
  startNewTransaction reusing_session = true
  /\ exists p1 s1,
       Get (connectionPool reusing_session) = (p1, inr (5%N, false))
       /\ getConnectionFromPool reusing_session = (s1, inr 5%N)
       /\ PoorMansRollback p1 5%N = (connectionPool s1, None).
Proof.
  assert (exists p1 s1,
            Get (connectionPool reusing_session) = (p1, inr (5%N, false))
            /\ getConnectionFromPool reusing_session = (s1, inr 5%N)
            /\ poormansRollbackFail s1 = false)
    as (p1 & s1 & Hget & Hconn & Hkept)
    by (eexists _, _; split; [|split]; vm_compute; reflexivity).
  split; [reflexivity|]. exists p1, s1. split; [exact Hget|]. split; [exact Hconn|].
  destruct (SessionLaws.getConnectionFromPool_reused (PoolOps := ref_pool) reusing_session
              s1 5%N 5%N p1 eq_refl Hget Hconn) as [(_ & _ & Hroll) | (Hfail & _)].
  - exact Hroll.
  - rewrite Hkept in Hfail. discriminate Hfail.
Defined.

Abbreviation UploadDataObject :=
  (UploadDataObject (J := status_file) range_order 2 "local" "/zone/new" false ∅ true).
Abbreviation downloadTask :=
  (downloadTask (J := status_file) range_order 2 "/zone/obj" "demoResc" "local" 5 ∅ true).
Abbreviation download_run :=
  (download_run (J := status_file) range_order range_conns 2 "/zone/obj" "local" ∅ true).
Abbreviation DownloadDataObjectParallel :=
  (DownloadDataObjectParallel (J := status_file) range_order range_conns 2 tasks_for
     "/zone/obj" "local" ∅ true).

(** An upload on a session that shares connection 7 once: the upload
    takes a connection of its own from the pool and gives it back. *)
Lemma serial_transfer_returns_connection_witness :
  positive_shares (shared sharing_upload) /\ bounded_shares (shared sharing_upload)
  /\ exists w',
       UploadDataObject 10 sharing_upload "" = Some (Ret (w', None))
       /\ shared w' = {[7%N := 1]}.
Proof.
  assert (positive_shares (shared sharing_upload)) as Hpos
    by (apply positive_shares_decide; vm_compute; reflexivity).
  assert (bounded_shares (shared sharing_upload)) as Hbnd
    by (apply bounded_shares_decide; vm_compute; reflexivity).
  assert (exists w', UploadDataObject 10 sharing_upload "" = Some (Ret (w', None)))
    as (w' & Hrun) by (eexists; vm_compute; reflexivity).
  split; [exact Hpos|]. split; [exact Hbnd|]. exists w'. split; [exact Hrun|].
  exact (proj1 (TransferLaws.serial_transfer_returns_connection (J := status_file)
                  range_order Witnesses.range_order_perm 2 "local" "/zone/new" false ∅ true
                  sharing_upload Hpos Hbnd) 10%nat "" w' None Hrun).
Defined.

(** The upload of the file of five bytes in chunks of two. *)
Lemma UploadDataObject_progress_witness :
  fault (disk sharing_upload) OpRead "local" = None
  /\ files (disk sharing_upload) !! "local" = Some object5
  /\ exists w' rest,
       UploadDataObject 10 sharing_upload "" = Some (Ret (w', None))
       /\ progress w' = progress sharing_upload ++ (0, 5) :: rest
       /\ last ((0, 5) :: rest) = Some (5, 5).
Proof.
  assert (files (disk sharing_upload) !! "local" = Some object5) as Hfile
    by (vm_compute; reflexivity).
  assert (Z.of_nat (length object5) <= max_int) as Hmax by (vm_compute; discriminate).
  assert (exists w', UploadDataObject 10 sharing_upload "" = Some (Ret (w', None)))
    as (w' & Hrun) by (eexists; vm_compute; reflexivity).
  destruct (TransferLaws.UploadDataObject_progress (J := status_file) range_order 2 "local"
              "/zone/new" false ∅ 10 sharing_upload w' "" object5 ltac:(lia) eq_refl Hfile
              Hmax Hrun) as (rest & Hprog & _ & Hlast).
  split; [reflexivity|]. split; [exact Hfile|]. exists w', rest.
  split; [exact Hrun|]. split; [exact Hprog | exact Hlast].
Defined.

(** A download in two tasks on a pool that can give one connection: the
    sharing loop hands the same connection out twice, the list of
    connections has one element, and the second task finds none. *)
Lemma download_short_of_connections_witness :
  exists s1 connections,
    AcquireConnectionsMulti range_order range_conns 10 (session single_pool) 2
      = Some (s1, inr connections)
    /\ Z.of_nat (length connections) < 2
    /\ (download_run false 10 single_pool "demoResc" 5 2 = None
        \/ download_run false 10 single_pool "demoResc" 5 2
           = Some (Panic "index out of range")).
Proof.
  assert (exists s1 connections,
            AcquireConnectionsMulti range_order range_conns 10 (session single_pool) 2
              = Some (s1, inr connections)
            /\ Z.of_nat (length connections) < 2)
    as (s1 & connections & Hacq & Hshort)
    by (eexists _, _; split; vm_compute; reflexivity).
  exists s1, connections. split; [exact Hacq|]. split; [exact Hshort|].
  exact (TransferLaws.download_short_of_connections (J := status_file) range_order
           range_conns 2 "/zone/obj" "local" ∅ true false 10 single_pool "demoResc" 5 2
           s1 connections Hacq Hshort).
Defined.

Example download_panics_on_single_pool :
  DownloadDataObjectParallel 10
    (on_server (make 1 [] [] {["/zone/obj" := object5]}) ∅ {["local" := []]} no_status)
    "" 5 2
  = Some (Panic "index out of range").
Proof. vm_compute. reflexivity. Qed.

(** The worker of the task of five bytes on the server whose socket fails
    at the second read: it reconnects and goes on where it was. *)
Lemma downloadTask_writes_in_range_witness :
  taskOffset whole_task <= start_offset false whole_task flaky_world
    <= taskOffset whole_task + taskLength whole_task
  /\ exists w1 l b,
       downloadTask false 10 [7%N] whole_task flaky_world = Some (Ret w1)
       /\ wlog w1 = wlog flaky_world ++ l
       /\ tiles 0 0 b l /\ b <= 5.
Proof.
  assert (taskOffset whole_task <= start_offset false whole_task flaky_world
            <= taskOffset whole_task + taskLength whole_task) as Hstart
    by (vm_compute; split; discriminate).
  assert (exists w1, downloadTask false 10 [7%N] whole_task flaky_world = Some (Ret w1))
    as (w1 & Hrun) by (eexists; vm_compute; reflexivity).
  destruct (TransferLaws.downloadTask_writes_in_range (J := status_file) range_order 2
              "/zone/obj" "demoResc" "local" 5 ∅ true false whole_task 10 [7%N]
              flaky_world w1 Ref_fills_buffer ltac:(vm_compute; discriminate)
              ltac:(vm_compute; discriminate) ltac:(vm_compute; discriminate) Hstart Hrun)
    as (l & b & Hlog & Htiles & Hb).
  split; [exact Hstart|]. exists w1, l, b.
  split; [exact Hrun|]. split; [exact Hlog|]. split; [exact Htiles | exact Hb].
Defined.

(** The worker resumes a task of which two bytes are recorded as done. *)
Lemma resumable_worker_journal_witness :
  start_offset true whole_task (resuming 2) = 2
  /\ exists w1 l,
       downloadTask true 10 [7%N] whole_task (resuming 2) = Some (Ret w1)
       /\ wlog w1 = wlog (resuming 2) ++ l
       /\ journal_log w1 = journal_log (resuming 2) ++ map (entry_of whole_task) l.
Proof.
  assert (taskOffset whole_task <= start_offset true whole_task (resuming 2)
            <= taskOffset whole_task + taskLength whole_task) as Hstart
    by (vm_compute; split; discriminate).
  assert (exists w1, downloadTask true 10 [7%N] whole_task (resuming 2) = Some (Ret w1))
    as (w1 & Hrun) by (eexists; vm_compute; reflexivity).
  destruct (TransferLaws.resumable_worker_journal (J := status_file) range_order 2
              "/zone/obj" "demoResc" "local" 5 ∅ true whole_task 10 [7%N]
              (resuming 2) w1 Ref_fills_buffer ltac:(vm_compute; discriminate)
              ltac:(vm_compute; discriminate) ltac:(vm_compute; discriminate) Hstart Hrun)
    as (l & Hlog & Hjournal & _).
  split; [vm_compute; reflexivity|]. exists w1, l.
  split; [exact Hrun|]. split; [exact Hlog | exact Hjournal].
Defined.

(** The worker of a task whose five bytes are recorded as done. *)
Lemma complete_task_is_skipped_witness :
  start_offset true whole_task (resuming 5)
    = taskOffset whole_task + taskLength whole_task
  /\ exists w1,
       downloadTask true 10 [7%N] whole_task (resuming 5) = Some (Ret w1)
       /\ wlog w1 = wlog (resuming 5)
       /\ journal_log w1 = journal_log (resuming 5)
       /\ disk w1 = disk (resuming 5).
Proof.
  assert (start_offset true whole_task (resuming 5)
            = taskOffset whole_task + taskLength whole_task) as Hstart
    by (vm_compute; reflexivity).
  assert (exists w1, downloadTask true 10 [7%N] whole_task (resuming 5) = Some (Ret w1))
    as (w1 & Hrun) by (eexists; vm_compute; reflexivity).
  split; [exact Hstart|]. exists w1. split; [exact Hrun|].
  exact (TransferLaws.complete_task_is_skipped (J := status_file) range_order 2
           "/zone/obj" "demoResc" "local" 5 ∅ true whole_task 10 [7%N] (resuming 5) w1
           ltac:(vm_compute; discriminate) ltac:(vm_compute; discriminate)
           ltac:(vm_compute; discriminate) Hstart Hrun).
Defined.

(** A plain download, of one task, on a session whose configuration
    allows a download no connection. *)
Lemma download_without_tasks_witness :
  download_tasks tasks_for no_connection_world 1 5 <= 0
  /\ DownloadDataObjectParallel 10 no_connection_world "" 5 1
     = Some (Panic "integer divide by zero").
Proof.
  assert (download_tasks tasks_for no_connection_world 1 5 <= 0) as Htasks
    by (vm_compute; discriminate).
  split; [exact Htasks|].
  destruct (TransferLaws.download_without_tasks (J := status_file) range_order range_conns
              2 tasks_for "/zone/obj" "local" ∅ true 10 no_connection_world "" 5 1
              ltac:(discriminate) Htasks) as [(w' & e & Hrun) | Hrun].
  - exfalso. revert Hrun. vm_compute. discriminate.
  - rewrite Hrun. vm_compute. reflexivity.
Defined.

End LawWitnesses.
